(** * panka: the rope text buffer and the undo/redo engine

    A shallow embedding of [buffer/rope.go] (package [buffer]) and of the
    undo/redo part of package [editor] ([editor/main.go], [editor/input.go],
    [editor/text_manipulation.go], [editor/render.go]), followed by the
    properties of the specification that were checked against them.

    Conventions of the embedding:
    - a Go [int] is a [Z]; document sizes stay far below [2^63], so no
      wrap-around is modelled;
    - a [rune] is a [Z] (Go: [int32]);
    - a Go [string] is its sequence of bytes, a [list Z];
    - a slice [[]T] is a [list T]; [s[:i]] is [take i s], [s[i:]] is
      [drop i s] and [s[i]] is [at_ s i].  Out-of-range slice expressions
      make the Go program stop; on the ropes a program can build, the
      positions that [getIndex] computes are in range (lemma
      [getIndex_range]);
    - a method with a pointer receiver that mutates it returns the new
      receiver. *)

From Stdlib Require Import ZArith List Bool Lia.
Import ListNotations.
Open Scope Z_scope.

(** ** Slices *)

Definition len {A : Type} (l : list A) : Z := Z.of_nat (List.length l).
Definition take {A : Type} (i : Z) (l : list A) : list A := firstn (Z.to_nat i) l.
Definition drop {A : Type} (i : Z) (l : list A) : list A := skipn (Z.to_nat i) l.
Definition at_ (l : list Z) (i : Z) : Z := nth (Z.to_nat i) l 0.

(** ** Runes and strings (Go language semantics)

    [string(rs)] for a rune slice is the concatenation of the UTF-8
    encodings of its elements, values outside the range of valid code points
    (and surrogate halves) being encoded as U+FFFD; [[]rune(s)] decodes a
    string, every byte that does not start a well-formed encoding giving
    U+FFFD.  The bit patterns are those of Go's [unicode/utf8]. *)

Abbreviation rune := Z (only parsing).

Definition RuneError : rune := 0xFFFD.
Definition RuneSelf : Z := 0x80.
Definition MaxRune : rune := 0x10FFFF.
Definition surrogateMin : rune := 0xD800.
Definition surrogateMax : rune := 0xDFFF.
Definition rune1Max : rune := 0x7F.
Definition rune2Max : rune := 0x7FF.
Definition rune3Max : rune := 0xFFFF.

Definition tx : Z := 0x80.
Definition t2 : Z := 0xC0.
Definition t3 : Z := 0xE0.
Definition t4 : Z := 0xF0.
Definition t5 : Z := 0xF8.
Definition maskx : Z := 0x3F.
Definition mask2 : Z := 0x1F.
Definition mask3 : Z := 0x0F.
Definition mask4 : Z := 0x07.
Definition locb : Z := 0x80.
Definition hicb : Z := 0xBF.

Definition newline : rune := 10.
Definition carriage_return : rune := 13.

Definition ValidRune (r : rune) : bool :=
  ((0 <=? r) && (r <? surrogateMin)) || ((surrogateMax <? r) && (r <=? MaxRune)).

(** What a rune becomes when it goes through a string. *)
Definition sanitize (r : rune) : rune := if ValidRune r then r else RuneError.

Definition encoderune (r0 : rune) : list Z :=
  let r := sanitize r0 in
  if r <=? rune1Max then [r]
  else if r <=? rune2Max then
    [Z.lor t2 (Z.shiftr r 6); Z.lor tx (Z.land r maskx)]
  else if r <=? rune3Max then
    [Z.lor t3 (Z.shiftr r 12);
     Z.lor tx (Z.land (Z.shiftr r 6) maskx);
     Z.lor tx (Z.land r maskx)]
  else
    [Z.lor t4 (Z.shiftr r 18);
     Z.lor tx (Z.land (Z.shiftr r 12) maskx);
     Z.lor tx (Z.land (Z.shiftr r 6) maskx);
     Z.lor tx (Z.land r maskx)].

(** [string(rs)] *)
Definition string_of_runes (rs : list rune) : list Z := flat_map encoderune rs.

Definition is_cont (b : Z) : bool := (locb <=? b) && (b <=? hicb).

(** [[]rune(s)]; a byte that does not start a well-formed encoding gives
    U+FFFD and decoding goes on with the next byte. *)
Fixpoint runes_of_string (s : list Z) : list rune :=
  match s with
  | [] => []
  | b0 :: s0 =>
    if b0 <? RuneSelf then b0 :: runes_of_string s0
    else if (t2 <=? b0) && (b0 <? t3) then
      match s0 with
      | b1 :: s1 =>
        if is_cont b1 then
          let r := Z.lor (Z.shiftl (Z.land b0 mask2) 6) (Z.land b1 maskx) in
          if rune1Max <? r then r :: runes_of_string s1
          else RuneError :: runes_of_string s0
        else RuneError :: runes_of_string s0
      | _ => RuneError :: runes_of_string s0
      end
    else if (t3 <=? b0) && (b0 <? t4) then
      match s0 with
      | b1 :: b2 :: s2 =>
        if is_cont b1 && is_cont b2 then
          let r := Z.lor (Z.lor (Z.shiftl (Z.land b0 mask3) 12)
                                (Z.shiftl (Z.land b1 maskx) 6))
                         (Z.land b2 maskx) in
          if (rune2Max <? r) && negb ((surrogateMin <=? r) && (r <=? surrogateMax))
          then r :: runes_of_string s2
          else RuneError :: runes_of_string s0
        else RuneError :: runes_of_string s0
      | _ => RuneError :: runes_of_string s0
      end
    else if (t4 <=? b0) && (b0 <? t5) then
      match s0 with
      | b1 :: b2 :: b3 :: s3 =>
        if is_cont b1 && is_cont b2 && is_cont b3 then
          let r := Z.lor (Z.lor (Z.lor (Z.shiftl (Z.land b0 mask4) 18)
                                       (Z.shiftl (Z.land b1 maskx) 12))
                                (Z.shiftl (Z.land b2 maskx) 6))
                         (Z.land b3 maskx) in
          if (rune3Max <? r) && (r <=? MaxRune)
          then r :: runes_of_string s3
          else RuneError :: runes_of_string s0
        else RuneError :: runes_of_string s0
      | _ => RuneError :: runes_of_string s0
      end
    else RuneError :: runes_of_string s0
  end.

(** ** Errors

    One constructor per [fmt.Errorf] site of [rope.go]; [ErrWrite] stands for
    whatever error an [io.Writer] returns. *)

Inductive error : Type :=
| ErrEmptyBuffer
| ErrStartOfDocument
| ErrNothingToDelete
| ErrInvalidPosition (line col : Z) (cause : error)
| ErrRuneAtFailed (cause : error)
| ErrLineBufferEmpty (line : Z)
| ErrLineNegative (line : Z)
| ErrLineOutOfBounds (line maxLine : Z)
| ErrIndexBufferEmpty (index : Z)
| ErrIndexOutOfBounds (index length : Z)
| ErrLeafIndex
| ErrSliceBufferEmpty
| ErrWrite (code : Z).

(** ** [sort.SearchInts] (Go standard library)

    The binary search of [sort.Search]; the loop halves [j - i], so [n + 1]
    iterations are more than it can take. *)

Fixpoint search_loop (fuel : nat) (f : Z -> bool) (i j : Z) : Z :=
  match fuel with
  | O => i
  | S fuel' =>
    if i <? j then
      let h := Z.shiftr (i + j) 1 in
      if negb (f h) then search_loop fuel' f (h + 1) j
      else search_loop fuel' f i h
    else i
  end.

Definition Search (n : Z) (f : Z -> bool) : Z :=
  search_loop (S (Z.to_nat n)) f 0 n.

Definition SearchInts (a : list Z) (x : Z) : Z :=
  Search (len a) (fun i => x <=? at_ a i).

(** ** [io.Writer]

    A writer is a state [W] with its [Write] method, which returns the number
    of bytes it took and an optional error. *)

Definition write_fn (W : Type) : Type := W -> list Z -> W * (Z * option error).

(** [strings.Builder] and [bytes.Buffer]: append everything, never fail. *)
Definition builder_Write : write_fn (list Z) :=
  fun buf p => (buf ++ p, (len p, None)).

(** * Package [buffer]: [rope.go] *)

Module Buffer.

Definition maxLeafSize : Z := 1024.
Definition minLeafSize : Z := 512.
(** [rebalanceThreshold = 3.0] *)
Definition rebalanceThreshold : Z := 3.

(** [type node struct { left, right *node; weight int; data []rune }]:
    a node is a leaf when [data != nil].  Internal nodes are only ever built
    by the split in [insert], with both children set, and a child is only
    ever replaced by the result of [insert] or [delete] on it, so no child
    is nil. *)
Inductive node : Type :=
| Leaf (data : list rune)
| Internal (left right : node) (weight : Z).

(** [type Rope struct { root *node; lineStarts []int }] *)
Record Rope : Type := mkRope { root : option node; lineStarts : list Z }.

Definition isLeaf (n : node) : bool :=
  match n with Leaf _ => true | Internal _ _ _ => false end.

Fixpoint length (n : node) : Z :=
  match n with
  | Leaf data => len data
  | Internal _ nr weight => weight + length nr
  end.

(** The [for i, r := range n.data] loop of [rebuildLineIndexHelper];
    [pos] is [offset + i]. *)
Fixpoint rebuildLineIndexLeaf (data : list rune) (pos : Z) (lineStarts : list Z)
  : list Z :=
  match data with
  | [] => lineStarts
  | r :: rest =>
    rebuildLineIndexLeaf rest (pos + 1)
      (if r =? newline then lineStarts ++ [pos + 1] else lineStarts)
  end.

Fixpoint rebuildLineIndexHelper (n : node) (offset : Z) (lineStarts : list Z)
  : list Z :=
  match n with
  | Leaf data => rebuildLineIndexLeaf data offset lineStarts
  | Internal nl nr weight =>
    rebuildLineIndexHelper nr (offset + weight)
      (rebuildLineIndexHelper nl offset lineStarts)
  end.

Definition rebuildLineIndex (r : Rope) : Rope :=
  match root r with
  | None => mkRope None [0]
  | Some n => mkRope (Some n) (rebuildLineIndexHelper n 0 [0])
  end.

Definition NewRope (initialText : list Z) : Rope :=
  rebuildLineIndex (mkRope (Some (Leaf (runes_of_string initialText))) []).

Definition getIndex (r : Rope) (line col : Z) : Z * option error :=
  match root r with
  | None =>
    if (line =? 0) && (col =? 0) then (0, None)
    else (0, Some (ErrLineBufferEmpty line))
  | Some n =>
    if line <? 0 then (0, Some (ErrLineNegative line))
    else if len (lineStarts r) <=? line then
      (length n, Some (ErrLineOutOfBounds line (len (lineStarts r) - 1)))
    else
      let startIndex := at_ (lineStarts r) line in
      let lineCharLength :=
        if line + 1 <? len (lineStarts r)
        then (at_ (lineStarts r) (line + 1) - startIndex) - 1
        else length n - startIndex in
      let col := if col <? 0 then 0 else col in
      let col := if lineCharLength <? col then lineCharLength else col in
      (startIndex + col, None)
  end.

Fixpoint runeAt (n : node) (index : Z) : rune * option error :=
  match n with
  | Leaf data =>
    if (index <? 0) || (len data <=? index) then (0, Some ErrLeafIndex)
    else (at_ data index, None)
  | Internal nl nr weight =>
    if index <? weight then runeAt nl index
    else runeAt nr (index - weight)
  end.

Definition RuneAt (r : Rope) (index : Z) : rune * option error :=
  match root r with
  | None => (0, Some (ErrIndexBufferEmpty index))
  | Some n =>
    let length := length n in
    if (index <? 0) || (length <=? index)
    then (0, Some (ErrIndexOutOfBounds index length))
    else runeAt n index
  end.

Fixpoint insert (n : node) (index : Z) (ru : rune) : node :=
  match n with
  | Leaf data =>
    let data := take index data ++ (ru :: drop index data) in
    if maxLeafSize <? len data then
      let mid := len data / 2 in
      let leftData := take mid data in
      let rightData := drop mid data in
      Internal (Leaf leftData) (Leaf rightData) (len leftData)
    else Leaf data
  | Internal nl nr weight =>
    if index <? weight
    then Internal (insert nl index ru) nr (weight + 1)
    else Internal nl (insert nr (index - weight) ru) weight
  end.

Fixpoint delete (n : node) (index : Z) : node :=
  match n with
  | Leaf data => Leaf (take index data ++ drop (index + 1) data)
  | Internal nl nr weight =>
    let '(nl, nr, weight) :=
      if index <? weight
      then (delete nl index, nr, weight - 1)
      else (nl, delete nr (index - weight), weight) in
    if length nl =? 0 then nr
    else if length nr =? 0 then nl
    else Internal nl nr weight
  end.

Fixpoint toString (n : node) : list Z :=
  match n with
  | Leaf data => string_of_runes data
  | Internal nl nr _ => toString nl ++ toString nr
  end.

Definition findLine (r : Rope) (index : Z) : Z :=
  let i := SearchInts (lineStarts r) index in
  if i =? 0 then 0
  else if (i <? len (lineStarts r)) && (at_ (lineStarts r) i =? index) then i
  else i - 1.

(** [for i := from; i < len(ls); i++ { ls[i] += delta }] *)
Definition shiftFrom (from delta : Z) (ls : list Z) : list Z :=
  take from ls ++ map (fun x => x + delta) (drop from ls).

Definition updateLineIndexOnInsert (r : Rope) (index : Z) (ru : rune) : Rope :=
  let line := findLine r index in
  if ru =? newline then
    let newLineStartIndex := index + 1 in
    let ls := shiftFrom (line + 1) 1 (lineStarts r) in
    mkRope (root r)
      (take (line + 1) ls ++ (newLineStartIndex :: drop (line + 1) ls))
  else
    mkRope (root r) (shiftFrom (line + 1) 1 (lineStarts r)).

Definition updateLineIndexOnDelete (r : Rope) (index : Z) (ru : rune) : Rope :=
  let line := findLine r index in
  if ru =? newline then
    let ls :=
      if line + 1 <? len (lineStarts r)
      then take (line + 1) (lineStarts r) ++ drop (line + 2) (lineStarts r)
      else lineStarts r in
    mkRope (root r) (shiftFrom (line + 1) (-1) ls)
  else
    mkRope (root r) (shiftFrom (line + 1) (-1) (lineStarts r)).

Section WithWriter.
Context {W : Type} (Write : write_fn W).

Fixpoint writeTo (n : node) (w : W) : W * (Z * option error) :=
  match n with
  | Leaf data => Write w (string_of_runes data)
  | Internal nl nr _ =>
    let total := 0 in
    let '(w, (written, err)) := writeTo nl w in
    match err with
    | Some e => (w, (total, Some e))
    | None =>
      let total := total + written in
      let '(w, (written, err)) := writeTo nr w in
      match err with
      | Some e => (w, (total, Some e))
      | None => (w, (total + written, None))
      end
    end
  end.

Definition WriteTo (r : Rope) (w : W) : W * (Z * option error) :=
  match root r with
  | None => (w, (0, None))
  | Some n => writeTo n w
  end.

End WithWriter.

(** [float64(max(l, r)) / float64(min(l, r)) > 3.0]; for the positive integers
    a document can have as sizes the quotient exceeds 3 exactly when
    [max > 3 * min]. *)
Definition shouldRebalance (r : Rope) : bool :=
  match root r with
  | None => false
  | Some (Leaf _) => false
  | Some (Internal _ _ weight as n) =>
    let leftLen := weight in
    let rightLen := length n - leftLen in
    if (leftLen =? 0) || (rightLen =? 0) then false
    else rebalanceThreshold * Z.min leftLen rightLen <? Z.max leftLen rightLen
  end.

Definition rebalance (r : Rope) : Rope :=
  match root r with
  | None => r
  | Some n =>
    let content := fst (writeTo builder_Write n []) in
    rebuildLineIndex (mkRope (Some (Leaf (runes_of_string content))) (lineStarts r))
  end.

Definition Insert (r : Rope) (line col : Z) (ru : rune) : Rope * option error :=
  let n := match root r with None => Leaf [] | Some n => n end in
  let r := mkRope (Some n) (lineStarts r) in
  match getIndex r line col with
  | (_, Some err) => (r, Some (ErrInvalidPosition line col err))
  | (index, None) =>
    let r := mkRope (Some (insert n index ru)) (lineStarts r) in
    let r := updateLineIndexOnInsert r index ru in
    let r := if shouldRebalance r then rebalance r else r in
    (r, None)
  end.

Definition Delete (r : Rope) (line col : Z) : Rope * option error :=
  match root r with
  | None => (r, Some ErrEmptyBuffer)
  | Some n =>
    if (col =? 0) && (line =? 0) then (r, Some ErrStartOfDocument)
    else
      match getIndex r line col with
      | (_, Some err) => (r, Some (ErrInvalidPosition line col err))
      | (index, None) =>
        if index =? 0 then (r, Some ErrNothingToDelete)
        else
          let deleteIndex := index - 1 in
          match RuneAt r deleteIndex with
          | (_, Some err) => (r, Some (ErrRuneAtFailed err))
          | (ru, None) =>
            let r := mkRope (Some (delete n deleteIndex)) (lineStarts r) in
            let r := updateLineIndexOnDelete r deleteIndex ru in
            let r := if shouldRebalance r then rebalance r else r in
            (r, None)
          end
      end
  end.

Fixpoint sliceHelper (n : node) (startIndex endIndex offset : Z) (result : list Z)
  : list Z :=
  match n with
  | Leaf data =>
    let leafStart := offset in
    let sliceStart := Z.max 0 (startIndex - leafStart) in
    let sliceEnd := Z.min (len data) (endIndex - leafStart) in
    if sliceStart <? sliceEnd
    then result ++ string_of_runes (drop sliceStart (take sliceEnd data))
    else result
  | Internal nl nr weight =>
    let leftEnd := offset + weight in
    let result :=
      if (startIndex <? leftEnd) && (offset <? endIndex)
      then sliceHelper nl startIndex endIndex offset result
      else result in
    if (leftEnd <? endIndex) && (leftEnd <? endIndex)
    then sliceHelper nr startIndex endIndex leftEnd result
    else result
  end.

Definition slice (r : Rope) (startIndex endIndex : Z) : list Z :=
  match root r with
  | None => []
  | Some n =>
    if endIndex <=? startIndex then []
    else sliceHelper n startIndex endIndex 0 []
  end.

Definition sliceRuneAt (r : Rope) (index : Z) : rune * option error :=
  match root r with
  | None => (0, Some ErrSliceBufferEmpty)
  | Some n =>
    let length := length n in
    if (index <? 0) || (length <=? index)
    then (0, Some (ErrIndexOutOfBounds index length))
    else runeAt n index
  end.

Definition GetLine (r : Rope) (line : Z) : list Z :=
  match root r with
  | None => []
  | Some n =>
    if (line <? 0) || (len (lineStarts r) <=? line) then []
    else
      let startIndex := at_ (lineStarts r) line in
      let endIndex :=
        if line + 1 <? len (lineStarts r)
        then at_ (lineStarts r) (line + 1)
        else length n in
      let endIndex :=
        if startIndex <? endIndex then
          match sliceRuneAt r (endIndex - 1) with
          | (lastRune, None) =>
            if lastRune =? newline then
              let endIndex := endIndex - 1 in
              if startIndex <? endIndex then
                match sliceRuneAt r (endIndex - 1) with
                | (prevRune, None) =>
                  if prevRune =? carriage_return then endIndex - 1 else endIndex
                | (_, Some _) => endIndex
                end
              else endIndex
            else endIndex
          | (_, Some _) => endIndex
          end
        else endIndex in
      slice r startIndex endIndex
  end.

Definition LineCount (r : Rope) : Z :=
  if len (lineStarts r) =? 0 then 1 else len (lineStarts r).

End Buffer.

(** * Package [editor]: the undo/redo engine and the key handler *)

Module Editor.
Import Buffer.

(** [time.Duration] counts nanoseconds; a [time.Time] is a number of
    nanoseconds too. *)
Definition Millisecond : Z := 1000000.

(** [type opEntry struct]; its field [r] is [op_r] here. *)
Record opEntry : Type := mkOp {
  insertLine : Z;
  insertCol : Z;
  delLine : Z;
  delCol : Z;
  op_r : rune
}.

Record undoAction : Type := mkAction {
  isInsert : bool;
  ops : list opEntry;
  groupID : Z;
  isBackspace : bool
}.

(** [type Editor struct], restricted to the fields that the editing and
    undo/redo code reads: the buffer, the cursor, the selection, the two
    stacks and the grouping state.  The fields of the prompt, search, file
    and screen code (status message, viewport, modes, [dirty], ...) are left
    out, and so are the assignments to them.  A stack is a Go slice: its top
    is its last element. *)
Record Editor : Type := mkEditor {
  buffer : Buffer.Rope;
  cursorX : Z;
  cursorY : Z;
  extraCursorHeight : Z;
  undoStack : list undoAction;
  redoStack : list undoAction;
  selectionActive : bool;
  selectionAnchorX : Z;
  selectionAnchorY : Z;
  undoGrouping : bool;
  currentGroupID : Z;
  lastGroupID : Z;
  typingEntries : list opEntry;
  typingActive : bool;
  lastTypeTime : Z;
  typeGroupThreshold : Z;
  backspaceEntries : list opEntry;
  backspaceActive : bool;
  lastBackspaceTime : Z;
  backspaceThreshold : Z;
  deleteEntries : list opEntry;
  deleteActive : bool;
  lastDeleteTime : Z;
  deleteThreshold : Z
}.

(** Assignment to one field. *)
Definition set_buffer (v : Buffer.Rope) (e : Editor) : Editor :=
  mkEditor v (cursorX e) (cursorY e) (extraCursorHeight e) (undoStack e)
    (redoStack e) (selectionActive e) (selectionAnchorX e)
    (selectionAnchorY e) (undoGrouping e) (currentGroupID e) (lastGroupID e)
    (typingEntries e) (typingActive e) (lastTypeTime e) (typeGroupThreshold e)
    (backspaceEntries e) (backspaceActive e) (lastBackspaceTime e)
    (backspaceThreshold e) (deleteEntries e) (deleteActive e)
    (lastDeleteTime e) (deleteThreshold e).

Definition set_cursorX (v : Z) (e : Editor) : Editor :=
  mkEditor (buffer e) v (cursorY e) (extraCursorHeight e) (undoStack e)
    (redoStack e) (selectionActive e) (selectionAnchorX e)
    (selectionAnchorY e) (undoGrouping e) (currentGroupID e) (lastGroupID e)
    (typingEntries e) (typingActive e) (lastTypeTime e) (typeGroupThreshold e)
    (backspaceEntries e) (backspaceActive e) (lastBackspaceTime e)
    (backspaceThreshold e) (deleteEntries e) (deleteActive e)
    (lastDeleteTime e) (deleteThreshold e).

Definition set_cursorY (v : Z) (e : Editor) : Editor :=
  mkEditor (buffer e) (cursorX e) v (extraCursorHeight e) (undoStack e)
    (redoStack e) (selectionActive e) (selectionAnchorX e)
    (selectionAnchorY e) (undoGrouping e) (currentGroupID e) (lastGroupID e)
    (typingEntries e) (typingActive e) (lastTypeTime e) (typeGroupThreshold e)
    (backspaceEntries e) (backspaceActive e) (lastBackspaceTime e)
    (backspaceThreshold e) (deleteEntries e) (deleteActive e)
    (lastDeleteTime e) (deleteThreshold e).

Definition set_extraCursorHeight (v : Z) (e : Editor) : Editor :=
  mkEditor (buffer e) (cursorX e) (cursorY e) v (undoStack e) (redoStack e)
    (selectionActive e) (selectionAnchorX e) (selectionAnchorY e)
    (undoGrouping e) (currentGroupID e) (lastGroupID e) (typingEntries e)
    (typingActive e) (lastTypeTime e) (typeGroupThreshold e)
    (backspaceEntries e) (backspaceActive e) (lastBackspaceTime e)
    (backspaceThreshold e) (deleteEntries e) (deleteActive e)
    (lastDeleteTime e) (deleteThreshold e).

Definition set_undoStack (v : list undoAction) (e : Editor) : Editor :=
  mkEditor (buffer e) (cursorX e) (cursorY e) (extraCursorHeight e) v
    (redoStack e) (selectionActive e) (selectionAnchorX e)
    (selectionAnchorY e) (undoGrouping e) (currentGroupID e) (lastGroupID e)
    (typingEntries e) (typingActive e) (lastTypeTime e) (typeGroupThreshold e)
    (backspaceEntries e) (backspaceActive e) (lastBackspaceTime e)
    (backspaceThreshold e) (deleteEntries e) (deleteActive e)
    (lastDeleteTime e) (deleteThreshold e).

Definition set_redoStack (v : list undoAction) (e : Editor) : Editor :=
  mkEditor (buffer e) (cursorX e) (cursorY e) (extraCursorHeight e)
    (undoStack e) v (selectionActive e) (selectionAnchorX e)
    (selectionAnchorY e) (undoGrouping e) (currentGroupID e) (lastGroupID e)
    (typingEntries e) (typingActive e) (lastTypeTime e) (typeGroupThreshold e)
    (backspaceEntries e) (backspaceActive e) (lastBackspaceTime e)
    (backspaceThreshold e) (deleteEntries e) (deleteActive e)
    (lastDeleteTime e) (deleteThreshold e).

Definition set_selectionActive (v : bool) (e : Editor) : Editor :=
  mkEditor (buffer e) (cursorX e) (cursorY e) (extraCursorHeight e)
    (undoStack e) (redoStack e) v (selectionAnchorX e) (selectionAnchorY e)
    (undoGrouping e) (currentGroupID e) (lastGroupID e) (typingEntries e)
    (typingActive e) (lastTypeTime e) (typeGroupThreshold e)
    (backspaceEntries e) (backspaceActive e) (lastBackspaceTime e)
    (backspaceThreshold e) (deleteEntries e) (deleteActive e)
    (lastDeleteTime e) (deleteThreshold e).

Definition set_selectionAnchorX (v : Z) (e : Editor) : Editor :=
  mkEditor (buffer e) (cursorX e) (cursorY e) (extraCursorHeight e)
    (undoStack e) (redoStack e) (selectionActive e) v (selectionAnchorY e)
    (undoGrouping e) (currentGroupID e) (lastGroupID e) (typingEntries e)
    (typingActive e) (lastTypeTime e) (typeGroupThreshold e)
    (backspaceEntries e) (backspaceActive e) (lastBackspaceTime e)
    (backspaceThreshold e) (deleteEntries e) (deleteActive e)
    (lastDeleteTime e) (deleteThreshold e).

Definition set_selectionAnchorY (v : Z) (e : Editor) : Editor :=
  mkEditor (buffer e) (cursorX e) (cursorY e) (extraCursorHeight e)
    (undoStack e) (redoStack e) (selectionActive e) (selectionAnchorX e) v
    (undoGrouping e) (currentGroupID e) (lastGroupID e) (typingEntries e)
    (typingActive e) (lastTypeTime e) (typeGroupThreshold e)
    (backspaceEntries e) (backspaceActive e) (lastBackspaceTime e)
    (backspaceThreshold e) (deleteEntries e) (deleteActive e)
    (lastDeleteTime e) (deleteThreshold e).

Definition set_undoGrouping (v : bool) (e : Editor) : Editor :=
  mkEditor (buffer e) (cursorX e) (cursorY e) (extraCursorHeight e)
    (undoStack e) (redoStack e) (selectionActive e) (selectionAnchorX e)
    (selectionAnchorY e) v (currentGroupID e) (lastGroupID e)
    (typingEntries e) (typingActive e) (lastTypeTime e) (typeGroupThreshold e)
    (backspaceEntries e) (backspaceActive e) (lastBackspaceTime e)
    (backspaceThreshold e) (deleteEntries e) (deleteActive e)
    (lastDeleteTime e) (deleteThreshold e).

Definition set_currentGroupID (v : Z) (e : Editor) : Editor :=
  mkEditor (buffer e) (cursorX e) (cursorY e) (extraCursorHeight e)
    (undoStack e) (redoStack e) (selectionActive e) (selectionAnchorX e)
    (selectionAnchorY e) (undoGrouping e) v (lastGroupID e) (typingEntries e)
    (typingActive e) (lastTypeTime e) (typeGroupThreshold e)
    (backspaceEntries e) (backspaceActive e) (lastBackspaceTime e)
    (backspaceThreshold e) (deleteEntries e) (deleteActive e)
    (lastDeleteTime e) (deleteThreshold e).

Definition set_lastGroupID (v : Z) (e : Editor) : Editor :=
  mkEditor (buffer e) (cursorX e) (cursorY e) (extraCursorHeight e)
    (undoStack e) (redoStack e) (selectionActive e) (selectionAnchorX e)
    (selectionAnchorY e) (undoGrouping e) (currentGroupID e) v
    (typingEntries e) (typingActive e) (lastTypeTime e) (typeGroupThreshold e)
    (backspaceEntries e) (backspaceActive e) (lastBackspaceTime e)
    (backspaceThreshold e) (deleteEntries e) (deleteActive e)
    (lastDeleteTime e) (deleteThreshold e).

Definition set_typingEntries (v : list opEntry) (e : Editor) : Editor :=
  mkEditor (buffer e) (cursorX e) (cursorY e) (extraCursorHeight e)
    (undoStack e) (redoStack e) (selectionActive e) (selectionAnchorX e)
    (selectionAnchorY e) (undoGrouping e) (currentGroupID e) (lastGroupID e) v
    (typingActive e) (lastTypeTime e) (typeGroupThreshold e)
    (backspaceEntries e) (backspaceActive e) (lastBackspaceTime e)
    (backspaceThreshold e) (deleteEntries e) (deleteActive e)
    (lastDeleteTime e) (deleteThreshold e).

Definition set_typingActive (v : bool) (e : Editor) : Editor :=
  mkEditor (buffer e) (cursorX e) (cursorY e) (extraCursorHeight e)
    (undoStack e) (redoStack e) (selectionActive e) (selectionAnchorX e)
    (selectionAnchorY e) (undoGrouping e) (currentGroupID e) (lastGroupID e)
    (typingEntries e) v (lastTypeTime e) (typeGroupThreshold e)
    (backspaceEntries e) (backspaceActive e) (lastBackspaceTime e)
    (backspaceThreshold e) (deleteEntries e) (deleteActive e)
    (lastDeleteTime e) (deleteThreshold e).

Definition set_lastTypeTime (v : Z) (e : Editor) : Editor :=
  mkEditor (buffer e) (cursorX e) (cursorY e) (extraCursorHeight e)
    (undoStack e) (redoStack e) (selectionActive e) (selectionAnchorX e)
    (selectionAnchorY e) (undoGrouping e) (currentGroupID e) (lastGroupID e)
    (typingEntries e) (typingActive e) v (typeGroupThreshold e)
    (backspaceEntries e) (backspaceActive e) (lastBackspaceTime e)
    (backspaceThreshold e) (deleteEntries e) (deleteActive e)
    (lastDeleteTime e) (deleteThreshold e).

Definition set_typeGroupThreshold (v : Z) (e : Editor) : Editor :=
  mkEditor (buffer e) (cursorX e) (cursorY e) (extraCursorHeight e)
    (undoStack e) (redoStack e) (selectionActive e) (selectionAnchorX e)
    (selectionAnchorY e) (undoGrouping e) (currentGroupID e) (lastGroupID e)
    (typingEntries e) (typingActive e) (lastTypeTime e) v (backspaceEntries e)
    (backspaceActive e) (lastBackspaceTime e) (backspaceThreshold e)
    (deleteEntries e) (deleteActive e) (lastDeleteTime e) (deleteThreshold e).

Definition set_backspaceEntries (v : list opEntry) (e : Editor) : Editor :=
  mkEditor (buffer e) (cursorX e) (cursorY e) (extraCursorHeight e)
    (undoStack e) (redoStack e) (selectionActive e) (selectionAnchorX e)
    (selectionAnchorY e) (undoGrouping e) (currentGroupID e) (lastGroupID e)
    (typingEntries e) (typingActive e) (lastTypeTime e) (typeGroupThreshold e)
    v (backspaceActive e) (lastBackspaceTime e) (backspaceThreshold e)
    (deleteEntries e) (deleteActive e) (lastDeleteTime e) (deleteThreshold e).

Definition set_backspaceActive (v : bool) (e : Editor) : Editor :=
  mkEditor (buffer e) (cursorX e) (cursorY e) (extraCursorHeight e)
    (undoStack e) (redoStack e) (selectionActive e) (selectionAnchorX e)
    (selectionAnchorY e) (undoGrouping e) (currentGroupID e) (lastGroupID e)
    (typingEntries e) (typingActive e) (lastTypeTime e) (typeGroupThreshold e)
    (backspaceEntries e) v (lastBackspaceTime e) (backspaceThreshold e)
    (deleteEntries e) (deleteActive e) (lastDeleteTime e) (deleteThreshold e).

Definition set_lastBackspaceTime (v : Z) (e : Editor) : Editor :=
  mkEditor (buffer e) (cursorX e) (cursorY e) (extraCursorHeight e)
    (undoStack e) (redoStack e) (selectionActive e) (selectionAnchorX e)
    (selectionAnchorY e) (undoGrouping e) (currentGroupID e) (lastGroupID e)
    (typingEntries e) (typingActive e) (lastTypeTime e) (typeGroupThreshold e)
    (backspaceEntries e) (backspaceActive e) v (backspaceThreshold e)
    (deleteEntries e) (deleteActive e) (lastDeleteTime e) (deleteThreshold e).

Definition set_backspaceThreshold (v : Z) (e : Editor) : Editor :=
  mkEditor (buffer e) (cursorX e) (cursorY e) (extraCursorHeight e)
    (undoStack e) (redoStack e) (selectionActive e) (selectionAnchorX e)
    (selectionAnchorY e) (undoGrouping e) (currentGroupID e) (lastGroupID e)
    (typingEntries e) (typingActive e) (lastTypeTime e) (typeGroupThreshold e)
    (backspaceEntries e) (backspaceActive e) (lastBackspaceTime e) v
    (deleteEntries e) (deleteActive e) (lastDeleteTime e) (deleteThreshold e).

Definition set_deleteEntries (v : list opEntry) (e : Editor) : Editor :=
  mkEditor (buffer e) (cursorX e) (cursorY e) (extraCursorHeight e)
    (undoStack e) (redoStack e) (selectionActive e) (selectionAnchorX e)
    (selectionAnchorY e) (undoGrouping e) (currentGroupID e) (lastGroupID e)
    (typingEntries e) (typingActive e) (lastTypeTime e) (typeGroupThreshold e)
    (backspaceEntries e) (backspaceActive e) (lastBackspaceTime e)
    (backspaceThreshold e) v (deleteActive e) (lastDeleteTime e)
    (deleteThreshold e).

Definition set_deleteActive (v : bool) (e : Editor) : Editor :=
  mkEditor (buffer e) (cursorX e) (cursorY e) (extraCursorHeight e)
    (undoStack e) (redoStack e) (selectionActive e) (selectionAnchorX e)
    (selectionAnchorY e) (undoGrouping e) (currentGroupID e) (lastGroupID e)
    (typingEntries e) (typingActive e) (lastTypeTime e) (typeGroupThreshold e)
    (backspaceEntries e) (backspaceActive e) (lastBackspaceTime e)
    (backspaceThreshold e) (deleteEntries e) v (lastDeleteTime e)
    (deleteThreshold e).

Definition set_lastDeleteTime (v : Z) (e : Editor) : Editor :=
  mkEditor (buffer e) (cursorX e) (cursorY e) (extraCursorHeight e)
    (undoStack e) (redoStack e) (selectionActive e) (selectionAnchorX e)
    (selectionAnchorY e) (undoGrouping e) (currentGroupID e) (lastGroupID e)
    (typingEntries e) (typingActive e) (lastTypeTime e) (typeGroupThreshold e)
    (backspaceEntries e) (backspaceActive e) (lastBackspaceTime e)
    (backspaceThreshold e) (deleteEntries e) (deleteActive e) v
    (deleteThreshold e).

Definition set_deleteThreshold (v : Z) (e : Editor) : Editor :=
  mkEditor (buffer e) (cursorX e) (cursorY e) (extraCursorHeight e)
    (undoStack e) (redoStack e) (selectionActive e) (selectionAnchorX e)
    (selectionAnchorY e) (undoGrouping e) (currentGroupID e) (lastGroupID e)
    (typingEntries e) (typingActive e) (lastTypeTime e) (typeGroupThreshold e)
    (backspaceEntries e) (backspaceActive e) (lastBackspaceTime e)
    (backspaceThreshold e) (deleteEntries e) (deleteActive e)
    (lastDeleteTime e) v.

(** What the collaborators outside the core answer while one key is handled:
    the clock, the clipboard, the search code, the file system and the
    Unicode tables of Go's [unicode] package. *)
Inductive FindOutcome : Type :=
| FindNotRun
| FindNoMatch
| FindJump (y x queryLen : Z).

Record Env : Type := mkEnv {
  now : Z;
  clipboardText : option (list Z);
  findOutcome : FindOutcome;
  saveError : option error;
  IsLetter : rune -> bool;
  IsNumber : rune -> bool;
  IsSpace : rune -> bool;
  IsUpper : rune -> bool;
  ToUpper : rune -> rune;
  ToLower : rune -> rune
}.

(** A Go run-time panic (index or slice bounds out of range) is [None]. *)
Definition bind {A B : Type} (m : option A) (k : A -> option B) : option B :=
  match m with
  | Some a => k a
  | None => None
  end.

Notation "x <- m ;; k" := (bind m (fun x => k))
  (at level 61, m at next level, right associativity).

(** [l[i]] *)
Definition index (l : list Z) (i : Z) : option Z :=
  if (i <? 0) || (len l <=? i) then None else Some (at_ l i).

(** [l[a:b]] for [b <= len(l)] *)
Definition subslice (l : list Z) (a b : Z) : option (list Z) :=
  if (a <? 0) || (b <? a) || (len l <? b) then None else Some (drop a (take b l)).

(** The integers [lo], [lo + 1], ..., [hi - 1]. *)
Definition range (lo hi : Z) : list Z :=
  map (fun k => lo + Z.of_nat k) (seq 0 (Z.to_nat (hi - lo))).

Fixpoint mapM {A B : Type} (f : A -> option B) (l : list A) : option (list B) :=
  match l with
  | [] => Some []
  | x :: rest => y <- f x ;; ys <- mapM f rest ;; Some (y :: ys)
  end.

Fixpoint bytes_eqb (a b : list Z) : bool :=
  match a, b with
  | [], [] => true
  | x :: a', y :: b' => (x =? y) && bytes_eqb a' b'
  | _, _ => false
  end.

Definition top (s : list undoAction) : option undoAction :=
  match rev s with
  | [] => None
  | a :: _ => Some a
  end.

Definition NewEditor (content : list Z) : Editor :=
  mkEditor (NewRope content) 0 0 0 [] [] false 0 0 false 0 1
    [] false 0 (900 * Millisecond)
    [] false 0 (900 * Millisecond)
    [] false 0 (900 * Millisecond).

(** ** Undo grouping helpers ([input.go]) *)

Definition beginUndoGroup (e : Editor) : Editor :=
  let e := set_undoGrouping true e in
  let e := set_currentGroupID (lastGroupID e) e in
  set_lastGroupID (lastGroupID e + 1) e.

Definition endUndoGroup (e : Editor) : Editor := set_undoGrouping false e.

Definition pushUndoInsertBlock (entries : list opEntry) (e : Editor) : Editor :=
  if len entries =? 0 then e
  else
    let action :=
      mkAction true entries (if undoGrouping e then currentGroupID e else 0) false in
    set_undoStack (undoStack e ++ [action]) e.

Definition pushUndoDeleteBlock (entries : list opEntry) (isBackspace : bool)
  (e : Editor) : Editor :=
  if len entries =? 0 then e
  else
    let action :=
      mkAction false entries (if undoGrouping e then currentGroupID e else 0)
               isBackspace in
    set_undoStack (undoStack e ++ [action]) e.

Definition pushUndoDeleteIfExternalGrouping (line col : Z) (r : rune) (e : Editor)
  : Editor :=
  let action :=
    mkAction false [mkOp line col 0 0 r]
             (if undoGrouping e then currentGroupID e else 0) false in
  set_undoStack (undoStack e ++ [action]) e.

Definition flushTypingGroup (e : Editor) : Editor :=
  if negb (typingActive e) then e
  else
    let e := if 0 <? len (typingEntries e)
             then pushUndoInsertBlock (typingEntries e) e else e in
    let e := set_typingEntries [] e in
    set_typingActive false e.

Definition flushBackspaceGroup (e : Editor) : Editor :=
  if negb (backspaceActive e) then e
  else
    let e := if 0 <? len (backspaceEntries e)
             then pushUndoDeleteBlock (backspaceEntries e) true e else e in
    let e := set_backspaceEntries [] e in
    set_backspaceActive false e.

Definition flushTypingAndBackspaceIfNeeded (e : Editor) : Editor :=
  flushBackspaceGroup (flushTypingGroup e).

Definition flushDeleteGroup (e : Editor) : Editor :=
  if negb (deleteActive e) then e
  else
    let e := if 0 <? len (deleteEntries e)
             then pushUndoDeleteBlock (deleteEntries e) false e else e in
    let e := set_deleteEntries [] e in
    set_deleteActive false e.

Definition flushEditGroups (e : Editor) : Editor :=
  flushDeleteGroup (flushBackspaceGroup (flushTypingGroup e)).

(** ** Undo/redo execution ([main.go]) *)

(** [e.buffer.Delete(line, col)] and [e.buffer.Insert(line, col, r)] with the
    returned error dropped, as at every call site of [performUndo] and
    [performRedo]. *)
Definition bufferDelete (line col : Z) (e : Editor) : Editor :=
  set_buffer (fst (Delete (buffer e) line col)) e.

Definition bufferInsert (line col : Z) (r : rune) (e : Editor) : Editor :=
  set_buffer (fst (Insert (buffer e) line col r)) e.

Definition cursorAfter (last : opEntry) (e : Editor) : Editor :=
  if op_r last =? newline
  then set_cursorX 0 (set_cursorY (insertLine last + 1) e)
  else set_cursorX (insertCol last + 1) (set_cursorY (insertLine last) e).

Definition performUndo (action : undoAction) (e : Editor) : Editor :=
  if isInsert action then
    let e := fold_left (fun e op => bufferDelete (delLine op) (delCol op) e)
                       (rev (ops action)) e in
    match ops action with
    | first :: _ => set_cursorX (insertCol first) (set_cursorY (insertLine first) e)
    | [] => e
    end
  else
    let e := fold_left (fun e op => bufferInsert (insertLine op) (insertCol op) (op_r op) e)
                       (ops action) e in
    match ops action with
    | first :: _ =>
      if isBackspace action then cursorAfter (last (ops action) first) e
      else set_cursorX (insertCol first) (set_cursorY (insertLine first) e)
    | [] => e
    end.

Definition performRedo (action : undoAction) (e : Editor) : Editor :=
  if isInsert action then
    let e := fold_left (fun e op => bufferInsert (insertLine op) (insertCol op) (op_r op) e)
                       (ops action) e in
    match ops action with
    | first :: _ => cursorAfter (last (ops action) first) e
    | [] => e
    end
  else
    let e := fold_left (fun e op => bufferDelete (insertLine op) (insertCol op + 1) e)
                       (rev (ops action)) e in
    match ops action with
    | first :: _ => set_cursorX (insertCol first) (set_cursorY (insertLine first) e)
    | [] => e
    end.

(** The [for len(e.undoStack) > 0] loop of [undo]; every turn pops one
    action, so the height of the stack bounds it. *)
Fixpoint undoGroup (fuel : nat) (group : Z) (e : Editor) : Editor :=
  match fuel with
  | O => e
  | S fuel' =>
    match top (undoStack e) with
    | None => e
    | Some next =>
      if negb (groupID next =? group) then e
      else
        let e := set_undoStack (removelast (undoStack e)) e in
        let e := set_redoStack (redoStack e ++ [next]) e in
        let e := performUndo next e in
        undoGroup fuel' group e
    end
  end.

Definition undo (e : Editor) : Editor :=
  let e := flushEditGroups e in
  match top (undoStack e) with
  | None => e
  | Some action =>
    let e := set_undoStack (removelast (undoStack e)) e in
    let e := set_redoStack (redoStack e ++ [action]) e in
    let e := performUndo action e in
    if 0 <? groupID action
    then undoGroup (List.length (undoStack e)) (groupID action) e
    else e
  end.

Fixpoint redoGroup (fuel : nat) (group : Z) (e : Editor) : Editor :=
  match fuel with
  | O => e
  | S fuel' =>
    match top (redoStack e) with
    | None => e
    | Some next =>
      if negb (groupID next =? group) then e
      else
        let e := set_redoStack (removelast (redoStack e)) e in
        let e := set_undoStack (undoStack e ++ [next]) e in
        let e := performRedo next e in
        redoGroup fuel' group e
    end
  end.

Definition redo (e : Editor) : Editor :=
  let e := flushEditGroups e in
  match top (redoStack e) with
  | None => e
  | Some action =>
    let e := set_redoStack (removelast (redoStack e)) e in
    let e := set_undoStack (undoStack e ++ [action]) e in
    let e := performRedo action e in
    if 0 <? groupID action
    then redoGroup (List.length (redoStack e)) (groupID action) e
    else e
  end.

(** ** Cursor and selection helpers *)

Definition lineRunes (e : Editor) (line : Z) : list Z :=
  runes_of_string (GetLine (buffer e) line).

Definition getMultiCursorRange (e : Editor) : Z * Z :=
  if extraCursorHeight e =? 0 then (cursorY e, cursorY e)
  else if 0 <? extraCursorHeight e then (cursorY e, cursorY e + extraCursorHeight e)
  else (cursorY e + extraCursorHeight e, cursorY e).

Definition clampCursorX (e : Editor) : Editor :=
  let lineLen :=
    if cursorY e <? LineCount (buffer e) then len (lineRunes e (cursorY e)) else 0 in
  if lineLen <? cursorX e then set_cursorX lineLen e else e.

Definition getRuneAt (e : Editor) (y x : Z) : option rune :=
  if LineCount (buffer e) <=? y then Some 0
  else if len (lineRunes e y) <=? x then Some 0
  else index (lineRunes e y) x.

Definition getSelectionCoords (e : Editor) : Z * Z * Z * Z :=
  if (selectionAnchorY e <? cursorY e)
     || ((selectionAnchorY e =? cursorY e) && (selectionAnchorX e <? cursorX e))
  then (selectionAnchorY e, selectionAnchorX e, cursorY e, cursorX e)
  else (cursorY e, cursorX e, selectionAnchorY e, selectionAnchorX e).

Definition getSelectedText (e : Editor) : option (list Z) :=
  if negb (selectionActive e) then Some []
  else
    let '(startY, startX, endY, endX) := getSelectionCoords e in
    if startY =? endY then
      let runes := lineRunes e startY in
      let endX := if len runes <? endX then len runes else endX in
      let startX := if len runes <? startX then len runes else startX in
      sel <- subslice runes startX endX ;;
      Some (string_of_runes sel)
    else
      let firstRunes := lineRunes e startY in
      first <- (if startX <? len firstRunes
                then s <- subslice firstRunes startX (len firstRunes) ;;
                     Some (string_of_runes s)
                else Some []) ;;
      let middle :=
        flat_map (fun y => GetLine (buffer e) y ++ [newline]) (range (startY + 1) endY) in
      let lastRunes := lineRunes e endY in
      let endX := if len lastRunes <? endX then len lastRunes else endX in
      lastPart <- subslice lastRunes 0 endX ;;
      Some (first ++ [newline] ++ middle ++ string_of_runes lastPart).

(** [for i := hi - 1; i >= lo; i-- { e.buffer.Delete(line, i+1) }] *)
Definition deleteColumnsDown (line lo hi : Z) (e : Editor) : Editor :=
  fold_left (fun e i => bufferDelete line (i + 1) e) (rev (range lo hi)) e.

Definition entriesOfLine (line : Z) (runes : list Z) (lo hi : Z)
  : option (list opEntry) :=
  mapM (fun i => r <- index runes i ;; Some (mkOp line i 0 0 r)) (range lo hi).

(** ** Selection and line deletion ([text_manipulation.go]) *)

Definition deleteSelectedText (e : Editor) : option Editor :=
  if negb (selectionActive e) then Some e
  else
    let '(startY, startX, endY, endX) := getSelectionCoords e in
    let e := flushTypingAndBackspaceIfNeeded e in
    if startY =? endY then
      let runes := lineRunes e startY in
      let actualEndX := Z.min endX (len runes) in
      entries <- entriesOfLine startY runes startX actualEndX ;;
      let e := deleteColumnsDown startY startX actualEndX e in
      let e := pushUndoDeleteBlock entries false e in
      Some (set_selectionActive false (set_cursorX startX (set_cursorY startY e)))
    else
      let firstRunes := lineRunes e startY in
      entriesFirst <- entriesOfLine startY firstRunes startX (len firstRunes) ;;
      let entries := entriesFirst ++ [mkOp startY (len firstRunes) 0 0 newline] in
      entriesMiddle <-
        mapM (fun y =>
                let runes := lineRunes e y in
                let actualInsertLine := startY + (y - startY) in
                es <- entriesOfLine actualInsertLine runes 0 (len runes) ;;
                Some (es ++ [mkOp actualInsertLine (len runes) 0 0 newline]))
             (range (startY + 1) endY) ;;
      let entries := entries ++ concat entriesMiddle in
      let lineOffset := 1 + len (range (startY + 1) endY) in
      let lastRunes := lineRunes e endY in
      let actualEndX := Z.min endX (len lastRunes) in
      let actualInsertLine := startY + lineOffset in
      entriesLast <- entriesOfLine actualInsertLine lastRunes 0 actualEndX ;;
      let entries := entries ++ entriesLast in
      let e := deleteColumnsDown endY 0 actualEndX e in
      let e :=
        fold_left (fun e y =>
                     let e := bufferDelete (y + 1) 0 e in
                     deleteColumnsDown y 0 (len (lineRunes e y)) e)
                  (rev (range (startY + 1) endY)) e in
      let e := bufferDelete (startY + 1) 0 e in
      let e := deleteColumnsDown startY startX (len firstRunes) e in
      let e := pushUndoDeleteBlock entries false e in
      Some (set_selectionActive false (set_cursorX startX (set_cursorY startY e))).

Definition deleteCurrentLine (e : Editor) : Editor :=
  let e := flushTypingAndBackspaceIfNeeded e in
  let lineIdx := cursorY e in
  let runes := lineRunes e lineIdx in
  let entries := map (fun i => mkOp lineIdx i 0 0 (at_ runes i)) (range 0 (len runes)) in
  let entries :=
    if cursorY e <? LineCount (buffer e) - 1
    then entries ++ [mkOp lineIdx (len runes) 0 0 newline] else entries in
  let e := deleteColumnsDown lineIdx 0 (len runes) e in
  let e := if cursorY e <? LineCount (buffer e) - 1
           then bufferDelete (cursorY e + 1) 0 e else e in
  let e := pushUndoDeleteBlock entries false e in
  let e := set_cursorX 0 e in
  if (LineCount (buffer e) <=? cursorY e) && (0 <? cursorY e) then
    let e := set_cursorY (cursorY e - 1) e in
    set_cursorX (len (lineRunes e (cursorY e))) e
  else e.

(** The loop of [insertString]: a failed [Insert] is not looked at, the
    cursor moves on all the same. *)
Fixpoint insertRunes (runes : list Z) (entries : list opEntry) (e : Editor)
  : Editor * list opEntry :=
  match runes with
  | [] => (e, entries)
  | r :: rest =>
    let insertLine := cursorY e in
    let insertCol := cursorX e in
    let e := bufferInsert (cursorY e) (cursorX e) r e in
    let e := if r =? newline
             then set_cursorX 0 (set_cursorY (cursorY e + 1) e)
             else set_cursorX (cursorX e + 1) e in
    insertRunes rest
      (entries ++ [mkOp insertLine insertCol (cursorY e) (cursorX e) r]) e
  end.

Definition insertString (s : list Z) (e : Editor) : Editor :=
  let runes := runes_of_string s in
  if len runes =? 0 then e
  else
    let opened := negb (undoGrouping e) in
    let e := if opened then beginUndoGroup e else e in
    let '(e, entries) := insertRunes runes [] e in
    let e := pushUndoInsertBlock entries e in
    if opened then endUndoGroup e else e.

Definition duplicateLine (e : Editor) : Editor :=
  if LineCount (buffer e) =? 0 then e
  else
    let origX := cursorX e in
    let origY := cursorY e in
    let lineContent := GetLine (buffer e) origY in
    let e := beginUndoGroup e in
    let '(textToInsert, e) :=
      if origY =? LineCount (buffer e) - 1
      then ([newline] ++ lineContent,
            set_cursorX (len (runes_of_string lineContent)) e)
      else (lineContent ++ [newline],
            set_cursorX 0 (set_cursorY (origY + 1) e)) in
    let e := insertString textToInsert e in
    let e := set_cursorX origX (set_cursorY origY e) in
    let e := clampCursorX e in
    endUndoGroup e.

(** ** Clipboard commands ([render.go]) *)

Definition selectAll (e : Editor) : Editor :=
  if LineCount (buffer e) =? 0 then e
  else
    let e := set_selectionActive true e in
    let e := set_selectionAnchorX 0 e in
    let e := set_selectionAnchorY 0 e in
    let lastLine := LineCount (buffer e) - 1 in
    let e := set_cursorY lastLine e in
    set_cursorX (len (lineRunes e lastLine)) e.

Definition copyToClipboard (e : Editor) : option Editor :=
  _ <- getSelectedText e ;; Some e.

Definition cutToClipboard (e : Editor) : option Editor :=
  let e := flushTypingAndBackspaceIfNeeded e in
  content <- getSelectedText e ;;
  if len content =? 0 then
    Some (endUndoGroup (deleteCurrentLine (beginUndoGroup e)))
  else if selectionActive e then
    e <- deleteSelectedText (beginUndoGroup e) ;;
    Some (endUndoGroup e)
  else Some e.

(** [strings.ReplaceAll(text, "\r\n", "\n")] and
    [strings.ReplaceAll(text, "\r", "\n")] *)
Fixpoint replaceCRLF (s : list Z) : list Z :=
  match s with
  | [] => []
  | x :: rest =>
    match rest with
    | y :: rest' =>
      if (x =? carriage_return) && (y =? newline) then newline :: replaceCRLF rest'
      else x :: replaceCRLF rest
    | [] => [x]
    end
  end.

Definition replaceCR (s : list Z) : list Z :=
  map (fun x => if x =? carriage_return then newline else x) s.

(** The insertion loop of [pasteFromClipboard] and of the Enter key: a failed
    [Insert] ends it. *)
Fixpoint insertRunesChecked (runes : list Z) (entries : list opEntry) (e : Editor)
  : Editor * (list opEntry + error) :=
  match runes with
  | [] => (e, inl entries)
  | r :: rest =>
    let insertLine := cursorY e in
    let insertCol := cursorX e in
    match Insert (buffer e) (cursorY e) (cursorX e) r with
    | (b, Some err) => (set_buffer b e, inr err)
    | (b, None) =>
      let e := set_buffer b e in
      let e := if r =? newline
               then set_cursorX 0 (set_cursorY (cursorY e + 1) e)
               else set_cursorX (cursorX e + 1) e in
      insertRunesChecked rest
        (entries ++ [mkOp insertLine insertCol (cursorY e) (cursorX e) r]) e
    end
  end.

Definition pasteFromClipboard (env : Env) (e : Editor) : Editor * option error :=
  match clipboardText env with
  | None => (e, None)
  | Some text =>
    if len text =? 0 then (e, None)
    else
      let text := replaceCR (replaceCRLF text) in
      let e := flushTypingAndBackspaceIfNeeded e in
      let e := beginUndoGroup e in
      match insertRunesChecked (runes_of_string text) [] e with
      | (e, inr err) => (endUndoGroup e, Some err)
      | (e, inl entries) => (endUndoGroup (pushUndoInsertBlock entries e), None)
      end
  end.

(** ** Word motion and case toggling ([main.go], [text_manipulation.go]) *)

Definition isWordChar (env : Env) (r : rune) : bool :=
  IsLetter env r || IsNumber env r || (r =? 95).

Definition isPunctChar (env : Env) (r : rune) : bool :=
  negb (isWordChar env r) && negb (IsSpace env r).

(** [for x >= 0 && p(lineRunes[x]) { x-- }] *)
Fixpoint scanLeft (fuel : nat) (p : rune -> bool) (runes : list Z) (x : Z)
  : option Z :=
  match fuel with
  | O => Some x
  | S fuel' =>
    if 0 <=? x then
      r <- index runes x ;;
      if p r then scanLeft fuel' p runes (x - 1) else Some x
    else Some x
  end.

Definition startSelection (isSelecting : bool) (e : Editor) : Editor :=
  if isSelecting && negb (selectionActive e) then
    set_selectionAnchorY (cursorY e)
      (set_selectionAnchorX (cursorX e) (set_selectionActive true e))
  else if negb isSelecting then set_selectionActive false e
  else e.

Definition moveWordLeft (env : Env) (isSelecting : bool) (e : Editor)
  : option Editor :=
  let e := startSelection isSelecting e in
  let y := cursorY e in
  let x := cursorX e in
  if x =? 0 then
    if 0 <? y then
      let e := set_cursorY (cursorY e - 1) e in
      Some (set_cursorX (len (lineRunes e (cursorY e))) e)
    else Some e
  else
    let x := x - 1 in
    let runes := lineRunes e y in
    x <- scanLeft (Z.to_nat (x + 1)) (IsSpace env) runes x ;;
    if x <? 0 then Some (set_cursorX 0 (set_cursorY y e))
    else
      r <- index runes x ;;
      x <- (if isWordChar env r
            then scanLeft (Z.to_nat (x + 1)) (isWordChar env) runes x
            else if isPunctChar env r
            then scanLeft (Z.to_nat (x + 1)) (isPunctChar env) runes x
            else Some x) ;;
      Some (set_cursorX (x + 1) (set_cursorY y e)).

Definition handleDeleteWordLeft (env : Env) (e : Editor) : option Editor :=
  let e := flushEditGroups e in
  if selectionActive e then
    e <- deleteSelectedText (beginUndoGroup e) ;;
    Some (endUndoGroup e)
  else
    let endY := cursorY e in
    let endX := cursorX e in
    e <- moveWordLeft env false e ;;
    let startY := cursorY e in
    let startX := cursorX e in
    if (startY =? endY) && (startX =? endX) then Some e
    else
      let e := set_cursorX endX (set_cursorY endY e) in
      let e := set_selectionAnchorX startX (set_selectionAnchorY startY e) in
      let e := set_selectionActive true e in
      e <- deleteSelectedText (beginUndoGroup e) ;;
      Some (endUndoGroup e).

(** [strings.ToLower] and [strings.ToUpper] map the runes of a string. *)
Definition strings_ToLower (env : Env) (s : list Z) : list Z :=
  string_of_runes (map (ToLower env) (runes_of_string s)).

Definition strings_ToUpper (env : Env) (s : list Z) : list Z :=
  string_of_runes (map (ToUpper env) (runes_of_string s)).

Definition caseLower : Z := 0.
Definition caseTitle : Z := 1.
Definition caseUpper : Z := 2.
Definition caseMixed : Z := 3.

Definition detectCase (env : Env) (s : list Z) : Z :=
  if len s =? 0 then caseLower
  else if bytes_eqb s (strings_ToLower env s) then caseLower
  else if bytes_eqb s (strings_ToUpper env s) then caseUpper
  else
    match runes_of_string s with
    | r0 :: rest =>
      if IsUpper env r0 && (1 <? len (r0 :: rest)) then
        let rest := string_of_runes rest in
        if bytes_eqb rest (strings_ToLower env rest) then caseTitle else caseMixed
      else caseMixed
    | [] => caseMixed
    end.

Definition toTitleCase (env : Env) (s : list Z) : list Z :=
  if len s =? 0 then []
  else
    match runes_of_string s with
    | r0 :: rest => string_of_runes (ToUpper env r0 :: map (ToLower env) rest)
    | [] => []
    end.

(** [for start > 0 && isWordChar(runes[start-1]) { start-- }] *)
Fixpoint wordStart (fuel : nat) (env : Env) (runes : list Z) (start : Z) : Z :=
  match fuel with
  | O => start
  | S fuel' =>
    if (0 <? start) && isWordChar env (at_ runes (start - 1))
    then wordStart fuel' env runes (start - 1) else start
  end.

(** [for end < len(runes) && isWordChar(runes[end]) { end++ }] *)
Fixpoint wordEnd (fuel : nat) (env : Env) (runes : list Z) (end_ : Z) : Z :=
  match fuel with
  | O => end_
  | S fuel' =>
    if (end_ <? len runes) && isWordChar env (at_ runes end_)
    then wordEnd fuel' env runes (end_ + 1) else end_
  end.

Definition toggleCaseAtCursor (env : Env) (e : Editor) : option Editor :=
  if LineCount (buffer e) =? 0 then Some e
  else
    let runes := lineRunes e (cursorY e) in
    if len runes =? 0 then Some e
    else
      let originalCursorX := cursorX e in
      let idx := if len runes <=? cursorX e then len runes - 1 else cursorX e in
      r <- index runes idx ;;
      let found :=
        if negb (isWordChar env r) then
          if (0 <? idx) && isWordChar env (at_ runes (idx - 1))
          then Some (idx - 1) else None
        else Some idx in
      match found with
      | None => Some e
      | Some idx =>
        let start := wordStart (Z.to_nat idx) env runes idx in
        let end_ := wordEnd (Z.to_nat (len runes)) env runes idx in
        let word := string_of_runes (drop start (take end_ runes)) in
        if len word =? 0 then Some e
        else
          let currentCase := detectCase env word in
          let nextWord :=
            if currentCase =? caseLower then toTitleCase env word
            else if currentCase =? caseTitle then strings_ToUpper env word
            else strings_ToLower env word in
          let e := beginUndoGroup e in
          let e := set_selectionActive true e in
          let e := set_selectionAnchorY (cursorY e) e in
          let e := set_selectionAnchorX start e in
          let e := set_cursorX end_ e in
          e <- deleteSelectedText e ;;
          let e := insertString nextWord e in
          let e := set_selectionActive false e in
          let newLineLen := len (lineRunes e (cursorY e)) in
          let e := if newLineLen <? originalCursorX
                   then set_cursorX newLineLen e
                   else set_cursorX originalCursorX e in
          Some (endUndoGroup e)
      end.

(** ** The Delete key ([input.go]; reached from the escape-sequence reader) *)

Definition handleDeleteKey (env : Env) (e : Editor) : option Editor :=
  let e := flushEditGroups e in
  if selectionActive e then
    e <- deleteSelectedText (beginUndoGroup e) ;;
    Some (endUndoGroup e)
  else
    let e :=
      if negb (deleteActive e) || (deleteThreshold e <? now env - lastDeleteTime e)
      then set_deleteEntries [] (set_deleteActive true (flushDeleteGroup e))
      else e in
    let runes := lineRunes e (cursorY e) in
    let lineLen := len runes in
    if (cursorY e =? LineCount (buffer e) - 1) && (cursorX e =? lineLen) then Some e
    else
      e <- (if cursorX e =? lineLen then
              let e := set_deleteEntries
                         (deleteEntries e ++ [mkOp (cursorY e) (cursorX e) 0 0 newline]) e in
              Some (bufferDelete (cursorY e + 1) 0 e)
            else
              char <- index runes (cursorX e) ;;
              let e := set_deleteEntries
                         (deleteEntries e ++ [mkOp (cursorY e) (cursorX e) 0 0 char]) e in
              Some (bufferDelete (cursorY e) (cursorX e + 1) e)) ;;
      Some (set_lastDeleteTime (now env) e).

(** ** [handleKey] ([input.go]) *)

(** What [findInitial] does to the cursor and the selection. *)
Definition applyFind (env : Env) (e : Editor) : Editor :=
  match findOutcome env with
  | FindNotRun => e
  | FindNoMatch => set_selectionActive false e
  | FindJump y x queryLen =>
    let e := set_cursorY y e in
    let e := set_cursorX x e in
    let e := set_selectionActive true e in
    let e := set_selectionAnchorY y e in
    let e := set_selectionAnchorX x e in
    set_cursorX (cursorX e + queryLen) e
  end.

(** The body of the multi-cursor typing loop, for line [i]. *)
Definition typeOnLine (r : rune) (i : Z) (e : Editor) : Editor :=
  if LineCount (buffer e) <=? i then e
  else
    let runes := lineRunes e i in
    let targetX := if len runes <? cursorX e then len runes else cursorX e in
    match Insert (buffer e) i targetX r with
    | (b, Some _) => set_buffer b e
    | (b, None) => pushUndoInsertBlock [mkOp i targetX i targetX r] (set_buffer b e)
    end.

(** The body of the multi-cursor backspace loop, for line [i]. *)
Definition backspaceOnLine (i : Z) (e : Editor) : option Editor :=
  if LineCount (buffer e) <=? i then Some e
  else
    let runes := lineRunes e i in
    let lineLen := len runes in
    let targetX := if lineLen <? cursorX e then lineLen else cursorX e in
    if (targetX =? 0) && (i =? 0) then Some e
    else if 0 <? targetX then
      let delIndex := targetX - 1 in
      char <- getRuneAt e i delIndex ;;
      let e := pushUndoDeleteIfExternalGrouping i delIndex char e in
      Some (bufferDelete i targetX e)
    else if extraCursorHeight e =? 0 then
      let prevLineIdx := i - 1 in
      let expectedCursorX := len (lineRunes e prevLineIdx) in
      let e := pushUndoDeleteIfExternalGrouping prevLineIdx expectedCursorX newline e in
      let e := set_cursorY prevLineIdx e in
      let e := bufferDelete i 0 e in
      if i =? cursorY e then Some (set_cursorX (len (lineRunes e (cursorY e))) e)
      else Some e
    else Some e.

Fixpoint foldM {A : Type} (f : A -> Editor -> option Editor) (l : list A) (e : Editor)
  : option Editor :=
  match l with
  | [] => Some e
  | x :: rest => e' <- f x e ;; foldM f rest e'
  end.

Fixpoint takeIndent (runes : list Z) : list Z :=
  match runes with
  | [] => []
  | c :: rest => if (c =? 32) || (c =? 9) then c :: takeIndent rest else []
  end.

(** The first [switch]: the keys that leave the selection alone. *)
Definition keepsSelection (r : rune) : bool :=
  (r =? 0x1b) || (r =? 0x03) || (r =? 0x18) || (r =? 0x01) || (r =? 0x7f).

(** The second [switch]: the keys that leave the redo stack alone. *)
Definition keepsRedoStack (r : rune) : bool :=
  (r =? 0x15) || (r =? 0x19) || (r =? 0x1b) || (r =? 0x03) || (r =? 0x18) || (r =? 0x01).

Definition handleEnter (env : Env) (e : Editor) : Editor :=
  let e := flushTypingGroup (flushDeleteGroup (flushBackspaceGroup e)) in
  let e := set_extraCursorHeight 0 e in
  let currentLine := GetLine (buffer e) (cursorY e) in
  let indent := string_of_runes (takeIndent (runes_of_string currentLine)) in
  let textToInsert := [newline] ++ indent in
  match insertRunesChecked (runes_of_string textToInsert) [] e with
  | (e, inr _) => e
  | (e, inl entries) =>
    let e := pushUndoInsertBlock entries e in
    set_lastTypeTime (now env) e
  end.

Definition handleBackspace (e : Editor) : option Editor :=
  if selectionActive e then
    e <- deleteSelectedText (beginUndoGroup e) ;;
    Some (endUndoGroup e)
  else
    let e := flushDeleteGroup (flushTypingGroup e) in
    let e := beginUndoGroup e in
    let '(startLine, endLine) := getMultiCursorRange e in
    e <- foldM backspaceOnLine (rev (range startLine (endLine + 1))) e ;;
    let e := if 0 <? cursorX e then set_cursorX (cursorX e - 1) e else e in
    Some (endUndoGroup e).

Definition handleTyping (env : Env) (r : rune) (e : Editor) : Editor :=
  let e := flushTypingGroup (flushDeleteGroup (flushBackspaceGroup e)) in
  let e := beginUndoGroup e in
  let '(startLine, endLine) := getMultiCursorRange e in
  let e := fold_left (fun e i => typeOnLine r i e) (range startLine (endLine + 1)) e in
  let e := set_cursorX (cursorX e + 1) e in
  let e := set_lastTypeTime (now env) e in
  endUndoGroup e.

(** The third [switch].  [None] is a run-time panic; the second component
    of the result is the [error] that [handleKey] returns. *)
Definition dispatch (env : Env) (r : rune) (e : Editor)
  : option (Editor * option error) :=
  if r =? 0x01 then
    Some (selectAll (set_extraCursorHeight 0 (flushEditGroups e)), None)
  else if r =? 0x11 then Some (flushEditGroups e, None)
  else if r =? 0x13 then Some (flushEditGroups e, saveError env)
  else if r =? 0x05 then Some (flushEditGroups e, None)
  else if r =? 0x15 then Some (undo (flushEditGroups e), None)
  else if r =? 0x19 then Some (redo (flushEditGroups e), None)
  else if r =? 0x03 then
    e <- copyToClipboard (flushEditGroups e) ;; Some (e, None)
  else if r =? 0x18 then
    e <- cutToClipboard (flushEditGroups e) ;; Some (e, None)
  else if r =? 0x16 then Some (pasteFromClipboard env (flushEditGroups e))
  else if r =? 0x0c then Some (flushEditGroups e, None)
  else if r =? 0x14 then Some (flushEditGroups e, None)
  else if r =? 0x06 then Some (applyFind env (flushEditGroups e), None)
  else if r =? 0x08 then Some (applyFind env (flushEditGroups e), None)
  else if r =? 0x0f then Some (flushEditGroups e, None)
  else if r =? 0x04 then
    Some (duplicateLine (set_extraCursorHeight 0 (flushEditGroups e)), None)
  else if r =? 0x0b then
    e <- toggleCaseAtCursor env (set_extraCursorHeight 0 (flushEditGroups e)) ;;
    Some (e, None)
  else if r =? 0x17 then
    e <- handleDeleteWordLeft env e ;; Some (e, None)
  else if r =? 0x0d then Some (handleEnter env e, None)
  else if r =? 0x7f then
    e <- handleBackspace e ;; Some (e, None)
  else Some (handleTyping env r e, None).

Definition handleKey (env : Env) (r : rune) (e : Editor)
  : option (Editor * option error) :=
  let e := if keepsSelection r then e else set_selectionActive false e in
  let e := if keepsRedoStack r then e else set_redoStack [] e in
  dispatch env r e.

End Editor.
(** * Package [editor]: cursor movement, selection display and the prompt *)

Module EditorMore.
Import Buffer Editor.

(** ** Cursor movement ([main.go]) *)





Definition moveCursor (dx dy : Z) (isSelecting : bool) (e : Editor) : Editor :=
  let e :=
    if negb isSelecting then set_selectionActive false e
    else if negb (selectionActive e) then
      let e := set_selectionActive true e in
      let e := set_selectionAnchorX (cursorX e) e in
      set_selectionAnchorY (cursorY e) e
    else e in
  if negb (dy =? 0) then
    let e := set_cursorY (cursorY e + dy) e in
    let e := if cursorY e <? 0 then set_cursorY 0 e else e in
    let e := if LineCount (buffer e) <=? cursorY e
             then set_cursorY (Z.max (LineCount (buffer e) - 1) 0) e else e in
    clampCursorX e
  else if (dx =? -1) && (cursorX e =? 0) && (0 <? cursorY e) then
    let e := set_cursorY (cursorY e - 1) e in
    set_cursorX (len (lineRunes e (cursorY e))) e
  else
    let currentLineLen :=
      if cursorY e <? LineCount (buffer e) then len (lineRunes e (cursorY e)) else 0 in
    if (dx =? 1) && (cursorX e =? currentLineLen)
       && (cursorY e <? LineCount (buffer e) - 1)
    then set_cursorX 0 (set_cursorY (cursorY e + 1) e)
    else
      let e := set_cursorX (cursorX e + dx) e in
      let e := if cursorX e <? 0 then set_cursorX 0 e else e in
      clampCursorX e.

(** [handleArrowKey]: 'A' up, 'B' down, 'C' right, 'D' left. *)
Definition handleArrowKey (direction : Z) (modified : bool) (e : Editor) : Editor :=
  if direction =? 65 then moveCursor 0 (-1) modified e
  else if direction =? 66 then moveCursor 0 1 modified e
  else if direction =? 67 then moveCursor 1 0 modified e
  else if direction =? 68 then moveCursor (-1) 0 modified e
  else e.

(** ** What the display shows as selected ([render.go]) *)

Definition getSelectionCoordsSafe (e : Editor) : Z * Z * Z * Z :=
  if negb (selectionActive e) then (-1, -1, -1, -1) else getSelectionCoords e.

Definition isRuneSelected (e : Editor)
  (fileLine runeIdx selStartL selStartC selEndL selEndC : Z) : bool :=
  if negb (selectionActive e) then false
  else if (selStartL <? fileLine) && (fileLine <? selEndL) then true
  else if (fileLine =? selStartL) && (fileLine =? selEndL)
  then (selStartC <=? runeIdx) && (runeIdx <? selEndC)
  else if fileLine =? selStartL then selStartC <=? runeIdx
  else if fileLine =? selEndL then runeIdx <? selEndC
  else false.

End EditorMore.

(** ** The prompt line ([input.go])

    The find and replace prompts edit two strings, each with a cursor
    counted in runes; [promptFocus] says which of the two has the keys.
    These are the fields of [Editor] that the prompt functions read and
    write. *)

Module Prompt.
Import Editor.

Record Prompt : Type := mkPrompt {
  promptFocus : Z;
  promptBuffer : list Z;
  promptCursorX : Z;
  replaceBuffer : list Z;
  replaceCursorX : Z
}.



(** [string(runes[:x]) + string(r) + string(runes[x:])]; the slice
    expressions panic when [x] is out of range. *)
Definition insertRuneAt (s : list Z) (x : Z) (r : rune) : option (list Z) :=
  let runes := runes_of_string s in
  before <- subslice runes 0 x ;;
  after <- subslice runes x (len runes) ;;
  Some (string_of_runes before ++ string_of_runes [r] ++ string_of_runes after).

Definition insertPromptRune (r : rune) (p : Prompt) : option Prompt :=
  if promptFocus p =? 0 then
    s <- insertRuneAt (promptBuffer p) (promptCursorX p) r ;;
    Some (mkPrompt (promptFocus p) s (promptCursorX p + 1)
            (replaceBuffer p) (replaceCursorX p))
  else
    s <- insertRuneAt (replaceBuffer p) (replaceCursorX p) r ;;
    Some (mkPrompt (promptFocus p) (promptBuffer p) (promptCursorX p)
            s (replaceCursorX p + 1)).

(** [string(runes[:x-1]) + string(runes[x:])] *)
Definition removeRuneBefore (s : list Z) (x : Z) : option (list Z) :=
  let runes := runes_of_string s in
  before <- subslice runes 0 (x - 1) ;;
  after <- subslice runes x (len runes) ;;
  Some (string_of_runes before ++ string_of_runes after).

Definition backspacePromptRune (p : Prompt) : option Prompt :=
  if promptFocus p =? 0 then
    if 0 <? promptCursorX p then
      s <- removeRuneBefore (promptBuffer p) (promptCursorX p) ;;
      Some (mkPrompt (promptFocus p) s (promptCursorX p - 1)
              (replaceBuffer p) (replaceCursorX p))
    else Some p
  else
    if 0 <? replaceCursorX p then
      s <- removeRuneBefore (replaceBuffer p) (replaceCursorX p) ;;
      Some (mkPrompt (promptFocus p) (promptBuffer p) (promptCursorX p)
              s (replaceCursorX p - 1))
    else Some p.



End Prompt.

(** * Abstract view of a rope

    The definitions below do not come from the Go code: they say what a rope
    stands for (its document, a flat sequence of runes) and what its line
    index is supposed to hold, so that the code can be compared with them. *)

Module RopeSpec.
Import Buffer.

(** The document of a tree: its leaves, left to right. *)
Fixpoint content (n : node) : list rune :=
  match n with
  | Leaf data => data
  | Internal nl nr _ => content nl ++ content nr
  end.

Definition document (r : Rope) : list rune :=
  match root r with
  | None => []
  | Some n => content n
  end.

(** Every cached weight is the length of the left subtree. *)
Fixpoint wf_node (n : node) : Prop :=
  match n with
  | Leaf _ => True
  | Internal nl nr weight => weight = len (content nl) /\ wf_node nl /\ wf_node nr
  end.

Definition count_newlines (c : list rune) : Z :=
  len (filter (fun x => x =? newline) c).

(** The offsets that follow a newline, for a text that starts at offset [pos]. *)
Fixpoint newlines_from (pos : Z) (c : list rune) : list Z :=
  match c with
  | [] => []
  | x :: rest =>
    if x =? newline then (pos + 1) :: newlines_from (pos + 1) rest
    else newlines_from (pos + 1) rest
  end.

(** The offset of the first rune of every line. *)
Definition line_starts_of (c : list rune) : list Z := 0 :: newlines_from 0 c.

Definition insert_at (i : Z) (x : rune) (c : list rune) : list rune :=
  take i c ++ x :: drop i c.

Definition remove_at (i : Z) (c : list rune) : list rune :=
  take i c ++ drop (i + 1) c.

(** The lines of a text, split at every newline (the newlines themselves are
    dropped); a text with [k] newlines has [k + 1] lines. *)
Fixpoint split_lines (c : list rune) : list (list rune) :=
  match c with
  | [] => [[]]
  | x :: rest =>
    if x =? newline then [] :: split_lines rest
    else
      match split_lines rest with
      | l :: ls => (x :: l) :: ls
      | [] => [[x]]
      end
  end.

Definition line_text (c : list rune) (line : Z) : list rune :=
  nth (Z.to_nat line) (split_lines c) [].

(** The offset at which line [n] starts: every earlier line and the newline
    that ends it come before. *)
Fixpoint line_offset (ls : list (list rune)) (n : nat) : Z :=
  match n, ls with
  | S n', l :: rest => len l + 1 + line_offset rest n'
  | _, _ => 0
  end.

(** What the specification says of a position: the line must exist, the
    column is clamped to the length of the line. *)
Definition clamp (lo hi x : Z) : Z :=
  let x := if x <? lo then lo else x in if hi <? x then hi else x.

Definition flat_index (c : list rune) (line col : Z) : option Z :=
  if (0 <=? line) && (line <? len (split_lines c))
  then Some (line_offset (split_lines c) (Z.to_nat line)
             + clamp 0 (len (line_text c line)) col)
  else None.

(** A document as a flat sequence of runes, with the insertion of the
    specification: this is the reference that the rope is compared with. *)
Definition flat_insert (c : list rune) (line col : Z) (ru : rune) : option (list rune) :=
  match flat_index c line col with
  | Some i => Some (insert_at i ru c)
  | None => None
  end.

Fixpoint flat_inserts (calls : list (Z * Z * rune)) (c : list rune)
  : option (list rune) :=
  match calls with
  | [] => Some c
  | (line, col, ru) :: rest =>
    match flat_insert c line col ru with
    | Some c' => flat_inserts rest c'
    | None => None
    end
  end.

(** A sequence of [Insert] calls that all succeed. *)
Fixpoint Inserts (calls : list (Z * Z * rune)) (r : Rope) : option Rope :=
  match calls with
  | [] => Some r
  | (line, col, ru) :: rest =>
    match Insert r line col ru with
    | (r', None) => Inserts rest r'
    | (_, Some _) => None
    end
  end.

(** Two texts that a trip through a Go string makes equal. *)
Definition same_text (c d : list rune) : Prop := map sanitize c = map sanitize d.

(** The representation invariant of [Rope]. *)
Definition rope_ok (r : Rope) : Prop :=
  exists n, root r = Some n /\ wf_node n /\ lineStarts r = line_starts_of (content n).

(** The ropes a program can hold: [NewRope] is the only constructor. *)
Inductive reachable : Rope -> Prop :=
| reach_NewRope (initialText : list Z) : reachable (NewRope initialText)
| reach_Insert (r : Rope) (line col : Z) (ru : rune) :
    reachable r -> reachable (fst (Insert r line col ru))
| reach_Delete (r : Rope) (line col : Z) :
    reachable r -> reachable (fst (Delete r line col)).

Definition increasing (ls : list Z) : Prop :=
  forall i j, 0 <= i -> i < j -> j < len ls -> at_ ls i < at_ ls j.

End RopeSpec.

(** * Auxiliary definitions of the proofs *)

Module Aux.

(** [check_block k z p]: [p] holds on the [2^k] integers from [z] on. *)
Fixpoint check_block (k : nat) (z : Z) (p : Z -> bool) : bool :=
  match k with
  | O => p z
  | S k' => check_block k' z p && check_block k' (z + 2 ^ Z.of_nat k') p
  end.

(** The payload bits of a byte survive its marker bits: closed tests, run
    on every payload. *)
Definition cont_ok (d : Z) : bool :=
  is_cont (Z.lor tx d) && (Z.land (Z.lor tx d) maskx =? d).

Definition lead2_ok (a : Z) : bool :=
  negb (Z.lor t2 a <? RuneSelf) &&
  ((t2 <=? Z.lor t2 a) && (Z.lor t2 a <? t3)) &&
  (Z.land (Z.lor t2 a) mask2 =? a).

Definition lead3_ok (a : Z) : bool :=
  negb (Z.lor t3 a <? RuneSelf) &&
  negb ((t2 <=? Z.lor t3 a) && (Z.lor t3 a <? t3)) &&
  ((t3 <=? Z.lor t3 a) && (Z.lor t3 a <? t4)) &&
  (Z.land (Z.lor t3 a) mask3 =? a).

Definition lead4_ok (a : Z) : bool :=
  negb (Z.lor t4 a <? RuneSelf) &&
  negb ((t2 <=? Z.lor t4 a) && (Z.lor t4 a <? t3)) &&
  negb ((t3 <=? Z.lor t4 a) && (Z.lor t4 a <? t4)) &&
  ((t4 <=? Z.lor t4 a) && (Z.lor t4 a <? t5)) &&
  (Z.land (Z.lor t4 a) mask4 =? a).

(** The number of runes of a line, as [getIndex] computes it. *)
Definition lineCharLength (ls : list Z) (total line : Z) : Z :=
  if line + 1 <? len ls then (at_ ls (line + 1) - at_ ls line) - 1
  else total - at_ ls line.

(** The starts of the lines [ls] of a text that begins at offset [off]. *)
Fixpoint starts_of_lines (off : Z) (ls : list (list Z)) : list Z :=
  match ls with
  | [] => []
  | l :: rest => off :: starts_of_lines (off + len l + 1) rest
  end.

(** The size of the lines [ls], one newline counted after each. *)
Fixpoint lines_size (ls : list (list Z)) : Z :=
  match ls with
  | [] => 0
  | l :: rest => len l + 1 + lines_size rest
  end.

(** The text whose lines are [ls]. *)
Fixpoint join_lines (ls : list (list Z)) : list Z :=
  match ls with
  | [] => []
  | [l] => l
  | l :: rest => l ++ newline :: join_lines rest
  end.

(** A sink with room for a limited number of bytes, such as a file on a
    disk that fills up: [Write] takes what fits and reports an error when
    something is left over. *)
Record disk : Type := mkDisk { room : Z; stored : list Z }.

Definition disk_Write : write_fn disk :=
  fun d p =>
    if len p <=? room d
    then (mkDisk (room d - len p) (stored d ++ p), (len p, None))
    else (mkDisk 0 (stored d ++ take (room d) p), (room d, Some (ErrWrite 28))).

(** A document of 1024 runes, as loaded from a file, after one more rune was
    typed at its end: the leaf has been split in two. *)
Definition two_leaves : Buffer.Rope :=
  fst (Buffer.Insert (Buffer.NewRope (repeat 97 1024)) 0 1024 97).

(** The same document after 513 more runes were typed at its start: the
    left leaf has been split in its turn, and the root has an internal node
    as its left child. *)
Definition three_leaves : Buffer.Rope :=
  fold_left (fun r _ => fst (Buffer.Insert r 0 0 98)) (seq 0 513) two_leaves.

(** A sink that refuses a write it has no room for and takes nothing of
    it. *)
Definition strict_Write : write_fn disk :=
  fun d p =>
    if len p <=? room d
    then (mkDisk (room d - len p) (stored d ++ p), (len p, None))
    else (d, (0, Some (ErrWrite 28))).

(** Whether a call returned a nil error. *)
Definition succeeded {A : Type} (res : A * option error) : bool :=
  match snd res with
  | None => true
  | Some _ => false
  end.

(** The document "hi\nxy" with '!' typed at the end of its first line. *)
Definition sample_rope : Buffer.Rope :=
  fst (Buffer.Insert (Buffer.NewRope [104; 105; 10; 120; 121]) 0 2 33).

(** Four calls of [Insert] on an empty document: 'b', then 'a' before it,
    a newline after both, and 'c' on the second line; the text is "ab\nc". *)
Definition sample_calls : list (Z * Z * rune) :=
  [(0, 0, 98); (0, 0, 97); (0, 2, 10); (1, 0, 99)].

(** ** Sessions of the editor *)

(** The collaborators of a session: the clock shows [ms] milliseconds, the
    clipboard cannot be read, no search is pending, saving succeeds, and the
    Unicode tables are those of ASCII. *)
Definition ascii_upper (r : rune) : bool := (65 <=? r) && (r <=? 90).
Definition ascii_lower (r : rune) : bool := (97 <=? r) && (r <=? 122).

Definition env_at (ms : Z) : Editor.Env :=
  Editor.mkEnv (ms * Editor.Millisecond) None Editor.FindNotRun None
    (fun r => ascii_upper r || ascii_lower r)
    (fun r => (48 <=? r) && (r <=? 57))
    (fun r => ((9 <=? r) && (r <=? 13)) || (r =? 32))
    ascii_upper
    (fun r => if ascii_lower r then r - 32 else r)
    (fun r => if ascii_upper r then r + 32 else r).

(** The keys [keys] arrive one after the other, each with the time of the
    clock (in milliseconds) at which it is handled; the result is the editor
    after the last key with what [handleKey] returned for each key, or [None]
    if a key made the program panic. *)
Fixpoint pressKeys (keys : list (Z * rune)) (e : Editor.Editor)
  : option (Editor.Editor * list (option error)) :=
  match keys with
  | [] => Some (e, [])
  | (ms, r) :: rest =>
    match Editor.handleKey (env_at ms) r e with
    | None => None
    | Some (e', err) =>
      match pressKeys rest e' with
      | None => None
      | Some (e'', errs) => Some (e'', err :: errs)
      end
    end
  end.

(** The text on the screen after a session. *)
Definition text_after (keys : list (Z * rune)) (content : list Z) : option (list rune) :=
  match pressKeys keys (Editor.NewEditor content) with
  | None => None
  | Some (e, _) => Some (RopeSpec.document (Editor.buffer e))
  end.

Definition ctrl_U : rune := 0x15.
Definition ctrl_Y : rune := 0x19.
Definition ctrl_X : rune := 0x18.
Definition ctrl_D : rune := 0x04.
Definition enter_key : rune := 0x0d.

(** "hello" typed with 100 ms between the keys. *)
Definition type_hello : list (Z * rune) :=
  [(0, 104); (100, 101); (200, 108); (300, 108); (400, 111)].

(** "he", a pause of two seconds, then "llo". *)
Definition type_he_llo : list (Z * rune) :=
  [(0, 104); (100, 101); (2100, 108); (2200, 108); (2300, 111)].

(** The editor after a session that does not panic. *)
Definition after_keys (keys : list (Z * rune)) (content : list Z) : Editor.Editor :=
  match pressKeys keys (Editor.NewEditor content) with
  | Some (e, _) => e
  | None => Editor.NewEditor content
  end.

(** What [handleKey] returned for each key of a session. *)
Definition errors_of (keys : list (Z * rune)) (content : list Z)
  : option (list (option error)) :=
  option_map snd (pressKeys keys (Editor.NewEditor content)).

(** "ab" typed, one key a second. *)
Definition type_ab : list (Z * rune) := [(0, 97); (1000, 98)].

(** On the document "a\nb": duplicate the first line, press Enter, type
    'x', undo twice. *)
Definition duplicate_session : list (Z * rune) :=
  [(0, ctrl_D); (1000, enter_key); (2000, 120); (3000, ctrl_U); (4000, ctrl_U)].

(** The document "a\r\nb", as read from a file with Windows line ends. *)
Definition crlf_rope : Buffer.Rope := Buffer.NewRope [97; 13; 10; 98].

(** An editor on "hi\n!" with the first two runes selected. *)
Definition selecting_editor : Editor.Editor :=
  Editor.set_selectionActive true
    (Editor.set_cursorX 2 (Editor.NewEditor [104; 105; 10; 33])).

End Aux.
(** * Further notions of the text *)

Module TextSpec.
Import Buffer RopeSpec.

(** The last rune dropped when it is a carriage return. *)
Definition trim_cr (l : list rune) : list rune :=
  if (0 <? len l) && (at_ l (len l - 1) =? carriage_return)
  then take (len l - 1) l else l.

(** What [GetLine] shows of a line: the line without the newline that ends
    it, and without a carriage return just before that newline. *)
Definition line_shown (c : list rune) (line : Z) : list rune :=
  if line + 1 <? len (split_lines c) then trim_cr (line_text c line)
  else line_text c line.

(** [Insert] and [Delete] on a flat document, a call that the rope rejects
    leaving the document as it is. *)
Definition flat_Insert (c : list rune) (line col : Z) (ru : rune) : list rune :=
  match flat_index c line col with
  | Some i => insert_at i ru c
  | None => c
  end.

Definition flat_Delete (c : list rune) (line col : Z) : list rune :=
  if (col =? 0) && (line =? 0) then c
  else
    match flat_index c line col with
    | Some i => if i =? 0 then c else remove_at (i - 1) c
    | None => c
    end.

End TextSpec.


(** * Further notions of the editor *)

Module EditorSpec.
Import Buffer Editor.

(** The actions an editor holds, oldest first: those that can be undone,
    then those that can be redone, the next one to redo first. *)
Definition history (e : Editor) : list undoAction :=
  undoStack e ++ rev (redoStack e).


(** Positions [(line, column)] in reading order. *)
Definition pos_leb (y1 x1 y2 x2 : Z) : bool :=
  (y1 <? y2) || ((y1 =? y2) && (x1 <=? x2)).

Definition pos_ltb (y1 x1 y2 x2 : Z) : bool :=
  (y1 <? y2) || ((y1 =? y2) && (x1 <? x2)).

(** What [performUndo] and [performRedo] do to the buffer for an insertion:
    the recorded runes are deleted last first, or inserted again first
    first. *)
Definition undo_ops (ops : list opEntry) (e : Editor) : Editor :=
  fold_left (fun e op => bufferDelete (delLine op) (delCol op) e) (rev ops) e.

Definition redo_ops (ops : list opEntry) (e : Editor) : Editor :=
  fold_left (fun e op => bufferInsert (insertLine op) (insertCol op) (op_r op) e) ops e.

(** The editor after the first turn of the loop of [insertString]. *)
Definition after_rune (r : rune) (e : Editor) : Editor :=
  let e := bufferInsert (cursorY e) (cursorX e) r e in
  if r =? newline then set_cursorX 0 (set_cursorY (cursorY e + 1) e)
  else set_cursorX (cursorX e + 1) e.

End EditorSpec.

(** * Further notions of the prompt *)

Module PromptSpec.
Import Editor Prompt.

(** The string that has the keys, and its cursor. *)
Definition focusedBuffer (p : Prompt) : list Z :=
  if promptFocus p =? 0 then promptBuffer p else replaceBuffer p.

Definition focusedCursor (p : Prompt) : Z :=
  if promptFocus p =? 0 then promptCursorX p else replaceCursorX p.


End PromptSpec.

(** * Facts about slices *)

Module SliceFacts.

Lemma len_nonneg {A : Type} (l : list A) : 0 <= len l.
Proof. unfold len. lia. Qed.

Lemma len_nil {A : Type} : len (@nil A) = 0.
Proof. reflexivity. Qed.

Lemma len_cons {A : Type} (x : A) (l : list A) : len (x :: l) = len l + 1.
Proof. unfold len. simpl List.length. lia. Qed.

Lemma len_app {A : Type} (a b : list A) : len (a ++ b) = len a + len b.
Proof. unfold len. rewrite length_app. lia. Qed.

Lemma len_map {A B : Type} (f : A -> B) (l : list A) : len (map f l) = len l.
Proof. unfold len. now rewrite length_map. Qed.

Lemma len_zero_nil {A : Type} (l : list A) : len l = 0 -> l = [].
Proof. destruct l; [reflexivity | rewrite len_cons; pose proof (len_nonneg l); lia]. Qed.

Lemma take_drop {A : Type} (i : Z) (l : list A) : take i l ++ drop i l = l.
Proof. apply firstn_skipn. Qed.

Lemma len_take {A : Type} (i : Z) (l : list A) :
  0 <= i <= len l -> len (take i l) = i.
Proof. unfold len, take. intros H. rewrite length_firstn. lia. Qed.

Lemma len_drop {A : Type} (i : Z) (l : list A) :
  0 <= i <= len l -> len (drop i l) = len l - i.
Proof. unfold len, drop. intros H. rewrite length_skipn. lia. Qed.

Lemma take_nonpos {A : Type} (i : Z) (l : list A) : i <= 0 -> take i l = [].
Proof. unfold take. intros H. replace (Z.to_nat i) with 0%nat by lia. reflexivity. Qed.

Lemma drop_nonpos {A : Type} (i : Z) (l : list A) : i <= 0 -> drop i l = l.
Proof. unfold drop. intros H. replace (Z.to_nat i) with 0%nat by lia. reflexivity. Qed.

Lemma take_all {A : Type} (i : Z) (l : list A) : len l <= i -> take i l = l.
Proof. unfold take, len. intros H. apply firstn_all2. lia. Qed.

Lemma drop_all {A : Type} (i : Z) (l : list A) : len l <= i -> drop i l = [].
Proof. unfold drop, len. intros H. apply skipn_all2. lia. Qed.

Lemma take_app_l {A : Type} (i : Z) (a b : list A) :
  i <= len a -> take i (a ++ b) = take i a.
Proof.
  unfold take, len. intros H. rewrite firstn_app.
  replace (Z.to_nat i - List.length a)%nat with 0%nat by lia.
  simpl. apply app_nil_r.
Qed.

Lemma take_app_r {A : Type} (i : Z) (a b : list A) :
  len a <= i -> take i (a ++ b) = a ++ take (i - len a) b.
Proof.
  unfold take, len. intros H. rewrite firstn_app.
  rewrite firstn_all2 by lia. do 2 f_equal. lia.
Qed.

Lemma drop_app_l {A : Type} (i : Z) (a b : list A) :
  i <= len a -> drop i (a ++ b) = drop i a ++ b.
Proof.
  unfold drop, len. intros H. rewrite skipn_app.
  replace (Z.to_nat i - List.length a)%nat with 0%nat by lia. reflexivity.
Qed.

Lemma drop_app_r {A : Type} (i : Z) (a b : list A) :
  len a <= i -> drop i (a ++ b) = drop (i - len a) b.
Proof.
  unfold drop, len. intros H. rewrite skipn_app.
  rewrite skipn_all2 by lia. simpl. f_equal. lia.
Qed.

Lemma at_app_l (a b : list Z) (i : Z) : 0 <= i < len a -> at_ (a ++ b) i = at_ a i.
Proof. unfold at_, len. intros H. apply app_nth1. lia. Qed.

Lemma at_app_r (a b : list Z) (i : Z) : len a <= i -> at_ (a ++ b) i = at_ b (i - len a).
Proof.
  unfold at_, len. intros H. rewrite app_nth2 by lia. f_equal. lia.
Qed.

Lemma at_cons_0 (x : Z) (l : list Z) : at_ (x :: l) 0 = x.
Proof. reflexivity. Qed.

Lemma at_cons_S (x : Z) (l : list Z) (i : Z) : 0 < i -> at_ (x :: l) i = at_ l (i - 1).
Proof.
  unfold at_. intros H. replace (Z.to_nat i) with (S (Z.to_nat (i - 1))) by lia.
  reflexivity.
Qed.

Lemma at_In (l : list Z) (i : Z) : 0 <= i < len l -> In (at_ l i) l.
Proof. unfold at_, len. intros H. apply nth_In. lia. Qed.

Lemma at_map (f : Z -> Z) (l : list Z) (i : Z) :
  0 <= i < len l -> at_ (map f l) i = f (at_ l i).
Proof.
  unfold at_, len. intros H.
  rewrite (nth_indep _ 0 (f 0)) by (rewrite length_map; lia).
  apply map_nth.
Qed.

End SliceFacts.

(** * The tree operations on the document *)

Module NodeFacts.
Import Buffer RopeSpec SliceFacts.

Lemma length_content (n : node) : wf_node n -> length n = len (content n).
Proof.
  induction n as [data | nl IHl nr IHr w]; simpl; intros H.
  - reflexivity.
  - destruct H as (Hw & _ & Hr). rewrite len_app, IHr by assumption. lia.
Qed.

Lemma len_take_drop {A : Type} (i : Z) (l : list A) :
  len (take i l) + len (drop i l) = len l.
Proof. rewrite <- len_app, take_drop. reflexivity. Qed.

Lemma len_insert_at (i : Z) (x : rune) (c : list rune) :
  len (insert_at i x c) = len c + 1.
Proof.
  unfold insert_at. rewrite len_app, len_cons.
  pose proof (len_take_drop i c). lia.
Qed.

Lemma insert_at_app_l (i : Z) (x : rune) (a b : list rune) :
  i <= len a -> insert_at i x (a ++ b) = insert_at i x a ++ b.
Proof.
  intros H. unfold insert_at.
  rewrite take_app_l, drop_app_l by lia.
  rewrite <- app_assoc. reflexivity.
Qed.

Lemma insert_at_app_r (i : Z) (x : rune) (a b : list rune) :
  len a <= i -> insert_at i x (a ++ b) = a ++ insert_at (i - len a) x b.
Proof.
  intros H. unfold insert_at.
  rewrite take_app_r, drop_app_r by lia.
  rewrite <- app_assoc. reflexivity.
Qed.

Lemma remove_at_app_l (i : Z) (a b : list rune) :
  i < len a -> remove_at i (a ++ b) = remove_at i a ++ b.
Proof.
  intros H. unfold remove_at.
  rewrite take_app_l, drop_app_l by lia.
  rewrite <- app_assoc. reflexivity.
Qed.

Lemma remove_at_app_r (i : Z) (a b : list rune) :
  len a <= i -> remove_at i (a ++ b) = a ++ remove_at (i - len a) b.
Proof.
  intros H. unfold remove_at.
  rewrite take_app_r, drop_app_r by lia.
  rewrite <- app_assoc. do 3 f_equal. lia.
Qed.

Lemma len_remove_at (i : Z) (c : list rune) :
  0 <= i < len c -> len (remove_at i c) = len c - 1.
Proof.
  intros H. unfold remove_at.
  rewrite len_app, len_take, len_drop by lia. lia.
Qed.

(** [insert] puts the rune at offset [index] of the document, whether or not
    the leaf it lands in is split. *)
Lemma insert_content (n : node) : forall (index : Z) (ru : rune),
  wf_node n -> content (insert n index ru) = insert_at index ru (content n).
Proof.
  induction n as [data | nl IHl nr IHr w]; intros index ru H; simpl.
  - fold (insert_at index ru data).
    destruct (maxLeafSize <? len (insert_at index ru data)); simpl.
    + apply take_drop.
    + reflexivity.
  - destruct H as (Hw & Hl & Hr).
    destruct (Z.ltb_spec index w); simpl.
    + rewrite IHl by assumption. symmetry. apply insert_at_app_l. lia.
    + rewrite IHr by assumption. subst w. symmetry. apply insert_at_app_r. lia.
Qed.

Lemma insert_wf (n : node) : forall (index : Z) (ru : rune),
  wf_node n -> wf_node (insert n index ru).
Proof.
  induction n as [data | nl IHl nr IHr w]; intros index ru H; simpl.
  - destruct (maxLeafSize <? _); simpl; auto.
  - destruct H as (Hw & Hl & Hr).
    destruct (Z.ltb_spec index w); simpl; repeat split; auto.
    rewrite insert_content, len_insert_at by assumption. lia.
Qed.

(** [delete] removes the rune at offset [index]; a child that becomes empty
    is dropped, which does not change the document. *)
Lemma delete_content (n : node) : forall (index : Z),
  wf_node n -> 0 <= index < len (content n) ->
  content (delete n index) = remove_at index (content n) /\ wf_node (delete n index).
Proof.
  induction n as [data | nl IHl nr IHr w]; intros index H Hi; simpl.
  - split; [reflexivity | exact I].
  - destruct H as (Hw & Hl & Hr). simpl in Hi. rewrite len_app in Hi.
    destruct (Z.ltb_spec index w).
    + destruct (IHl index Hl) as (Hc & Hwf); [lia |].
      assert (Hlen : length (delete nl index) = len (content nl) - 1).
      { rewrite length_content, Hc, len_remove_at by (auto; lia). reflexivity. }
      rewrite remove_at_app_l by lia. rewrite <- Hc.
      destruct (Z.eqb_spec (length (delete nl index)) 0) as [E | E].
      * rewrite length_content in E by assumption.
        split; [| assumption]. rewrite (len_zero_nil _ E). reflexivity.
      * destruct (Z.eqb_spec (length nr) 0) as [E' | E'].
        -- rewrite length_content in E' by assumption.
           split; [| assumption]. rewrite (len_zero_nil _ E'), app_nil_r. reflexivity.
        -- simpl. repeat split; auto.
           rewrite length_content in Hlen by assumption. lia.
    + destruct (IHr (index - w) Hr) as (Hc & Hwf); [lia |].
      subst w. rewrite remove_at_app_r by lia. rewrite <- Hc.
      destruct (Z.eqb_spec (length nl) 0) as [E | E].
      * rewrite length_content in E by assumption.
        split; [| assumption]. rewrite (len_zero_nil _ E). reflexivity.
      * destruct (Z.eqb_spec (length (delete nr (index - len (content nl)))) 0)
          as [E' | E'].
        -- rewrite length_content in E' by assumption.
           split; [| assumption]. rewrite (len_zero_nil _ E'), app_nil_r. reflexivity.
        -- simpl. repeat split; auto.
Qed.

Lemma runeAt_content (n : node) : forall (index : Z),
  wf_node n -> 0 <= index < len (content n) ->
  runeAt n index = (at_ (content n) index, None).
Proof.
  induction n as [data | nl IHl nr IHr w]; intros index H Hi; simpl in *.
  - destruct (Z.ltb_spec index 0); [lia |].
    destruct (Z.leb_spec (len data) index); [lia |]. reflexivity.
  - destruct H as (Hw & Hl & Hr). rewrite len_app in Hi.
    destruct (Z.ltb_spec index w).
    + rewrite IHl by (auto; lia). rewrite at_app_l by lia. reflexivity.
    + rewrite IHr by (auto; lia). subst w. rewrite at_app_r by lia. reflexivity.
Qed.

End NodeFacts.

(** * The line index *)

Module LineIndexFacts.
Import Buffer RopeSpec SliceFacts NodeFacts.

(** ** Binary search *)

Lemma shiftr_half (a : Z) : Z.shiftr a 1 = a / 2.
Proof. rewrite Z.shiftr_div_pow2 by lia. reflexivity. Qed.

Section BinarySearch.
Variable f : Z -> bool.
Variable n : Z.
Hypothesis f_mono :
  forall k k', 0 <= k -> k <= k' -> k' < n -> f k = true -> f k' = true.

Lemma search_loop_spec : forall (fuel : nat) (i j : Z),
  0 <= i -> i <= j -> j <= n -> j - i < Z.of_nat fuel ->
  (forall k, 0 <= k < i -> f k = false) ->
  (forall k, j <= k < n -> f k = true) ->
  i <= search_loop fuel f i j <= j /\
  (forall k, 0 <= k < search_loop fuel f i j -> f k = false) /\
  (forall k, search_loop fuel f i j <= k < n -> f k = true).
Proof.
  induction fuel as [| fuel IH]; intros i j Hi Hij Hjn Hfuel Hlo Hhi.
  - simpl in *. assert (i = j) by lia. subst j. auto with zarith.
  - simpl. destruct (Z.ltb_spec i j) as [Hlt | Hge].
    + rewrite shiftr_half.
      assert (Hh : i <= (i + j) / 2 < j).
      { split; [apply Z.div_le_lower_bound | apply Z.div_lt_upper_bound]; lia. }
      destruct (f ((i + j) / 2)) eqn:Efh; simpl.
      * destruct (IH i ((i + j) / 2)) as (Hr & Hlo' & Hhi'); try lia; auto.
        { intros k Hk. apply (f_mono ((i + j) / 2)); auto; lia. }
        split; [lia | auto].
      * destruct (IH ((i + j) / 2 + 1) j) as (Hr & Hlo' & Hhi'); try lia; auto.
        { intros k Hk. destruct (f k) eqn:Efk; [| reflexivity].
          rewrite (f_mono k ((i + j) / 2)) in Efh; auto; try lia. }
        split; [lia | auto].
    + assert (i = j) by lia. subst j. auto with zarith.
Qed.

Lemma Search_spec :
  0 <= n ->
  0 <= Search n f <= n /\
  (forall k, 0 <= k < Search n f -> f k = false) /\
  (forall k, Search n f <= k < n -> f k = true).
Proof.
  intros Hn. unfold Search.
  apply search_loop_spec; try lia.
Qed.

End BinarySearch.

Lemma increasing_le (ls : list Z) (i j : Z) :
  increasing ls -> 0 <= i -> i <= j -> j < len ls -> at_ ls i <= at_ ls j.
Proof.
  intros H Hi Hij Hj. destruct (Z.eq_dec i j) as [-> | Hne]; [lia |].
  specialize (H i j). lia.
Qed.

Lemma SearchInts_spec (a : list Z) (x : Z) :
  increasing a ->
  0 <= SearchInts a x <= len a /\
  (forall k, 0 <= k < SearchInts a x -> at_ a k < x) /\
  (forall k, SearchInts a x <= k < len a -> x <= at_ a k).
Proof.
  intros Hinc. unfold SearchInts.
  destruct (Search_spec (fun i => x <=? at_ a i) (len a)) as (Hr & Hlo & Hhi).
  - intros k k' Hk Hkk' Hk' Hf.
    apply Z.leb_le in Hf. apply Z.leb_le.
    pose proof (increasing_le a k k' Hinc Hk Hkk' Hk'). lia.
  - apply len_nonneg.
  - split; [exact Hr |]. split.
    + intros k Hk. specialize (Hlo k Hk). apply Z.leb_gt in Hlo. exact Hlo.
    + intros k Hk. specialize (Hhi k Hk). apply Z.leb_le in Hhi. exact Hhi.
Qed.

(** [findLine] is the floor search that the specification asks for: it
    returns the last line whose start is not after [index]. *)
Lemma findLine_floor (rt : option node) (ls : list Z) (index L : Z) :
  increasing ls ->
  0 <= L < len ls ->
  at_ ls L <= index ->
  (L + 1 < len ls -> index < at_ ls (L + 1)) ->
  findLine (mkRope rt ls) index = L.
Proof.
  intros Hinc HL Hle Hlt. unfold findLine. simpl.
  destruct (SearchInts_spec ls index Hinc) as (Hr & Hlo & Hhi).
  remember (SearchInts ls index) as i eqn:Heqi. clear Heqi.
  assert (Hi1 : i <= L + 1).
  { destruct (Z.le_gt_cases i (L + 1)) as [? | Hgt]; [assumption |].
    specialize (Hlo (L + 1)). lia. }
  assert (Hi2 : L <= i).
  { destruct (Z.le_gt_cases L i) as [? | Hgt]; [assumption |].
    assert (index <= at_ ls i) by (apply Hhi; lia).
    pose proof (Hinc i L). lia. }
  destruct (Z.eqb_spec i 0) as [E0 | E0].
  - destruct (Z.eq_dec L 0) as [-> | HL0]; [reflexivity |].
    assert (i = L) by lia. lia.
  - destruct (Z.ltb_spec i (len ls)) as [Hil | Hil]; simpl.
    + destruct (Z.eqb_spec (at_ ls i) index) as [E | E].
      * destruct (Z.eq_dec i L) as [? | Hne]; [assumption |].
        assert (i = L + 1) by lia. subst i. lia.
      * destruct (Z.eq_dec i L) as [Heq | Hne]; [| lia].
        assert (index <= at_ ls i) by (apply Hhi; lia).
        rewrite Heq in *. lia.
    + lia.
Qed.

(** ** The expected index *)

Lemma newlines_from_app (a b : list Z) : forall pos,
  newlines_from pos (a ++ b) = newlines_from pos a ++ newlines_from (pos + len a) b.
Proof.
  induction a as [| x a IH]; intros pos; simpl.
  - rewrite len_nil. f_equal. lia.
  - rewrite len_cons.
    replace (pos + (len a + 1)) with (pos + 1 + len a) by lia.
    destruct (x =? newline); simpl; rewrite IH; reflexivity.
Qed.

Lemma newlines_from_shift (d : Z) (c : list Z) : forall pos,
  map (fun x => x + d) (newlines_from pos c) = newlines_from (pos + d) c.
Proof.
  induction c as [| x c IH]; intros pos; simpl; [reflexivity |].
  replace (pos + d + 1) with (pos + 1 + d) by lia.
  destruct (x =? newline); simpl; rewrite IH; reflexivity.
Qed.

Lemma newlines_from_bounds (c : list Z) : forall pos x,
  In x (newlines_from pos c) -> pos < x <= pos + len c.
Proof.
  induction c as [| y c IH]; intros pos x Hin; simpl in Hin; [contradiction |].
  rewrite len_cons. pose proof (len_nonneg c).
  destruct (y =? newline).
  - destruct Hin as [<- | Hin]; [lia |]. apply IH in Hin. lia.
  - apply IH in Hin. lia.
Qed.

Lemma len_newlines_from (c : list Z) : forall pos,
  len (newlines_from pos c) = count_newlines c.
Proof.
  unfold count_newlines.
  induction c as [| x c IH]; intros pos; simpl; [reflexivity |].
  destruct (x =? newline); [rewrite !len_cons |]; rewrite IH; reflexivity.
Qed.

Lemma len_line_starts_of (c : list Z) :
  len (line_starts_of c) = 1 + count_newlines c.
Proof. unfold line_starts_of. rewrite len_cons, len_newlines_from. lia. Qed.

Lemma count_newlines_nonneg (c : list Z) : 0 <= count_newlines c.
Proof. apply len_nonneg. Qed.

Lemma count_newlines_app (a b : list Z) :
  count_newlines (a ++ b) = count_newlines a + count_newlines b.
Proof. unfold count_newlines. rewrite filter_app, len_app. reflexivity. Qed.

Lemma line_starts_of_app (a b : list Z) :
  line_starts_of (a ++ b) = line_starts_of a ++ newlines_from (len a) b.
Proof. unfold line_starts_of. rewrite newlines_from_app. reflexivity. Qed.

Lemma line_starts_of_bounds (c : list Z) (x : Z) :
  In x (line_starts_of c) -> 0 <= x <= len c.
Proof.
  intros [<- | Hin]; [pose proof (len_nonneg c); lia |].
  apply newlines_from_bounds in Hin. lia.
Qed.

Lemma increasing_cons (x : Z) (l : list Z) :
  (forall y, In y l -> x < y) -> increasing l -> increasing (x :: l).
Proof.
  intros Hx Hl i j Hi Hij Hj. rewrite len_cons in Hj.
  rewrite (at_cons_S x l j) by lia.
  destruct (Z.eq_dec i 0) as [-> | Hne].
  - rewrite at_cons_0. apply Hx. apply at_In. lia.
  - rewrite at_cons_S by lia. apply Hl; lia.
Qed.

Lemma increasing_nil : increasing [].
Proof. intros i j Hi Hij Hj. rewrite len_nil in Hj. lia. Qed.

Lemma increasing_newlines_from (c : list Z) : forall pos,
  increasing (newlines_from pos c).
Proof.
  induction c as [| x c IH]; intros pos; simpl; [apply increasing_nil |].
  destruct (x =? newline); [| apply IH].
  apply increasing_cons; [| apply IH].
  intros y Hy. apply newlines_from_bounds in Hy. lia.
Qed.

Lemma increasing_line_starts_of (c : list Z) : increasing (line_starts_of c).
Proof.
  apply increasing_cons; [| apply increasing_newlines_from].
  intros y Hy. apply newlines_from_bounds in Hy. lia.
Qed.

Lemma take_exact {A : Type} (i : Z) (a b : list A) :
  i = len a -> take i (a ++ b) = a.
Proof. intros ->. rewrite take_app_l by lia. apply take_all. lia. Qed.

Lemma drop_exact {A : Type} (i : Z) (a b : list A) :
  i = len a -> drop i (a ++ b) = b.
Proof.
  intros ->. rewrite drop_app_r by lia.
  rewrite Z.sub_diag. apply drop_nonpos. lia.
Qed.

(** The line of offset [len a] in the text [a ++ b] is the number of newlines
    of [a]. *)
Lemma findLine_at (rt : option node) (a b : list Z) :
  findLine (mkRope rt (line_starts_of (a ++ b))) (len a) = count_newlines a.
Proof.
  pose proof (count_newlines_nonneg a) as Hk.
  pose proof (len_line_starts_of a) as HlenA.
  apply findLine_floor.
  - apply increasing_line_starts_of.
  - rewrite len_line_starts_of, count_newlines_app.
    pose proof (count_newlines_nonneg b). lia.
  - rewrite line_starts_of_app, at_app_l by lia.
    apply line_starts_of_bounds with (c := a). apply at_In. lia.
  - intros Hlt. rewrite line_starts_of_app in *. rewrite len_app in Hlt.
    rewrite at_app_r by lia.
    assert (Hin : In (at_ (newlines_from (len a) b)
                         (count_newlines a + 1 - len (line_starts_of a)))
                     (newlines_from (len a) b)) by (apply at_In; lia).
    apply newlines_from_bounds in Hin. lia.
Qed.

Lemma shiftFrom_split (a b : list Z) (from delta : Z) :
  from = len a -> shiftFrom from delta (a ++ b) = a ++ map (fun x => x + delta) b.
Proof.
  intros H. unfold shiftFrom. rewrite take_exact, drop_exact by assumption.
  reflexivity.
Qed.

Lemma updateLineIndexOnInsert_correct (rt : option node) (a b : list Z) (ru : Z) :
  updateLineIndexOnInsert (mkRope rt (line_starts_of (a ++ b))) (len a) ru
  = mkRope rt (line_starts_of (a ++ ru :: b)).
Proof.
  unfold updateLineIndexOnInsert. rewrite findLine_at. simpl root. simpl lineStarts.
  pose proof (len_line_starts_of a) as HlenA.
  rewrite !line_starts_of_app.
  rewrite shiftFrom_split by lia.
  rewrite newlines_from_shift. simpl newlines_from.
  destruct (ru =? newline).
  - rewrite take_exact, drop_exact by lia. reflexivity.
  - reflexivity.
Qed.

Lemma updateLineIndexOnDelete_correct (rt : option node) (a b : list Z) (ru : Z) :
  updateLineIndexOnDelete (mkRope rt (line_starts_of (a ++ ru :: b))) (len a) ru
  = mkRope rt (line_starts_of (a ++ b)).
Proof.
  unfold updateLineIndexOnDelete. rewrite findLine_at. simpl root. simpl lineStarts.
  pose proof (len_line_starts_of a) as HlenA.
  rewrite !line_starts_of_app. simpl newlines_from.
  destruct (ru =? newline).
  - rewrite len_app, len_cons.
    pose proof (len_nonneg (newlines_from (len a + 1) b)).
    destruct (Z.ltb_spec (count_newlines a + 1)
                (len (line_starts_of a) + (len (newlines_from (len a + 1) b) + 1)));
      [| lia].
    rewrite take_exact by lia.
    replace (line_starts_of a ++ (len a + 1) :: newlines_from (len a + 1) b)
      with ((line_starts_of a ++ [len a + 1]) ++ newlines_from (len a + 1) b)
      by (rewrite <- app_assoc; reflexivity).
    rewrite drop_exact by (rewrite len_app, len_cons, len_nil; lia).
    rewrite shiftFrom_split by lia.
    rewrite newlines_from_shift.
    replace (len a + 1 + -1) with (len a) by lia. reflexivity.
  - rewrite shiftFrom_split by lia.
    rewrite newlines_from_shift.
    replace (len a + 1 + -1) with (len a) by lia. reflexivity.
Qed.

(** ** Rebuilding the index *)

Lemma rebuildLineIndexLeaf_correct (data : list Z) : forall pos acc,
  rebuildLineIndexLeaf data pos acc = acc ++ newlines_from pos data.
Proof.
  induction data as [| x data IH]; intros pos acc; simpl.
  - symmetry. apply app_nil_r.
  - rewrite IH. destruct (x =? newline); [rewrite <- app_assoc |]; reflexivity.
Qed.

Lemma rebuildLineIndexHelper_correct (n : node) : forall offset acc,
  wf_node n ->
  rebuildLineIndexHelper n offset acc = acc ++ newlines_from offset (content n).
Proof.
  induction n as [data | nl IHl nr IHr w]; intros offset acc H; simpl.
  - apply rebuildLineIndexLeaf_correct.
  - destruct H as (Hw & Hl & Hr).
    rewrite IHl, IHr by assumption.
    rewrite newlines_from_app, <- app_assoc, Hw. reflexivity.
Qed.

Lemma rebuildLineIndex_correct (n : node) (ls : list Z) :
  wf_node n ->
  rebuildLineIndex (mkRope (Some n) ls) = mkRope (Some n) (line_starts_of (content n)).
Proof.
  intros H. unfold rebuildLineIndex. simpl.
  rewrite rebuildLineIndexHelper_correct by assumption. reflexivity.
Qed.

End LineIndexFacts.

(** * Strings and runes: decoding undoes encoding *)

Module Utf8Facts.
Import Aux.

Lemma check_block_sound (p : Z -> bool) : forall (k : nat) (z : Z),
  check_block k z p = true ->
  forall x, z <= x < z + 2 ^ Z.of_nat k -> p x = true.
Proof.
  induction k as [| k IH]; intros z H x Hx.
  - simpl in Hx. assert (x = z) by lia. subst x. exact H.
  - cbn [check_block] in H. apply andb_true_iff in H. destruct H as (H1 & H2).
    rewrite Nat2Z.inj_succ, Z.pow_succ_r in Hx by lia.
    destruct (Z.lt_ge_cases x (z + 2 ^ Z.of_nat k)).
    + apply (IH z); [assumption | lia].
    + apply (IH (z + 2 ^ Z.of_nat k)); [assumption | lia].
Qed.

(** ** Bytes: the payload bits of a byte survive the marker bits *)

Lemma cont_ok_all (d : Z) : 0 <= d < 64 -> cont_ok d = true.
Proof.
  apply (check_block_sound cont_ok 6 0). vm_compute. reflexivity.
Qed.

Lemma lead2_ok_all (a : Z) : 0 <= a < 32 -> lead2_ok a = true.
Proof.
  apply (check_block_sound lead2_ok 5 0). vm_compute. reflexivity.
Qed.

Lemma lead3_ok_all (a : Z) : 0 <= a < 16 -> lead3_ok a = true.
Proof.
  apply (check_block_sound lead3_ok 4 0). vm_compute. reflexivity.
Qed.

Lemma lead4_ok_all (a : Z) : 0 <= a < 8 -> lead4_ok a = true.
Proof.
  apply (check_block_sound lead4_ok 3 0). vm_compute. reflexivity.
Qed.

(** ** Putting the payloads back together *)

Lemma land_shiftl_low (y x k : Z) :
  0 <= k -> 0 <= x < 2 ^ k -> Z.land (Z.shiftl y k) x = 0.
Proof.
  intros Hk Hx. apply Z.bits_inj'. intros n Hn.
  rewrite Z.land_spec, Z.bits_0.
  destruct (Z.lt_ge_cases n k) as [Hlt | Hge].
  - rewrite Z.shiftl_spec_low by assumption. reflexivity.
  - rewrite <- (Z.mod_small x (2 ^ k)) by assumption.
    rewrite Z.mod_pow2_bits_high by lia. apply andb_false_r.
Qed.

Lemma lor_shiftl_add (y x k : Z) :
  0 <= k -> 0 <= x < 2 ^ k -> Z.lor (Z.shiftl y k) x = y * 2 ^ k + x.
Proof.
  intros Hk Hx.
  rewrite <- Z.lxor_lor by (apply land_shiftl_low; assumption).
  rewrite <- Z.add_nocarry_lxor by (apply land_shiftl_low; assumption).
  rewrite Z.shiftl_mul_pow2 by assumption. reflexivity.
Qed.

Lemma lor_add_low (u x k : Z) :
  0 <= k -> u mod 2 ^ k = 0 -> 0 <= x < 2 ^ k -> Z.lor u x = u + x.
Proof.
  intros Hk Hu Hx.
  assert (E : u = Z.shiftl (u / 2 ^ k) k).
  { rewrite Z.shiftl_mul_pow2 by assumption.
    pose proof (Z.div_mod u (2 ^ k)). lia. }
  rewrite E at 1. rewrite lor_shiftl_add by assumption.
  rewrite Z.shiftl_mul_pow2 in E by assumption. lia.
Qed.

Lemma cont_facts (d : Z) :
  0 <= d < 64 ->
  is_cont (Z.lor tx d) = true /\ Z.land (Z.lor tx d) maskx = d.
Proof.
  intros Hd. pose proof (cont_ok_all d Hd) as H. unfold cont_ok in H.
  apply andb_true_iff in H. destruct H as (H1 & H2).
  apply Z.eqb_eq in H2. split; assumption.
Qed.

Lemma lead2_facts (a : Z) :
  0 <= a < 32 ->
  (Z.lor t2 a <? RuneSelf) = false /\
  ((t2 <=? Z.lor t2 a) && (Z.lor t2 a <? t3)) = true /\
  Z.land (Z.lor t2 a) mask2 = a.
Proof.
  intros Ha. pose proof (lead2_ok_all a Ha) as H. unfold lead2_ok in H.
  apply andb_true_iff in H. destruct H as (H & H3).
  apply andb_true_iff in H. destruct H as (H1 & H2).
  apply negb_true_iff in H1. apply Z.eqb_eq in H3. auto.
Qed.

Lemma lead3_facts (a : Z) :
  0 <= a < 16 ->
  (Z.lor t3 a <? RuneSelf) = false /\
  ((t2 <=? Z.lor t3 a) && (Z.lor t3 a <? t3)) = false /\
  ((t3 <=? Z.lor t3 a) && (Z.lor t3 a <? t4)) = true /\
  Z.land (Z.lor t3 a) mask3 = a.
Proof.
  intros Ha. pose proof (lead3_ok_all a Ha) as H. unfold lead3_ok in H.
  apply andb_true_iff in H. destruct H as (H & H4).
  apply andb_true_iff in H. destruct H as (H & H3).
  apply andb_true_iff in H. destruct H as (H1 & H2).
  apply negb_true_iff in H1. apply negb_true_iff in H2.
  apply Z.eqb_eq in H4. auto.
Qed.

Lemma lead4_facts (a : Z) :
  0 <= a < 8 ->
  (Z.lor t4 a <? RuneSelf) = false /\
  ((t2 <=? Z.lor t4 a) && (Z.lor t4 a <? t3)) = false /\
  ((t3 <=? Z.lor t4 a) && (Z.lor t4 a <? t4)) = false /\
  ((t4 <=? Z.lor t4 a) && (Z.lor t4 a <? t5)) = true /\
  Z.land (Z.lor t4 a) mask4 = a.
Proof.
  intros Ha. pose proof (lead4_ok_all a Ha) as H. unfold lead4_ok in H.
  apply andb_true_iff in H. destruct H as (H & H5).
  apply andb_true_iff in H. destruct H as (H & H4).
  apply andb_true_iff in H. destruct H as (H & H3).
  apply andb_true_iff in H. destruct H as (H1 & H2).
  apply negb_true_iff in H1. apply negb_true_iff in H2. apply negb_true_iff in H3.
  apply Z.eqb_eq in H5. auto 6.
Qed.

(** ** One decoding step, by length of the encoding *)

Lemma decode1 (r : Z) (rest : list Z) :
  0 <= r <= 0x7F ->
  runes_of_string (r :: rest) = r :: runes_of_string rest.
Proof.
  intros Hr. cbn [runes_of_string]. unfold RuneSelf.
  destruct (Z.ltb_spec r 128); [reflexivity | lia].
Qed.

Lemma decode2 (a d : Z) (rest : list Z) :
  0 <= a < 32 -> 0 <= d < 64 -> 0x7F < a * 64 + d ->
  runes_of_string (Z.lor t2 a :: Z.lor tx d :: rest)
  = (a * 64 + d) :: runes_of_string rest.
Proof.
  intros Ha Hd Hr.
  destruct (lead2_facts a Ha) as (L1 & L2 & L3).
  destruct (cont_facts d Hd) as (C1 & C2).
  cbn [runes_of_string]. cbv zeta.
  rewrite L1, L2, C1, L3, C2.
  rewrite lor_shiftl_add by (change (2 ^ 6) with 64; lia).
  change (2 ^ 6) with 64. unfold rune1Max.
  destruct (Z.ltb_spec 127 (a * 64 + d)); [reflexivity | lia].
Qed.

Lemma decode3 (a b d : Z) (rest : list Z) :
  0 <= a < 16 -> 0 <= b < 64 -> 0 <= d < 64 ->
  0x7FF < a * 4096 + b * 64 + d ->
  ~ (0xD800 <= a * 4096 + b * 64 + d <= 0xDFFF) ->
  runes_of_string (Z.lor t3 a :: Z.lor tx b :: Z.lor tx d :: rest)
  = (a * 4096 + b * 64 + d) :: runes_of_string rest.
Proof.
  intros Ha Hb Hd Hr Hs.
  destruct (lead3_facts a Ha) as (L1 & L2 & L3 & L4).
  destruct (cont_facts b Hb) as (B1 & B2).
  destruct (cont_facts d Hd) as (D1 & D2).
  cbn [runes_of_string]. cbv zeta.
  rewrite L1, L2, L3, B1, D1, L4, B2, D2. cbn [andb].
  rewrite (Z.shiftl_mul_pow2 b 6) by lia.
  rewrite (lor_shiftl_add a (b * 2 ^ 6) 12) by (change (2 ^ 6) with 64; lia).
  rewrite (lor_add_low (a * 2 ^ 12 + b * 2 ^ 6) d 6);
    [| lia | | change (2 ^ 6) with 64; lia].
  - change (2 ^ 6) with 64. change (2 ^ 12) with 4096.
    unfold rune2Max, surrogateMin, surrogateMax.
    destruct (Z.ltb_spec 2047 (a * 4096 + b * 64 + d)); [| lia].
    destruct (Z.leb_spec 55296 (a * 4096 + b * 64 + d));
      destruct (Z.leb_spec (a * 4096 + b * 64 + d) 57343);
      cbn [andb negb]; try reflexivity; lia.
  - change (2 ^ 6) with 64. change (2 ^ 12) with 4096.
    replace (a * 4096 + b * 64) with ((a * 64 + b) * 64) by lia.
    apply Z.mod_mul. lia.
Qed.

Lemma decode4 (a b c d : Z) (rest : list Z) :
  0 <= a < 8 -> 0 <= b < 64 -> 0 <= c < 64 -> 0 <= d < 64 ->
  0xFFFF < a * 262144 + b * 4096 + c * 64 + d <= 0x10FFFF ->
  runes_of_string (Z.lor t4 a :: Z.lor tx b :: Z.lor tx c :: Z.lor tx d :: rest)
  = (a * 262144 + b * 4096 + c * 64 + d) :: runes_of_string rest.
Proof.
  intros Ha Hb Hc Hd Hr.
  destruct (lead4_facts a Ha) as (L1 & L2 & L3 & L4 & L5).
  destruct (cont_facts b Hb) as (B1 & B2).
  destruct (cont_facts c Hc) as (C1 & C2).
  destruct (cont_facts d Hd) as (D1 & D2).
  cbn [runes_of_string]. cbv zeta.
  rewrite L1, L2, L3, L4, B1, C1, D1, L5, B2, C2, D2. cbn [andb].
  rewrite (Z.shiftl_mul_pow2 b 12), (Z.shiftl_mul_pow2 c 6) by lia.
  rewrite (lor_shiftl_add a (b * 2 ^ 12) 18) by (change (2 ^ 12) with 4096; lia).
  rewrite (lor_add_low (a * 2 ^ 18 + b * 2 ^ 12) (c * 2 ^ 6) 12);
    [| lia | | change (2 ^ 6) with 64; change (2 ^ 12) with 4096; lia].
  - rewrite (lor_add_low (a * 2 ^ 18 + b * 2 ^ 12 + c * 2 ^ 6) d 6);
      [| lia | | change (2 ^ 6) with 64; lia].
    + change (2 ^ 6) with 64. change (2 ^ 12) with 4096.
      change (2 ^ 18) with 262144. unfold rune3Max, MaxRune.
      destruct (Z.ltb_spec 65535 (a * 262144 + b * 4096 + c * 64 + d)); [| lia].
      destruct (Z.leb_spec (a * 262144 + b * 4096 + c * 64 + d) 1114111); [| lia].
      reflexivity.
    + change (2 ^ 6) with 64. change (2 ^ 12) with 4096.
      change (2 ^ 18) with 262144.
      replace (a * 262144 + b * 4096 + c * 64)
        with ((a * 4096 + b * 64 + c) * 64) by lia.
      apply Z.mod_mul. lia.
  - change (2 ^ 12) with 4096. change (2 ^ 18) with 262144.
    replace (a * 262144 + b * 4096) with ((a * 64 + b) * 4096) by lia.
    apply Z.mod_mul. lia.
Qed.

Ltac to_digits :=
  change maskx with (Z.ones 6);
  rewrite ?Z.land_ones, ?Z.shiftr_div_pow2 by lia;
  change (2 ^ 6) with 64; change (2 ^ 12) with 4096; change (2 ^ 18) with 262144.

Lemma decode_encode_valid (r : Z) (rest : list Z) :
  ValidRune r = true ->
  runes_of_string (encoderune r ++ rest) = r :: runes_of_string rest.
Proof.
  intros H. unfold encoderune, sanitize. rewrite H.
  assert (Hr : 0 <= r <= 0x10FFFF /\ ~ (0xD800 <= r <= 0xDFFF)).
  { unfold ValidRune, surrogateMin, surrogateMax, MaxRune in H.
    apply orb_true_iff in H. destruct H as [H | H];
      apply andb_true_iff in H; destruct H as (H1 & H2); lia. }
  destruct Hr as (Hr & Hs).
  unfold rune1Max, rune2Max, rune3Max.
  destruct (Z.leb_spec r 127).
  - apply decode1. lia.
  - destruct (Z.leb_spec r 2047).
    + cbn [app]. to_digits.
      transitivity ((r / 64 * 64 + r mod 64) :: runes_of_string rest).
      * apply decode2; Z.div_mod_to_equations; lia.
      * f_equal. Z.div_mod_to_equations. lia.
    + destruct (Z.leb_spec r 65535).
      * cbn [app]. to_digits.
        transitivity ((r / 4096 * 4096 + (r / 64) mod 64 * 64 + r mod 64)
                        :: runes_of_string rest).
        -- assert (E : r / 4096 * 4096 + (r / 64) mod 64 * 64 + r mod 64 = r)
             by (Z.div_mod_to_equations; lia).
           apply decode3; rewrite ?E; try assumption; try lia;
             Z.div_mod_to_equations; lia.
        -- f_equal. Z.div_mod_to_equations. lia.
      * cbn [app]. to_digits.
        transitivity ((r / 262144 * 262144 + (r / 4096) mod 64 * 4096
                       + (r / 64) mod 64 * 64 + r mod 64)
                        :: runes_of_string rest).
        -- assert (E : r / 262144 * 262144 + (r / 4096) mod 64 * 4096
                        + (r / 64) mod 64 * 64 + r mod 64 = r)
             by (Z.div_mod_to_equations; lia).
           apply decode4; rewrite ?E; try lia; Z.div_mod_to_equations; lia.
        -- f_equal. Z.div_mod_to_equations. lia.
Qed.

Lemma ValidRune_sanitize (r : Z) : ValidRune (sanitize r) = true.
Proof. unfold sanitize. destruct (ValidRune r) eqn:E; [exact E | reflexivity]. Qed.

Lemma sanitize_idem (r : Z) : sanitize (sanitize r) = sanitize r.
Proof. unfold sanitize at 1. rewrite ValidRune_sanitize. reflexivity. Qed.

Lemma encoderune_sanitize (r : Z) : encoderune (sanitize r) = encoderune r.
Proof. unfold encoderune. rewrite sanitize_idem. reflexivity. Qed.

Lemma decode_encode_rune (r : Z) (rest : list Z) :
  runes_of_string (encoderune r ++ rest) = sanitize r :: runes_of_string rest.
Proof.
  rewrite <- encoderune_sanitize.
  apply decode_encode_valid, ValidRune_sanitize.
Qed.

(** [[]rune(string(rs))] gives [rs] back, invalid runes replaced by U+FFFD. *)
Lemma runes_of_string_of_runes (rs : list Z) :
  runes_of_string (string_of_runes rs) = map sanitize rs.
Proof.
  induction rs as [| r rs IH]; [reflexivity |].
  unfold string_of_runes in *. simpl flat_map.
  rewrite decode_encode_rune, IH. reflexivity.
Qed.

Lemma string_of_runes_app (a b : list Z) :
  string_of_runes (a ++ b) = string_of_runes a ++ string_of_runes b.
Proof. apply flat_map_app. Qed.

Lemma string_of_runes_sanitize (rs : list Z) :
  string_of_runes (map sanitize rs) = string_of_runes rs.
Proof.
  induction rs as [| r rs IH]; [reflexivity |].
  unfold string_of_runes in *. simpl. rewrite encoderune_sanitize, IH. reflexivity.
Qed.

Lemma sanitize_newline (r : Z) : (sanitize r =? newline) = (r =? newline).
Proof.
  unfold sanitize. destruct (ValidRune r) eqn:E; [reflexivity |].
  destruct (Z.eqb_spec r newline) as [-> | Hne]; [discriminate E | reflexivity].
Qed.

End Utf8Facts.

(** * The rope operations on reachable ropes *)

Module RopeFacts.
Import Buffer RopeSpec Aux SliceFacts NodeFacts LineIndexFacts Utf8Facts.

Lemma writeTo_builder (n : node) : forall (buf : list Z),
  writeTo builder_Write n buf
  = (buf ++ string_of_runes (content n), (len (string_of_runes (content n)), None)).
Proof.
  induction n as [data | nl IHl nr IHr w]; intros buf; simpl.
  - reflexivity.
  - rewrite IHl, IHr. rewrite string_of_runes_app, len_app, app_assoc. reflexivity.
Qed.

Lemma rebalance_correct (n : node) (ls : list Z) :
  rebalance (mkRope (Some n) ls)
  = mkRope (Some (Leaf (map sanitize (content n))))
           (line_starts_of (map sanitize (content n))).
Proof.
  change (rebalance (mkRope (Some n) ls))
    with (rebuildLineIndex
            (mkRope (Some (Leaf (runes_of_string (fst (writeTo builder_Write n [])))))
                    ls)).
  rewrite writeTo_builder. cbn [fst app].
  rewrite runes_of_string_of_runes.
  apply rebuildLineIndex_correct. exact I.
Qed.

Lemma rope_ok_intro (n : node) :
  wf_node n -> rope_ok (mkRope (Some n) (line_starts_of (content n))).
Proof. intros H. exists n. auto. Qed.

Lemma NewRope_ok (initialText : list Z) : rope_ok (NewRope initialText).
Proof.
  unfold NewRope. rewrite rebuildLineIndex_correct by exact I.
  apply rope_ok_intro. exact I.
Qed.

Lemma document_NewRope (initialText : list Z) :
  document (NewRope initialText) = runes_of_string initialText.
Proof. reflexivity. Qed.

(** ** Position resolution *)

Lemma at_line_starts_bounds (c : list Z) (line : Z) :
  0 <= line < len (line_starts_of c) ->
  0 <= at_ (line_starts_of c) line <= len c.
Proof. intros H. apply line_starts_of_bounds, at_In, H. Qed.

Lemma at_line_starts_next (c : list Z) (line : Z) :
  0 <= line -> line + 1 < len (line_starts_of c) ->
  at_ (line_starts_of c) line < at_ (line_starts_of c) (line + 1) <= len c.
Proof.
  intros H0 H1. split.
  - apply increasing_line_starts_of; lia.
  - apply at_line_starts_bounds. lia.
Qed.

Lemma getIndex_unfold (n : node) (ls : list Z) (line col : Z) :
  0 <= line < len ls ->
  getIndex (mkRope (Some n) ls) line col
  = (at_ ls line + clamp 0 (lineCharLength ls (length n) line) col, None).
Proof.
  intros H. unfold getIndex, clamp, lineCharLength. simpl.
  destruct (Z.ltb_spec line 0); [lia |].
  destruct (Z.leb_spec (len ls) line); [lia |]. reflexivity.
Qed.

Lemma getIndex_error_iff (n : node) (ls : list Z) (line col : Z) :
  snd (getIndex (mkRope (Some n) ls) line col) = None <-> 0 <= line < len ls.
Proof.
  unfold getIndex. simpl.
  destruct (Z.ltb_spec line 0); simpl; [split; [discriminate | lia] |].
  destruct (Z.leb_spec (len ls) line); simpl; [split; [discriminate | lia] |].
  split; [lia | reflexivity].
Qed.

Lemma lineCharLength_nonneg (c : list Z) (line : Z) :
  0 <= line < len (line_starts_of c) ->
  0 <= lineCharLength (line_starts_of c) (len c) line
  /\ at_ (line_starts_of c) line + lineCharLength (line_starts_of c) (len c) line
     <= len c.
Proof.
  intros H. unfold lineCharLength.
  pose proof (at_line_starts_bounds c line H).
  destruct (Z.ltb_spec (line + 1) (len (line_starts_of c))).
  - pose proof (at_line_starts_next c line). lia.
  - lia.
Qed.

Lemma clamp_range (hi x : Z) : 0 <= hi -> 0 <= clamp 0 hi x <= hi.
Proof.
  intros H. unfold clamp.
  destruct (Z.ltb_spec x 0); [destruct (Z.ltb_spec hi 0); lia |].
  destruct (Z.ltb_spec hi x); lia.
Qed.

Lemma getIndex_range (n : node) (line col index : Z) :
  wf_node n ->
  getIndex (mkRope (Some n) (line_starts_of (content n))) line col = (index, None) ->
  0 <= line < len (line_starts_of (content n)) /\ 0 <= index <= len (content n).
Proof.
  intros Hwf H.
  assert (Hl : 0 <= line < len (line_starts_of (content n))).
  { apply (getIndex_error_iff n _ line col). rewrite H. reflexivity. }
  split; [exact Hl |].
  rewrite getIndex_unfold in H by assumption. inversion H; subst index; clear H.
  rewrite length_content by assumption.
  pose proof (lineCharLength_nonneg (content n) line Hl) as (H1 & H2).
  pose proof (clamp_range (lineCharLength (line_starts_of (content n))
                             (len (content n)) line) col H1).
  pose proof (at_line_starts_bounds (content n) line Hl). lia.
Qed.

Lemma split_at (c : list Z) (k : Z) :
  0 <= k < len c -> c = take k c ++ at_ c k :: drop (k + 1) c.
Proof.
  intros H. rewrite <- (take_drop k c) at 1. f_equal.
  unfold drop, at_, len in *.
  replace (Z.to_nat (k + 1)) with (S (Z.to_nat k)) by lia.
  remember (Z.to_nat k) as m eqn:Em.
  assert (Hm : (m < List.length c)%nat) by lia. clear Em H.
  revert c Hm. induction m as [| m IH]; intros [| x c] Hm; simpl in *; try lia.
  - reflexivity.
  - apply IH. lia.
Qed.

Lemma updateLineIndexOnInsert_at (rt : option node) (c : list Z) (index ru : Z) :
  0 <= index <= len c ->
  updateLineIndexOnInsert (mkRope rt (line_starts_of c)) index ru
  = mkRope rt (line_starts_of (insert_at index ru c)).
Proof.
  intros H. unfold insert_at.
  pose proof (updateLineIndexOnInsert_correct rt (take index c) (drop index c) ru) as U.
  rewrite take_drop, len_take in U by assumption. exact U.
Qed.

Lemma updateLineIndexOnDelete_at (rt : option node) (c : list Z) (k : Z) :
  0 <= k < len c ->
  updateLineIndexOnDelete (mkRope rt (line_starts_of c)) k (at_ c k)
  = mkRope rt (line_starts_of (remove_at k c)).
Proof.
  intros H. unfold remove_at.
  pose proof (updateLineIndexOnDelete_correct rt (take k c) (drop (k + 1) c) (at_ c k))
    as U.
  rewrite <- (split_at c k H), len_take in U by lia. exact U.
Qed.

(** ** [Insert] *)

Lemma Insert_rejects (n : node) (ls : list Z) (line col ru index : Z) (e : error) :
  getIndex (mkRope (Some n) ls) line col = (index, Some e) ->
  Insert (mkRope (Some n) ls) line col ru
  = (mkRope (Some n) ls, Some (ErrInvalidPosition line col e)).
Proof. intros H. unfold Insert. cbn [root lineStarts]. rewrite H. reflexivity. Qed.

Lemma Insert_accepts (n : node) (line col ru index : Z) :
  wf_node n ->
  getIndex (mkRope (Some n) (line_starts_of (content n))) line col = (index, None) ->
  exists n',
    Insert (mkRope (Some n) (line_starts_of (content n))) line col ru
    = (mkRope (Some n') (line_starts_of (content n')), None)
    /\ wf_node n'
    /\ (content n' = insert_at index ru (content n)
        \/ content n' = map sanitize (insert_at index ru (content n))).
Proof.
  intros Hwf Hget.
  destruct (getIndex_range n line col index Hwf Hget) as (_ & Hi).
  unfold Insert. cbn [root lineStarts]. rewrite Hget. cbv zeta.
  rewrite updateLineIndexOnInsert_at by assumption.
  rewrite <- insert_content by assumption.
  destruct (shouldRebalance _).
  - rewrite rebalance_correct.
    exists (Leaf (map sanitize (content (insert n index ru)))).
    split; [reflexivity |]. split; [exact I |]. right. reflexivity.
  - exists (insert n index ru).
    split; [reflexivity |]. split; [apply insert_wf; assumption |].
    left. reflexivity.
Qed.

(** ** [Delete] *)

Lemma RuneAt_content (n : node) (ls : list Z) (index : Z) :
  wf_node n -> 0 <= index < len (content n) ->
  RuneAt (mkRope (Some n) ls) index = (at_ (content n) index, None).
Proof.
  intros Hwf H. unfold RuneAt. cbn [root].
  rewrite length_content by assumption.
  destruct (Z.ltb_spec index 0); [lia |].
  destruct (Z.leb_spec (len (content n)) index); [lia |].
  cbn [orb]. apply runeAt_content; assumption.
Qed.

Lemma Delete_accepts (n : node) (line col index : Z) :
  wf_node n ->
  ((col =? 0) && (line =? 0)) = false ->
  getIndex (mkRope (Some n) (line_starts_of (content n))) line col = (index, None) ->
  index <> 0 ->
  exists n',
    Delete (mkRope (Some n) (line_starts_of (content n))) line col
    = (mkRope (Some n') (line_starts_of (content n')), None)
    /\ wf_node n'
    /\ (content n' = remove_at (index - 1) (content n)
        \/ content n' = map sanitize (remove_at (index - 1) (content n))).
Proof.
  intros Hwf Hstart Hget Hne.
  destruct (getIndex_range n line col index Hwf Hget) as (_ & Hi).
  assert (Hk : 0 <= index - 1 < len (content n)) by lia.
  destruct (delete_content n (index - 1) Hwf Hk) as (Hc & Hwf').
  unfold Delete. cbn [root lineStarts]. rewrite Hstart, Hget.
  destruct (Z.eqb_spec index 0) as [? | _]; [contradiction |].
  cbv zeta. rewrite RuneAt_content by assumption.
  rewrite updateLineIndexOnDelete_at by assumption.
  rewrite <- Hc.
  destruct (shouldRebalance _).
  - rewrite rebalance_correct.
    exists (Leaf (map sanitize (content (delete n (index - 1))))).
    split; [reflexivity |]. split; [exact I |]. right. reflexivity.
  - exists (delete n (index - 1)).
    split; [reflexivity |]. split; [assumption |]. left. reflexivity.
Qed.

(** A failed [Delete] hands the rope back as it was; this needs no
    invariant at all. *)
Lemma Delete_error_unchanged (r : Rope) (line col : Z) (e : error) :
  snd (Delete r line col) = Some e -> fst (Delete r line col) = r.
Proof.
  unfold Delete. destruct (root r) as [n |]; [| reflexivity].
  destruct ((col =? 0) && (line =? 0)); [reflexivity |].
  destruct (getIndex r line col) as [index [err |]]; [reflexivity |].
  destruct (index =? 0); [reflexivity |].
  destruct (RuneAt r (index - 1)) as [ru [err |]]; [reflexivity |].
  cbv zeta. simpl. discriminate.
Qed.

Lemma Insert_error_unchanged (r : Rope) (line col ru : Z) (e : error) :
  root r <> None ->
  snd (Insert r line col ru) = Some e -> fst (Insert r line col ru) = r.
Proof.
  destruct r as [[n |] ls]; [| intros H; contradiction H; reflexivity].
  intros _. unfold Insert. cbn [root lineStarts].
  destruct (getIndex _ line col) as [index [err |]]; [reflexivity |].
  cbv zeta. simpl. discriminate.
Qed.

(** ** Reachable ropes satisfy the invariant *)

Lemma rope_ok_eta (r : Rope) :
  rope_ok r ->
  exists n, wf_node n /\ r = mkRope (Some n) (line_starts_of (content n)).
Proof.
  intros (n & Hr & Hwf & Hls). exists n. split; [assumption |].
  destruct r as [rt ls]. simpl in *. subst. reflexivity.
Qed.

Lemma Insert_ok (r : Rope) (line col ru : Z) :
  rope_ok r -> rope_ok (fst (Insert r line col ru)).
Proof.
  intros H. destruct (rope_ok_eta r H) as (n & Hwf & ->).
  destruct (getIndex (mkRope (Some n) (line_starts_of (content n))) line col)
    as [index [e |]] eqn:Hget.
  - rewrite (Insert_rejects _ _ _ _ _ _ _ Hget). apply rope_ok_intro, Hwf.
  - destruct (Insert_accepts n line col ru index Hwf Hget) as (n' & -> & Hwf' & _).
    apply rope_ok_intro, Hwf'.
Qed.

Lemma Delete_ok (r : Rope) (line col : Z) :
  rope_ok r -> rope_ok (fst (Delete r line col)).
Proof.
  intros H.
  destruct (snd (Delete r line col)) as [e |] eqn:Hres.
  - rewrite (Delete_error_unchanged _ _ _ _ Hres). exact H.
  - destruct (rope_ok_eta r H) as (n & Hwf & ->).
    revert Hres. unfold Delete at 1. cbn [root lineStarts].
    destruct ((col =? 0) && (line =? 0)) eqn:Hstart; [discriminate |].
    destruct (getIndex _ line col) as [index [err |]] eqn:Hget; [discriminate |].
    destruct (Z.eqb_spec index 0) as [E | E]; [discriminate |]. intros _.
    destruct (Delete_accepts n line col index Hwf Hstart Hget E)
      as (n' & -> & Hwf' & _).
    apply rope_ok_intro, Hwf'.
Qed.

Lemma reachable_ok (r : Rope) : reachable r -> rope_ok r.
Proof.
  induction 1 as [text | r line col ru _ IH | r line col _ IH].
  - apply NewRope_ok.
  - apply Insert_ok, IH.
  - apply Delete_ok, IH.
Qed.

End RopeFacts.

(** * Lines of the document and the line index *)

Module LinesFacts.
Import Buffer RopeSpec Aux SliceFacts NodeFacts LineIndexFacts RopeFacts.

Lemma split_lines_nonempty (c : list Z) : split_lines c <> [].
Proof.
  destruct c as [| x c]; simpl; [discriminate |].
  destruct (x =? newline); [discriminate |].
  destruct (split_lines c); discriminate.
Qed.

Lemma starts_of_split_lines (c : list Z) : forall pos,
  pos :: newlines_from pos c = starts_of_lines pos (split_lines c).
Proof.
  induction c as [| x c IH]; intros pos; [reflexivity |].
  cbn [newlines_from split_lines].
  destruct (x =? newline).
  - cbn [starts_of_lines]. rewrite len_nil. f_equal.
    replace (pos + 0 + 1) with (pos + 1) by lia. apply IH.
  - specialize (IH (pos + 1)).
    destruct (split_lines c) as [| l ls] eqn:E.
    + exfalso. exact (split_lines_nonempty c E).
    + cbn [starts_of_lines] in *. inversion IH as [H]. rewrite len_cons.
      replace (pos + (len l + 1) + 1) with (pos + 1 + len l + 1) by lia.
      rewrite H. reflexivity.
Qed.

Lemma line_starts_split (c : list Z) :
  line_starts_of c = starts_of_lines 0 (split_lines c).
Proof. apply starts_of_split_lines. Qed.

Lemma size_split_lines (c : list Z) : lines_size (split_lines c) = len c + 1.
Proof.
  induction c as [| x c IH]; [reflexivity |].
  cbn [split_lines]. rewrite len_cons. destruct (x =? newline).
  - cbn [lines_size]. rewrite len_nil, IH. lia.
  - destruct (split_lines c) as [| l ls] eqn:E.
    + exfalso. exact (split_lines_nonempty c E).
    + cbn [lines_size] in *. rewrite len_cons. lia.
Qed.

Lemma len_starts_of_lines (ls : list (list Z)) : forall off,
  len (starts_of_lines off ls) = len ls.
Proof.
  induction ls as [| l ls IH]; intros off; [reflexivity |].
  cbn [starts_of_lines]. rewrite !len_cons, IH. reflexivity.
Qed.

Lemma len_split_lines (c : list Z) : len (split_lines c) = len (line_starts_of c).
Proof. rewrite line_starts_split, len_starts_of_lines. reflexivity. Qed.

Lemma at_starts_of_lines (ls : list (list Z)) : forall (off : Z) (n : nat),
  (n < List.length ls)%nat ->
  at_ (starts_of_lines off ls) (Z.of_nat n) = off + line_offset ls n.
Proof.
  induction ls as [| l ls IH]; intros off n Hn; simpl in Hn; [lia |].
  destruct n as [| n].
  - cbn [starts_of_lines line_offset Z.of_nat]. rewrite at_cons_0. lia.
  - cbn [starts_of_lines line_offset]. rewrite at_cons_S by lia.
    replace (Z.of_nat (S n) - 1) with (Z.of_nat n) by lia.
    rewrite IH by lia. lia.
Qed.

Lemma line_offset_succ (ls : list (list Z)) : forall (n : nat),
  (n < List.length ls)%nat ->
  line_offset ls (S n) = line_offset ls n + len (nth n ls []) + 1.
Proof.
  induction ls as [| l ls IH]; intros n Hn; simpl in Hn; [lia |].
  destruct n as [| n].
  - cbn [line_offset nth]. destruct ls; cbn [line_offset]; lia.
  - change (line_offset (l :: ls) (S (S n))) with (len l + 1 + line_offset ls (S n)).
    rewrite IH by lia. cbn [line_offset nth]. lia.
Qed.

Lemma line_offset_all (ls : list (list Z)) :
  line_offset ls (List.length ls) = lines_size ls.
Proof.
  induction ls as [| l ls IH]; [reflexivity |].
  cbn [List.length line_offset lines_size]. rewrite IH. reflexivity.
Qed.

Lemma at_line_starts_offset (c : list Z) (line : Z) :
  0 <= line < len (split_lines c) ->
  at_ (line_starts_of c) line = line_offset (split_lines c) (Z.to_nat line).
Proof.
  intros H. rewrite line_starts_split.
  rewrite <- (Z2Nat.id line) at 1 by lia.
  rewrite at_starts_of_lines by (unfold len in H; lia). lia.
Qed.

(** The length that [getIndex] computes from the index is the length of the
    line. *)
Lemma lineCharLength_line_text (c : list Z) (line : Z) :
  0 <= line < len (split_lines c) ->
  lineCharLength (line_starts_of c) (len c) line = len (line_text c line).
Proof.
  intros H. unfold lineCharLength, line_text.
  rewrite <- len_split_lines.
  assert (Hn : (Z.to_nat line < List.length (split_lines c))%nat)
    by (unfold len in H; lia).
  pose proof (line_offset_succ (split_lines c) (Z.to_nat line) Hn) as Hs.
  rewrite (at_line_starts_offset c line H).
  destruct (Z.ltb_spec (line + 1) (len (split_lines c))) as [Hlt | Hge].
  - rewrite (at_line_starts_offset c (line + 1)) by lia.
    replace (Z.to_nat (line + 1)) with (S (Z.to_nat line)) by lia. lia.
  - assert (E : S (Z.to_nat line) = List.length (split_lines c))
      by (unfold len in *; lia).
    rewrite E, line_offset_all, size_split_lines in Hs. lia.
Qed.

(** [getIndex] resolves a position as the specification says. *)
Lemma getIndex_flat_index (n : node) (line col : Z) :
  wf_node n ->
  match flat_index (content n) line col with
  | Some i =>
    getIndex (mkRope (Some n) (line_starts_of (content n))) line col = (i, None)
  | None =>
    snd (getIndex (mkRope (Some n) (line_starts_of (content n))) line col) <> None
  end.
Proof.
  intros Hwf. unfold flat_index. rewrite len_split_lines.
  destruct (Z.leb_spec 0 line); destruct (Z.ltb_spec line (len (line_starts_of (content n))));
    cbn [andb].
  - rewrite getIndex_unfold by lia.
    rewrite length_content by assumption.
    rewrite lineCharLength_line_text by (rewrite len_split_lines; lia).
    rewrite at_line_starts_offset by (rewrite len_split_lines; lia).
    reflexivity.
  - intros E. apply getIndex_error_iff in E. lia.
  - intros E. apply getIndex_error_iff in E. lia.
  - intros E. apply getIndex_error_iff in E. lia.
Qed.

End LinesFacts.

(** * Texts up to a trip through a string *)

Module TextFacts.
Import Buffer RopeSpec Aux SliceFacts NodeFacts LineIndexFacts Utf8Facts RopeFacts
       LinesFacts.

Lemma same_text_refl (c : list Z) : same_text c c.
Proof. reflexivity. Qed.

Lemma same_text_trans (a b c : list Z) :
  same_text a b -> same_text b c -> same_text a c.
Proof. unfold same_text. congruence. Qed.

Lemma same_text_sanitize (c : list Z) : same_text (map sanitize c) c.
Proof.
  unfold same_text. rewrite map_map. apply map_ext. apply sanitize_idem.
Qed.

Lemma same_text_len (c d : list Z) : same_text c d -> len c = len d.
Proof.
  unfold same_text. intros H. rewrite <- (len_map sanitize c), H. apply len_map.
Qed.

Lemma same_text_string (c d : list Z) :
  same_text c d -> string_of_runes c = string_of_runes d.
Proof.
  unfold same_text. intros H.
  rewrite <- (string_of_runes_sanitize c), H. apply string_of_runes_sanitize.
Qed.

Lemma same_text_newlines (c : list Z) : forall (d : list Z) (pos : Z),
  same_text c d -> newlines_from pos c = newlines_from pos d.
Proof.
  unfold same_text.
  induction c as [| x c IH]; intros [| y d] pos H; try discriminate; [reflexivity |].
  simpl in H. inversion H as [[Hx Hrest]].
  cbn [newlines_from].
  rewrite <- (sanitize_newline x), Hx, sanitize_newline.
  rewrite (IH d (pos + 1) Hrest). reflexivity.
Qed.

Lemma same_text_line_starts (c d : list Z) :
  same_text c d -> line_starts_of c = line_starts_of d.
Proof. intros H. unfold line_starts_of. f_equal. apply same_text_newlines, H. Qed.

Lemma map_take {A B : Type} (f : A -> B) (i : Z) (l : list A) :
  map f (take i l) = take i (map f l).
Proof. unfold take. symmetry. apply firstn_map. Qed.

Lemma map_drop {A B : Type} (f : A -> B) (i : Z) (l : list A) :
  map f (drop i l) = drop i (map f l).
Proof. unfold drop. symmetry. apply skipn_map. Qed.

Lemma same_text_insert_at (i x : Z) (c d : list Z) :
  same_text c d -> same_text (insert_at i x c) (insert_at i x d).
Proof.
  unfold same_text, insert_at. intros H.
  rewrite !map_app. cbn [map]. rewrite !map_take, !map_drop, H. reflexivity.
Qed.

Lemma same_text_remove_at (i : Z) (c d : list Z) :
  same_text c d -> same_text (remove_at i c) (remove_at i d).
Proof.
  unfold same_text, remove_at. intros H.
  rewrite !map_app. rewrite !map_take, !map_drop, H. reflexivity.
Qed.

(** [flat_index] read off the line index. *)
Lemma flat_index_by_starts (c : list Z) (line col : Z) :
  flat_index c line col
  = if (0 <=? line) && (line <? len (line_starts_of c))
    then Some (at_ (line_starts_of c) line
               + clamp 0 (lineCharLength (line_starts_of c) (len c) line) col)
    else None.
Proof.
  unfold flat_index. rewrite len_split_lines.
  destruct (Z.leb_spec 0 line);
    destruct (Z.ltb_spec line (len (line_starts_of c))); cbn [andb]; try reflexivity.
  rewrite lineCharLength_line_text by (rewrite len_split_lines; lia).
  rewrite at_line_starts_offset by (rewrite len_split_lines; lia).
  reflexivity.
Qed.

Lemma same_text_flat_index (c d : list Z) (line col : Z) :
  same_text c d -> flat_index c line col = flat_index d line col.
Proof.
  intros H. rewrite !flat_index_by_starts.
  rewrite (same_text_line_starts c d H), (same_text_len c d H). reflexivity.
Qed.

(** ** The lines of a text are where the index says *)

Lemma join_split_lines (c : list Z) : join_lines (split_lines c) = c.
Proof.
  induction c as [| x c IH]; [reflexivity |].
  cbn [split_lines]. destruct (x =? newline) eqn:E.
  - apply Z.eqb_eq in E. subst x.
    destruct (split_lines c) as [| l ls] eqn:Es.
    + exfalso. exact (split_lines_nonempty c Es).
    + change (join_lines ([] :: l :: ls)) with ([] ++ newline :: join_lines (l :: ls)).
      rewrite IH. reflexivity.
  - destruct (split_lines c) as [| l ls] eqn:Es.
    + exfalso. exact (split_lines_nonempty c Es).
    + destruct ls as [| l' ls]; cbn [join_lines] in *; rewrite <- IH; reflexivity.
Qed.

Lemma join_lines_cons (l : list Z) (rest : list (list Z)) :
  rest <> [] -> join_lines (l :: rest) = l ++ newline :: join_lines rest.
Proof. destruct rest; [intros H; contradiction H; reflexivity | reflexivity]. Qed.

Lemma line_in_join (ls : list (list Z)) : forall (n : nat),
  (n < List.length ls)%nat ->
  take (len (nth n ls [])) (drop (line_offset ls n) (join_lines ls)) = nth n ls [].
Proof.
  induction ls as [| l ls IH]; intros n Hn; simpl in Hn; [lia |].
  destruct n as [| n].
  - cbn [nth line_offset]. rewrite drop_nonpos by lia.
    destruct ls as [| l' ls].
    + apply take_all. cbn [join_lines]. lia.
    + rewrite join_lines_cons by discriminate. apply take_exact. reflexivity.
  - cbn [nth line_offset].
    assert (Hne : ls <> []) by (destruct ls; [simpl in Hn; lia | discriminate]).
    rewrite join_lines_cons by assumption.
    assert (H0 : 0 <= line_offset ls n).
    { clear. revert ls. induction n as [| n IHn]; intros [| a ls]; simpl; try lia.
      pose proof (len_nonneg a). specialize (IHn ls). lia. }
    pose proof (len_nonneg l).
    rewrite drop_app_r by lia.
    replace (len l + 1 + line_offset ls n - len l) with (line_offset ls n + 1) by lia.
    unfold drop at 1.
    replace (Z.to_nat (line_offset ls n + 1)) with (S (Z.to_nat (line_offset ls n)))
      by lia.
    cbn [skipn]. apply (IH n). lia.
Qed.

(** Line [line] of the text [c] is the stretch of [c] that starts at its
    offset. *)
Lemma line_text_in_document (c : list Z) (line : Z) :
  0 <= line < len (split_lines c) ->
  take (len (line_text c line))
       (drop (line_offset (split_lines c) (Z.to_nat line)) c)
  = line_text c line.
Proof.
  intros H. unfold line_text.
  pose proof (line_in_join (split_lines c) (Z.to_nat line)) as L.
  rewrite join_split_lines in L. apply L. unfold len in H. lia.
Qed.

End TextFacts.
(** * Facts about the editor *)

Module EditorFacts.
Import Buffer Editor.

(** ** What leaves the redo stack alone *)

(** Reading the redo stack through the setters of the other fields. *)
Ltac through_setters :=
  cbn [redoStack set_buffer set_cursorX set_cursorY set_extraCursorHeight
       set_undoStack set_selectionActive set_selectionAnchorX set_selectionAnchorY
       set_undoGrouping set_currentGroupID set_lastGroupID set_typingEntries
       set_typingActive set_lastTypeTime set_typeGroupThreshold set_backspaceEntries
       set_backspaceActive set_lastBackspaceTime set_backspaceThreshold
       set_deleteEntries set_deleteActive set_lastDeleteTime set_deleteThreshold].

Lemma redo_beginUndoGroup (e : Editor) : redoStack (beginUndoGroup e) = redoStack e.
Proof. reflexivity. Qed.

Lemma redo_endUndoGroup (e : Editor) : redoStack (endUndoGroup e) = redoStack e.
Proof. reflexivity. Qed.

Lemma redo_pushUndoInsertBlock (entries : list opEntry) (e : Editor) :
  redoStack (pushUndoInsertBlock entries e) = redoStack e.
Proof. unfold pushUndoInsertBlock. destruct (len entries =? 0); reflexivity. Qed.

Lemma redo_pushUndoDeleteBlock (entries : list opEntry) (b : bool) (e : Editor) :
  redoStack (pushUndoDeleteBlock entries b e) = redoStack e.
Proof. unfold pushUndoDeleteBlock. destruct (len entries =? 0); reflexivity. Qed.

Lemma redo_pushUndoDeleteIfExternalGrouping (line col r : Z) (e : Editor) :
  redoStack (pushUndoDeleteIfExternalGrouping line col r e) = redoStack e.
Proof. reflexivity. Qed.

Lemma redo_flushTypingGroup (e : Editor) : redoStack (flushTypingGroup e) = redoStack e.
Proof.
  unfold flushTypingGroup. destruct (negb (typingActive e)); [reflexivity |].
  through_setters. destruct (0 <? len (typingEntries e)); [| reflexivity].
  apply redo_pushUndoInsertBlock.
Qed.

Lemma redo_flushBackspaceGroup (e : Editor) :
  redoStack (flushBackspaceGroup e) = redoStack e.
Proof.
  unfold flushBackspaceGroup. destruct (negb (backspaceActive e)); [reflexivity |].
  through_setters. destruct (0 <? len (backspaceEntries e)); [| reflexivity].
  apply redo_pushUndoDeleteBlock.
Qed.

Lemma redo_flushDeleteGroup (e : Editor) : redoStack (flushDeleteGroup e) = redoStack e.
Proof.
  unfold flushDeleteGroup. destruct (negb (deleteActive e)); [reflexivity |].
  through_setters. destruct (0 <? len (deleteEntries e)); [| reflexivity].
  apply redo_pushUndoDeleteBlock.
Qed.

Lemma redo_flushTypingAndBackspaceIfNeeded (e : Editor) :
  redoStack (flushTypingAndBackspaceIfNeeded e) = redoStack e.
Proof.
  unfold flushTypingAndBackspaceIfNeeded.
  rewrite redo_flushBackspaceGroup. apply redo_flushTypingGroup.
Qed.

Lemma redo_flushEditGroups (e : Editor) : redoStack (flushEditGroups e) = redoStack e.
Proof.
  unfold flushEditGroups.
  rewrite redo_flushDeleteGroup, redo_flushBackspaceGroup. apply redo_flushTypingGroup.
Qed.

Lemma redo_bufferDelete (line col : Z) (e : Editor) :
  redoStack (bufferDelete line col e) = redoStack e.
Proof. reflexivity. Qed.

Lemma redo_bufferInsert (line col r : Z) (e : Editor) :
  redoStack (bufferInsert line col r e) = redoStack e.
Proof. reflexivity. Qed.

Lemma redo_fold_left {A : Type} (f : Editor -> A -> Editor) (l : list A) :
  (forall e x, redoStack (f e x) = redoStack e) ->
  forall e, redoStack (fold_left f l e) = redoStack e.
Proof.
  intros Hf. induction l as [| x l IH]; intros e; cbn [fold_left]; [reflexivity |].
  rewrite IH. apply Hf.
Qed.

Lemma redo_foldM {A : Type} (f : A -> Editor -> option Editor) (l : list A) :
  (forall x e e', f x e = Some e' -> redoStack e' = redoStack e) ->
  forall e e', foldM f l e = Some e' -> redoStack e' = redoStack e.
Proof.
  intros Hf. induction l as [| x l IH]; intros e e' H; cbn [foldM] in H.
  - injection H as <-. reflexivity.
  - destruct (f x e) as [e1 |] eqn:E; cbn [bind] in H; [| discriminate].
    rewrite (IH _ _ H). apply (Hf _ _ _ E).
Qed.

Lemma redo_deleteColumnsDown (line lo hi : Z) (e : Editor) :
  redoStack (deleteColumnsDown line lo hi e) = redoStack e.
Proof. unfold deleteColumnsDown. apply redo_fold_left. reflexivity. Qed.

Lemma redo_deleteSelectedText (e e' : Editor) :
  deleteSelectedText e = Some e' -> redoStack e' = redoStack e.
Proof.
  unfold deleteSelectedText. destruct (negb (selectionActive e)).
  - intros H. injection H as <-. reflexivity.
  - destruct (getSelectionCoords e) as [[[startY startX] endY] endX].
    destruct (startY =? endY).
    + destruct (entriesOfLine _ _ _ _); cbn [bind]; [| discriminate].
      intros H. injection H as <-. through_setters.
      rewrite redo_pushUndoDeleteBlock, redo_deleteColumnsDown.
      apply redo_flushTypingAndBackspaceIfNeeded.
    + destruct (entriesOfLine _ _ _ _); cbn [bind]; [| discriminate].
      destruct (mapM _ _); cbn [bind]; [| discriminate].
      destruct (entriesOfLine _ _ _ _); cbn [bind]; [| discriminate].
      intros H. injection H as <-. through_setters.
      rewrite redo_pushUndoDeleteBlock, redo_deleteColumnsDown, redo_bufferDelete.
      rewrite redo_fold_left.
      * rewrite redo_deleteColumnsDown. apply redo_flushTypingAndBackspaceIfNeeded.
      * intros e0 y. rewrite redo_deleteColumnsDown. reflexivity.
Qed.

Lemma redo_insertRunes (runes : list Z) : forall (entries : list opEntry) (e : Editor),
  redoStack (fst (insertRunes runes entries e)) = redoStack e.
Proof.
  induction runes as [| r rest IH]; intros entries e; cbn [insertRunes]; [reflexivity |].
  rewrite IH. destruct (r =? newline); reflexivity.
Qed.

Lemma redo_insertString (s : list Z) (e : Editor) :
  redoStack (insertString s e) = redoStack e.
Proof.
  unfold insertString. destruct (len (runes_of_string s) =? 0); [reflexivity |].
  destruct (insertRunes _ _ _) as [e1 entries] eqn:E.
  assert (H1 : redoStack e1 = redoStack e).
  { change e1 with (fst (e1, entries)). rewrite <- E, redo_insertRunes.
    destruct (negb (undoGrouping e)); reflexivity. }
  destruct (negb (undoGrouping e)); through_setters;
    rewrite ?redo_endUndoGroup, redo_pushUndoInsertBlock; exact H1.
Qed.

Lemma redo_clampCursorX (e : Editor) : redoStack (clampCursorX e) = redoStack e.
Proof.
  unfold clampCursorX.
  destruct (_ <? cursorX e); reflexivity.
Qed.

Lemma redo_duplicateLine (e : Editor) : redoStack (duplicateLine e) = redoStack e.
Proof.
  unfold duplicateLine. destruct (LineCount (buffer e) =? 0); [reflexivity |].
  destruct (cursorY e =? LineCount (buffer (beginUndoGroup e)) - 1);
    rewrite redo_endUndoGroup, redo_clampCursorX; through_setters;
    rewrite redo_insertString; reflexivity.
Qed.

Lemma redo_insertRunesChecked (runes : list Z) :
  forall (entries : list opEntry) (e : Editor),
  redoStack (fst (insertRunesChecked runes entries e)) = redoStack e.
Proof.
  induction runes as [| r rest IH]; intros entries e; cbn [insertRunesChecked];
    [reflexivity |].
  destruct (Insert (buffer e) (cursorY e) (cursorX e) r) as [b [err |]];
    [reflexivity |].
  rewrite IH. destruct (r =? newline); reflexivity.
Qed.

Lemma redo_pasteFromClipboard (env : Env) (e : Editor) :
  redoStack (fst (pasteFromClipboard env e)) = redoStack e.
Proof.
  unfold pasteFromClipboard. destruct (clipboardText env) as [text |]; [| reflexivity].
  destruct (len text =? 0); [reflexivity |].
  destruct (insertRunesChecked _ _ _) as [e1 res] eqn:E.
  assert (H1 : redoStack e1 = redoStack e).
  { change e1 with (fst (e1, res)). rewrite <- E, redo_insertRunesChecked.
    rewrite redo_beginUndoGroup. apply redo_flushTypingAndBackspaceIfNeeded. }
  destruct res; cbn [fst]; rewrite redo_endUndoGroup, ?redo_pushUndoInsertBlock; exact H1.
Qed.

Lemma redo_applyFind (env : Env) (e : Editor) : redoStack (applyFind env e) = redoStack e.
Proof. unfold applyFind. destruct (findOutcome env); reflexivity. Qed.

Lemma redo_startSelection (b : bool) (e : Editor) :
  redoStack (startSelection b e) = redoStack e.
Proof.
  unfold startSelection.
  destruct (b && negb (selectionActive e)); [reflexivity |].
  destruct (negb b); reflexivity.
Qed.

Lemma redo_moveWordLeft (env : Env) (b : bool) (e e' : Editor) :
  moveWordLeft env b e = Some e' -> redoStack e' = redoStack e.
Proof.
  unfold moveWordLeft.
  destruct (cursorX (startSelection b e) =? 0).
  - destruct (0 <? cursorY (startSelection b e)); intros H; injection H as <-;
      through_setters; apply redo_startSelection.
  - destruct (scanLeft _ _ _ _) as [x |]; cbn [bind]; [| discriminate].
    destruct (x <? 0).
    + intros H; injection H as <-. through_setters. apply redo_startSelection.
    + destruct (index _ x) as [r |]; cbn [bind]; [| discriminate].
      destruct (if isWordChar env r then _ else _) as [x' |]; cbn [bind]; [| discriminate].
      intros H; injection H as <-. through_setters. apply redo_startSelection.
Qed.

Lemma redo_deleteSelection_group (e e' : Editor) :
  (e0 <- deleteSelectedText (beginUndoGroup e) ;; Some (endUndoGroup e0)) = Some e' ->
  redoStack e' = redoStack e.
Proof.
  destruct (deleteSelectedText (beginUndoGroup e)) as [e0 |] eqn:E; cbn [bind];
    [| discriminate].
  intros H; injection H as <-.
  rewrite redo_endUndoGroup, (redo_deleteSelectedText _ _ E). reflexivity.
Qed.

Lemma redo_handleDeleteWordLeft (env : Env) (e e' : Editor) :
  handleDeleteWordLeft env e = Some e' -> redoStack e' = redoStack e.
Proof.
  unfold handleDeleteWordLeft.
  destruct (selectionActive (flushEditGroups e)).
  - intros H. rewrite (redo_deleteSelection_group _ _ H). apply redo_flushEditGroups.
  - destruct (moveWordLeft env false (flushEditGroups e)) as [e1 |] eqn:E; cbn [bind];
      [| discriminate].
    pose proof (redo_moveWordLeft _ _ _ _ E) as H1. rewrite redo_flushEditGroups in H1.
    destruct ((cursorY e1 =? cursorY (flushEditGroups e))
              && (cursorX e1 =? cursorX (flushEditGroups e))).
    + intros H; injection H as <-. exact H1.
    + intros H. rewrite (redo_deleteSelection_group _ _ H). exact H1.
Qed.

Lemma redo_toggleCaseAtCursor (env : Env) (e e' : Editor) :
  toggleCaseAtCursor env e = Some e' -> redoStack e' = redoStack e.
Proof.
  unfold toggleCaseAtCursor.
  destruct (LineCount (buffer e) =? 0); [intros H; injection H as <-; reflexivity |].
  destruct (len (lineRunes e (cursorY e)) =? 0);
    [intros H; injection H as <-; reflexivity |].
  destruct (index _ _) as [r |]; cbn [bind]; [| discriminate].
  destruct (if negb (isWordChar env r) then _ else _) as [idx |];
    [| intros H; injection H as <-; reflexivity].
  destruct (len _ =? 0); [intros H; injection H as <-; reflexivity |].
  destruct (deleteSelectedText _) as [e1 |] eqn:E; cbn [bind]; [| discriminate].
  apply redo_deleteSelectedText in E. change (redoStack e1 = redoStack e) in E.
  intros H; injection H as <-.
  rewrite redo_endUndoGroup.
  destruct (_ <? cursorX e); through_setters; rewrite redo_insertString; exact E.
Qed.

Lemma redo_typeOnLine (r i : Z) (e : Editor) : redoStack (typeOnLine r i e) = redoStack e.
Proof.
  unfold typeOnLine. destruct (LineCount (buffer e) <=? i); [reflexivity |].
  destruct (Insert _ _ _ _) as [b [err |]]; [reflexivity |].
  rewrite redo_pushUndoInsertBlock. reflexivity.
Qed.

Lemma redo_backspaceOnLine (i : Z) (e e' : Editor) :
  backspaceOnLine i e = Some e' -> redoStack e' = redoStack e.
Proof.
  unfold backspaceOnLine.
  destruct (LineCount (buffer e) <=? i); [intros H; injection H as <-; reflexivity |].
  destruct ((_ =? 0) && (i =? 0)); [intros H; injection H as <-; reflexivity |].
  destruct (0 <? _).
  - destruct (getRuneAt _ _ _) as [char |]; cbn [bind]; [| discriminate].
    intros H; injection H as <-. reflexivity.
  - destruct (extraCursorHeight e =? 0); [| intros H; injection H as <-; reflexivity].
    destruct (i =? _); intros H; injection H as <-; reflexivity.
Qed.

Lemma redo_handleEnter (env : Env) (e : Editor) :
  redoStack (handleEnter env e) = redoStack e.
Proof.
  unfold handleEnter.
  destruct (insertRunesChecked _ _ _) as [e1 res] eqn:E.
  assert (H1 : redoStack e1 = redoStack e).
  { change e1 with (fst (e1, res)). rewrite <- E, redo_insertRunesChecked.
    through_setters.
    rewrite redo_flushTypingGroup, redo_flushDeleteGroup. apply redo_flushBackspaceGroup. }
  destruct res; [| exact H1].
  through_setters. rewrite redo_pushUndoInsertBlock. exact H1.
Qed.

Lemma redo_handleBackspace (e e' : Editor) :
  handleBackspace e = Some e' -> redoStack e' = redoStack e.
Proof.
  unfold handleBackspace. destruct (selectionActive e).
  - apply redo_deleteSelection_group.
  - destruct (getMultiCursorRange _) as [startLine endLine].
    destruct (foldM _ _ _) as [e1 |] eqn:E; cbn [bind]; [| discriminate].
    apply (redo_foldM _ _ redo_backspaceOnLine) in E.
    rewrite redo_beginUndoGroup, redo_flushDeleteGroup, redo_flushTypingGroup in E.
    intros H; injection H as <-. rewrite redo_endUndoGroup.
    destruct (0 <? cursorX e1); exact E.
Qed.

Lemma redo_handleTyping (env : Env) (r : rune) (e : Editor) :
  redoStack (handleTyping env r e) = redoStack e.
Proof.
  unfold handleTyping.
  destruct (getMultiCursorRange _) as [startLine endLine].
  rewrite redo_endUndoGroup. through_setters.
  rewrite redo_fold_left by (intros; apply redo_typeOnLine).
  rewrite redo_beginUndoGroup, redo_flushTypingGroup, redo_flushDeleteGroup.
  apply redo_flushBackspaceGroup.
Qed.

(** A key that is not one of those the second [switch] of [handleKey] names
    goes through [dispatch] with the redo stack as it is. *)
Lemma redo_dispatch (env : Env) (r : rune) (e e' : Editor) (err : option error) :
  keepsRedoStack r = false ->
  dispatch env r e = Some (e', err) -> redoStack e' = redoStack e.
Proof.
  intros K. unfold keepsRedoStack in K.
  repeat (apply orb_false_iff in K; destruct K as [K ?]).
  unfold dispatch.
  repeat match goal with
  | H : (r =? ?k) = false |- context [r =? ?k] => rewrite H
  end.
  repeat match goal with
  | |- context [if r =? ?k then _ else _] => destruct (r =? k)
  end;
  try (intros Hd; injection Hd as <- <-; through_setters;
       rewrite ?redo_applyFind, ?redo_duplicateLine, ?redo_handleEnter,
               ?redo_handleTyping, ?redo_pasteFromClipboard;
       through_setters; rewrite ?redo_flushEditGroups; reflexivity).
  - destruct (pasteFromClipboard env (flushEditGroups e)) as [e1 err1] eqn:E.
    intros Hd; injection Hd as <- <-.
    change e1 with (fst (e1, err1)). rewrite <- E, redo_pasteFromClipboard.
    apply redo_flushEditGroups.
  - destruct (toggleCaseAtCursor _ _) as [e1 |] eqn:E; cbn [bind]; [| discriminate].
    intros Hd; injection Hd as <- <-.
    rewrite (redo_toggleCaseAtCursor _ _ _ E). through_setters.
    apply redo_flushEditGroups.
  - destruct (handleDeleteWordLeft _ _) as [e1 |] eqn:E; cbn [bind]; [| discriminate].
    intros Hd; injection Hd as <- <-. apply (redo_handleDeleteWordLeft _ _ _ E).
  - destruct (handleBackspace _) as [e1 |] eqn:E; cbn [bind]; [| discriminate].
    intros Hd; injection Hd as <- <-. apply (redo_handleBackspace _ _ E).
Qed.

End EditorFacts.

(** * The properties of the rope *)

Module RopeClaims.
Import Buffer RopeSpec Aux SliceFacts NodeFacts LineIndexFacts Utf8Facts RopeFacts
       LinesFacts TextFacts.

Lemma LineCount_ok (n : node) :
  LineCount (mkRope (Some n) (line_starts_of (content n)))
  = len (line_starts_of (content n)).
Proof.
  unfold LineCount. cbn [lineStarts].
  pose proof (len_line_starts_of (content n)).
  pose proof (count_newlines_nonneg (content n)).
  destruct (Z.eqb_spec (len (line_starts_of (content n))) 0); [lia | reflexivity].
Qed.

Lemma GetLine_empty (n : node) :
  wf_node n -> content n = [] ->
  GetLine (mkRope (Some n) (line_starts_of (content n))) 0 = [].
Proof.
  intros Hwf Hc. unfold GetLine. cbn [root lineStarts].
  rewrite length_content by assumption. rewrite Hc. reflexivity.
Qed.

(** C4. For every rope reachable from [NewRope] by [Insert] and [Delete]
    calls, [LineCount()] is one more than the number of newline runes of the
    document; a rope whose document is empty has exactly one line, and that
    line is empty. *)
Theorem C4_line_count (r : Rope) :
  reachable r ->
  LineCount r = 1 + count_newlines (document r)
  /\ (document r <> [] \/ (LineCount r = 1 /\ GetLine r 0 = [])).
Proof.
  intros H. apply reachable_ok in H.
  destruct (rope_ok_eta r H) as (n & Hwf & ->).
  rewrite LineCount_ok, len_line_starts_of. cbn [document root].
  split; [reflexivity |].
  destruct (content n) as [| x c] eqn:Hc; [right | left; discriminate].
  split; [reflexivity |].
  pose proof (GetLine_empty n Hwf Hc) as G. rewrite Hc in G. exact G.
Qed.

Lemma C4_line_count_witness :
  reachable sample_rope
  /\ (LineCount sample_rope = 1 + count_newlines (document sample_rope)
      /\ (document sample_rope <> []
          \/ (LineCount sample_rope = 1 /\ GetLine sample_rope 0 = []))).
Proof.
  assert (H : reachable sample_rope) by (apply reach_Insert, reach_NewRope).
  split; [exact H | apply (C4_line_count sample_rope H)].
Defined.

Lemma reachable_root (r : Rope) : reachable r -> root r <> None.
Proof.
  intros H. apply reachable_ok in H. destruct H as (n & Hr & _).
  rewrite Hr. discriminate.
Qed.

(** A rope built without [NewRope] may have no root; a failed [Insert] then
    leaves an empty leaf behind, with the same (empty) document and the same
    line index. *)
Lemma Insert_error_document (r : Rope) (line col ru : Z) (e : error) :
  snd (Insert r line col ru) = Some e ->
  document (fst (Insert r line col ru)) = document r
  /\ lineStarts (fst (Insert r line col ru)) = lineStarts r.
Proof.
  destruct r as [[n |] ls]; unfold Insert; cbn [root lineStarts];
    destruct (getIndex _ line col) as [index [err |]]; cbv zeta;
    cbn [fst snd]; try discriminate; intros _; split; reflexivity.
Qed.

(** C5. When [Insert] or [Delete] returns an error, the rope (tree and line
    index, hence the document) is the rope it was called on; [Delete] at
    line 0, column 0 is such an error. *)
Theorem C5_failed_mutation_unchanged (r : Rope) (line col ru : Z) :
  reachable r ->
  (snd (Insert r line col ru) = None \/ fst (Insert r line col ru) = r)
  /\ (snd (Delete r line col) = None \/ fst (Delete r line col) = r)
  /\ Delete r 0 0 = (r, Some ErrStartOfDocument).
Proof.
  intros H. pose proof (reachable_root r H) as Hroot.
  split; [| split].
  - destruct (snd (Insert r line col ru)) as [e |] eqn:E; [right | left; reflexivity].
    apply (Insert_error_unchanged r line col ru e Hroot E).
  - destruct (snd (Delete r line col)) as [e |] eqn:E; [right | left; reflexivity].
    apply (Delete_error_unchanged r line col e E).
  - unfold Delete. destruct (root r); [reflexivity | contradiction Hroot; reflexivity].
Qed.

Lemma C5_failed_mutation_unchanged_witness :
  reachable sample_rope
  /\ ((snd (Insert sample_rope 7 0 97) = None
       \/ fst (Insert sample_rope 7 0 97) = sample_rope)
      /\ (snd (Delete sample_rope 7 0) = None
          \/ fst (Delete sample_rope 7 0) = sample_rope)
      /\ Delete sample_rope 0 0 = (sample_rope, Some ErrStartOfDocument)).
Proof.
  assert (H : reachable sample_rope) by (apply reach_Insert, reach_NewRope).
  split; [exact H | apply (C5_failed_mutation_unchanged sample_rope 7 0 97 H)].
Defined.

Lemma reachable_fold_Insert {A : Type} (l : list A) (line col ru : Z) :
  forall r, reachable r ->
  reachable (fold_left (fun r _ => fst (Insert r line col ru)) l r).
Proof.
  induction l as [| x l IH]; intros r H; cbn [fold_left]; [exact H |].
  apply IH, reach_Insert, H.
Qed.

(** C6. [WriteTo] on the two-leaf rope [two_leaves] (1025 runes) into a sink
    with room for 600 bytes: the first leaf (512 bytes) is written, the
    second write takes 88 bytes and fails; [WriteTo] returns the error with
    the count 512, while 600 bytes have reached the sink.  On the rope
    [three_leaves], whose root has an internal node on its left, and a sink
    that takes nothing of a write it refuses: the first leaf (512 bytes) is
    written, the write of the second leaf fails, and [WriteTo] returns the
    error with the count 0. *)
Theorem C6_writeTo_count_on_error :
  reachable two_leaves
  /\ WriteTo disk_Write two_leaves (mkDisk 600 [])
     = (mkDisk 0 (repeat 97 600), (512, Some (ErrWrite 28)))
  /\ len (repeat 97 600) = 600
  /\ reachable three_leaves
  /\ WriteTo strict_Write three_leaves (mkDisk 600 [])
     = (mkDisk 88 (repeat 98 512), (0, Some (ErrWrite 28)))
  /\ len (repeat 98 512) = 512.
Proof.
  split; [apply reach_Insert, reach_NewRope |].
  split; [vm_compute; reflexivity |].
  split; [vm_compute; reflexivity |].
  split; [apply reachable_fold_Insert, reach_Insert, reach_NewRope |].
  split; vm_compute; reflexivity.
Qed.

(** ** Position resolution in [Insert] and [Delete] *)

Lemma clamp_idem (hi x : Z) : 0 <= hi -> clamp 0 hi (clamp 0 hi x) = clamp 0 hi x.
Proof.
  intros H. unfold clamp.
  destruct (Z.ltb_spec x 0).
  - destruct (Z.ltb_spec hi 0); [lia |].
    destruct (Z.ltb_spec 0 0); [lia |]. destruct (Z.ltb_spec hi 0); [lia | reflexivity].
  - destruct (Z.ltb_spec hi x).
    + destruct (Z.ltb_spec hi 0); [lia |]. destruct (Z.ltb_spec hi hi); [lia | reflexivity].
    + destruct (Z.ltb_spec x 0); [lia |]. destruct (Z.ltb_spec hi x); [lia | reflexivity].
Qed.

Lemma clamp_above (hi x : Z) : 0 <= hi -> hi <= x -> clamp 0 hi x = hi.
Proof.
  intros H Hx. unfold clamp.
  destruct (Z.ltb_spec x 0); [lia |]. destruct (Z.ltb_spec hi x); lia.
Qed.

Lemma clamp_below (hi x : Z) : 0 <= hi -> x <= 0 -> clamp 0 hi x = 0.
Proof.
  intros H Hx. unfold clamp.
  destruct (Z.ltb_spec x 0).
  - destruct (Z.ltb_spec hi 0); lia.
  - destruct (Z.ltb_spec hi x); lia.
Qed.

(** On a valid line, [getIndex] is the offset of the line plus the clamped
    column. *)
Lemma getIndex_valid (n : node) (line col : Z) :
  wf_node n ->
  0 <= line < len (line_starts_of (content n)) ->
  getIndex (mkRope (Some n) (line_starts_of (content n))) line col
  = (line_offset (split_lines (content n)) (Z.to_nat line)
     + clamp 0 (len (line_text (content n) line)) col, None).
Proof.
  intros Hwf H. rewrite getIndex_unfold by assumption.
  rewrite length_content by assumption.
  rewrite lineCharLength_line_text by (rewrite len_split_lines; lia).
  rewrite at_line_starts_offset by (rewrite len_split_lines; lia).
  reflexivity.
Qed.

Lemma Insert_same_index (n : node) (ls : list Z) (line col col' ru index : Z) :
  getIndex (mkRope (Some n) ls) line col = (index, None) ->
  getIndex (mkRope (Some n) ls) line col' = (index, None) ->
  Insert (mkRope (Some n) ls) line col ru = Insert (mkRope (Some n) ls) line col' ru.
Proof.
  intros H H'. unfold Insert. cbn [root lineStarts]. rewrite H, H'. reflexivity.
Qed.

Lemma Delete_same_index (n : node) (ls : list Z) (line col col' index : Z) :
  (col =? 0) && (line =? 0) = (col' =? 0) && (line =? 0) ->
  getIndex (mkRope (Some n) ls) line col = (index, None) ->
  getIndex (mkRope (Some n) ls) line col' = (index, None) ->
  Delete (mkRope (Some n) ls) line col = Delete (mkRope (Some n) ls) line col'.
Proof.
  intros G H H'. unfold Delete. cbn [root lineStarts]. rewrite G, H, H'.
  destruct ((col' =? 0) && (line =? 0)); reflexivity.
Qed.

(** C7, as the specification states it, fails on the empty document: its
    [LineCount()] is 1 and [Insert] at line 1 returns an error. *)
Lemma C7_counterexample :
  reachable (NewRope [])
  /\ LineCount (NewRope []) = 1
  /\ Insert (NewRope []) 1 0 97
     = (NewRope [], Some (ErrInvalidPosition 1 0 (ErrLineOutOfBounds 1 0))).
Proof. split; [apply reach_NewRope | split; reflexivity]. Qed.

(** C7, amended.  [Insert(line, col, cp)] succeeds exactly when
    [0 <= line < LineCount()]: on such a line every column is clamped to
    [0 .. length of the line] and is never a cause of error; every other
    line, [LineCount()] included, is rejected and the rope stays as it
    was. *)
Theorem C7_insert_position (r : Rope) (line col ru : Z) :
  reachable r ->
  (if (0 <=? line) && (line <? LineCount r)
   then snd (Insert r line col ru) = None
        /\ Insert r line col ru
           = Insert r line (clamp 0 (len (line_text (document r) line)) col) ru
   else snd (Insert r line col ru) <> None /\ fst (Insert r line col ru) = r)
  /\ Insert r (LineCount r) col ru
     = (r, Some (ErrInvalidPosition (LineCount r) col
                   (ErrLineOutOfBounds (LineCount r) (LineCount r - 1)))).
Proof.
  intros H. apply reachable_ok in H.
  destruct (rope_ok_eta r H) as (n & Hwf & ->).
  rewrite LineCount_ok. cbn [document root].
  set (ls := line_starts_of (content n)).
  assert (Hpos : 0 < len ls).
  { unfold ls. rewrite len_line_starts_of.
    pose proof (count_newlines_nonneg (content n)). lia. }
  split.
  - destruct (Z.leb_spec 0 line); destruct (Z.ltb_spec line (len ls)); cbn [andb].
    + pose proof (len_nonneg (line_text (content n) line)) as Hk.
      assert (G : forall c, getIndex (mkRope (Some n) ls) line c
                  = (line_offset (split_lines (content n)) (Z.to_nat line)
                     + clamp 0 (len (line_text (content n) line)) c, None))
        by (intros c; apply getIndex_valid; [assumption | unfold ls in *; lia]).
      split.
      * destruct (Insert_accepts n line col ru _ Hwf (G col)) as (n' & E & _).
        fold ls in E. rewrite E. reflexivity.
      * apply (Insert_same_index n ls line col _ ru _ (G col)).
        rewrite G, clamp_idem by assumption. reflexivity.
    + destruct (getIndex (mkRope (Some n) ls) line col) as [i [e |]] eqn:E.
      * rewrite (Insert_rejects n ls line col ru i e E). split; [discriminate | reflexivity].
      * exfalso. pose proof (proj1 (getIndex_error_iff n ls line col)) as X.
        rewrite E in X. specialize (X eq_refl). lia.
    + destruct (getIndex (mkRope (Some n) ls) line col) as [i [e |]] eqn:E.
      * rewrite (Insert_rejects n ls line col ru i e E). split; [discriminate | reflexivity].
      * exfalso. pose proof (proj1 (getIndex_error_iff n ls line col)) as X.
        rewrite E in X. specialize (X eq_refl). lia.
    + destruct (getIndex (mkRope (Some n) ls) line col) as [i [e |]] eqn:E.
      * rewrite (Insert_rejects n ls line col ru i e E). split; [discriminate | reflexivity].
      * exfalso. pose proof (proj1 (getIndex_error_iff n ls line col)) as X.
        rewrite E in X. specialize (X eq_refl). lia.
  - apply Insert_rejects with (index := length n).
    unfold getIndex. cbn [root lineStarts].
    destruct (Z.ltb_spec (len ls) 0); [lia |].
    destruct (Z.leb_spec (len ls) (len ls)); [reflexivity | lia].
Qed.

Lemma C7_insert_position_witness :
  reachable sample_rope
  /\ ((if (0 <=? 1) && (1 <? LineCount sample_rope)
       then snd (Insert sample_rope 1 9 97) = None
            /\ Insert sample_rope 1 9 97
               = Insert sample_rope 1
                   (clamp 0 (len (line_text (document sample_rope) 1)) 9) 97
       else snd (Insert sample_rope 1 9 97) <> None
            /\ fst (Insert sample_rope 1 9 97) = sample_rope)
      /\ Insert sample_rope (LineCount sample_rope) 9 97
         = (sample_rope,
            Some (ErrInvalidPosition (LineCount sample_rope) 9
                    (ErrLineOutOfBounds (LineCount sample_rope)
                       (LineCount sample_rope - 1))))).
Proof.
  assert (H : reachable sample_rope) by (apply reach_Insert, reach_NewRope).
  split; [exact H | apply (C7_insert_position sample_rope 1 9 97 H)].
Defined.

(** ** Sequences of insertions *)

(** A run of successful [Insert] calls on a rope follows the same run on the
    flat document, up to what a trip through a Go string does to runes that
    are not valid code points. *)
Lemma Inserts_sim (calls : list (Z * Z * rune)) : forall (r r' : Rope) (d : list rune),
  rope_ok r -> same_text (document r) d ->
  Inserts calls r = Some r' ->
  exists d', flat_inserts calls d = Some d'
             /\ rope_ok r' /\ same_text (document r') d'.
Proof.
  induction calls as [| [[line col] ru] rest IH]; intros r r' d Hok Hst H.
  - cbn [Inserts] in H. injection H as <-. exists d. cbn [flat_inserts]. auto.
  - destruct (rope_ok_eta r Hok) as (n & Hwf & ->).
    cbn [document root] in Hst.
    cbn [Inserts] in H. cbn [flat_inserts]. unfold flat_insert.
    pose proof (getIndex_flat_index n line col Hwf) as G.
    rewrite <- (same_text_flat_index (content n) d line col Hst).
    destruct (flat_index (content n) line col) as [i |].
    + destruct (Insert_accepts n line col ru i Hwf G) as (n' & E & Hwf' & Hc).
      rewrite E in H.
      apply (IH _ r' (insert_at i ru d) (rope_ok_intro n' Hwf')); [| exact H].
      cbn [document root].
      destruct Hc as [-> | ->].
      * apply same_text_insert_at, Hst.
      * eapply same_text_trans; [apply same_text_sanitize |].
        apply same_text_insert_at, Hst.
    + exfalso.
      destruct (getIndex (mkRope (Some n) (line_starts_of (content n))) line col)
        as [i [e |]] eqn:E.
      * rewrite (Insert_rejects n _ line col ru i e E) in H. discriminate.
      * apply G. reflexivity.
Qed.

Lemma WriteTo_builder (r : Rope) (buf : list Z) :
  WriteTo builder_Write r buf
  = (buf ++ string_of_runes (document r), (len (string_of_runes (document r)), None)).
Proof.
  unfold WriteTo, document. destruct (root r) as [n |].
  - apply writeTo_builder.
  - cbn [string_of_runes]. rewrite app_nil_r. reflexivity.
Qed.

(** C8.  If every call of a sequence of [Insert] calls on the empty document
    [NewRope("")] succeeds, the flat document accepts the same calls, and
    [WriteTo] writes the UTF-8 text of the flat document, every inserted
    code point at its place, and returns its length in bytes with no
    error. *)
Theorem C8_insert_round_trip (calls : list (Z * Z * rune)) (r' : Rope) :
  Inserts calls (NewRope []) = Some r' ->
  option_map string_of_runes (flat_inserts calls [])
  = Some (fst (WriteTo builder_Write r' []))
  /\ snd (WriteTo builder_Write r' [])
     = (len (fst (WriteTo builder_Write r' [])), None).
Proof.
  intros H.
  destruct (Inserts_sim calls (NewRope []) r' [] (NewRope_ok [])) as (d' & F & _ & Hst).
  - rewrite document_NewRope. apply same_text_refl.
  - exact H.
  - rewrite F, WriteTo_builder. cbn [option_map fst snd app].
    rewrite (same_text_string _ _ Hst). split; reflexivity.
Qed.

Lemma C8_insert_round_trip_witness :
  Inserts sample_calls (NewRope [])
  = Some (mkRope (Some (Leaf [97; 98; 10; 99])) [0; 3])
  /\ option_map string_of_runes (flat_inserts sample_calls [])
     = Some (fst (WriteTo builder_Write (mkRope (Some (Leaf [97; 98; 10; 99])) [0; 3]) []))
  /\ snd (WriteTo builder_Write (mkRope (Some (Leaf [97; 98; 10; 99])) [0; 3]) [])
     = (len (fst (WriteTo builder_Write (mkRope (Some (Leaf [97; 98; 10; 99])) [0; 3]) [])),
        None).
Proof.
  split; [reflexivity |].
  apply (C8_insert_round_trip sample_calls); reflexivity.
Defined.

(** ** The column of [Delete] *)

Lemma line_offset_nonneg (c : list rune) (line : Z) :
  0 <= line < len (line_starts_of c) ->
  0 <= line_offset (split_lines c) (Z.to_nat line)
  /\ (1 <= line -> 1 <= line_offset (split_lines c) (Z.to_nat line)).
Proof.
  intros H.
  rewrite <- at_line_starts_offset by (rewrite len_split_lines; lia).
  split.
  - apply at_line_starts_bounds. exact H.
  - intros H1.
    pose proof (at_line_starts_bounds c (line - 1)) as B.
    pose proof (at_line_starts_next c (line - 1)) as N.
    replace (line - 1 + 1) with line in N by lia. lia.
Qed.

Lemma clamp_pos (hi x : Z) : 1 <= hi -> 1 <= x -> 1 <= clamp 0 hi x.
Proof.
  intros H Hx. unfold clamp.
  destruct (Z.ltb_spec x 0); [lia |]. destruct (Z.ltb_spec hi x); lia.
Qed.

(** [Delete] on a valid line, at a position that is not the start of the
    document, removes the rune before the clamped position. *)
Lemma Delete_valid (n : node) (line col : Z) :
  wf_node n ->
  0 <= line < len (line_starts_of (content n)) ->
  (col =? 0) && (line =? 0) = false ->
  line_offset (split_lines (content n)) (Z.to_nat line)
  + clamp 0 (len (line_text (content n) line)) col <> 0 ->
  snd (Delete (mkRope (Some n) (line_starts_of (content n))) line col) = None
  /\ same_text
       (document (fst (Delete (mkRope (Some n) (line_starts_of (content n))) line col)))
       (remove_at (line_offset (split_lines (content n)) (Z.to_nat line)
                   + clamp 0 (len (line_text (content n) line)) col - 1)
                  (content n)).
Proof.
  intros Hwf H G Hi.
  destruct (Delete_accepts n line col _ Hwf G (getIndex_valid n line col Hwf H) Hi)
    as (n' & E & _ & Hc).
  rewrite E. cbn [fst snd document root]. split; [reflexivity |].
  destruct Hc as [-> | ->]; [apply same_text_refl | apply same_text_sanitize].
Qed.

(** At the start of the document, whatever the column at or below 0,
    [Delete] returns an error and the rope as it was. *)
Lemma Delete_at_start (n : node) (col : Z) :
  wf_node n -> col <= 0 ->
  snd (Delete (mkRope (Some n) (line_starts_of (content n))) 0 col) <> None
  /\ fst (Delete (mkRope (Some n) (line_starts_of (content n))) 0 col)
     = mkRope (Some n) (line_starts_of (content n)).
Proof.
  intros Hwf Hc.
  assert (H0 : 0 <= 0 < len (line_starts_of (content n))).
  { rewrite len_line_starts_of. pose proof (count_newlines_nonneg (content n)). lia. }
  unfold Delete. cbn [root].
  destruct (Z.eqb_spec col 0) as [-> | Hn]; cbn [andb Z.eqb].
  - cbn [fst snd]. split; [discriminate | reflexivity].
  - rewrite (getIndex_valid n 0 col Hwf H0).
    rewrite clamp_below by (try apply len_nonneg; lia).
    replace (line_offset (split_lines (content n)) (Z.to_nat 0)) with 0
      by (destruct (split_lines (content n)); reflexivity).
    change (0 + 0 =? 0) with true.
    cbn [fst snd]. split; [discriminate | reflexivity].
Qed.

(** C10.  On a line [0 <= line < LineCount()] of [k >= 1] characters,
    [Delete(line, c)] with [c > k] is [Delete(line, k)]: it succeeds and
    removes the last character of the line.  A column [c < 0] resolves to the
    same position as column 0, and [Delete] then has the same outcome as
    [Delete(line, 0)]: the same rope and, from line 1 on, the same result;
    on line 0 both return an error.  For every column, [Delete] on such a
    line fails only at the start of the document (line 0 and a column at or
    below 0), never because of the column being out of range. *)
Theorem C10_delete_clamps_column (r : Rope) (line c_hi c_lo col : Z) :
  reachable r ->
  0 <= line < LineCount r ->
  1 <= len (line_text (document r) line) ->
  len (line_text (document r) line) < c_hi ->
  c_lo < 0 ->
  Delete r line c_hi = Delete r line (len (line_text (document r) line))
  /\ snd (Delete r line c_hi) = None
  /\ same_text
       (document (fst (Delete r line c_hi)))
       (remove_at (line_offset (split_lines (document r)) (Z.to_nat line)
                   + len (line_text (document r) line) - 1)
                  (document r))
  /\ take (len (line_text (document r) line))
          (drop (line_offset (split_lines (document r)) (Z.to_nat line)) (document r))
     = line_text (document r) line
  /\ getIndex r line c_lo = getIndex r line 0
  /\ fst (Delete r line c_lo) = fst (Delete r line 0)
  /\ succeeded (Delete r line c_lo) = succeeded (Delete r line 0)
  /\ (line = 0 \/ Delete r line c_lo = Delete r line 0)
  /\ succeeded (Delete r line col) = negb ((line =? 0) && (col <=? 0)).
Proof.
  intros H Hline Hk Hhi Hlo. apply reachable_ok in H.
  destruct (rope_ok_eta r H) as (n & Hwf & ->).
  rewrite LineCount_ok in Hline. cbn [document root] in *.
  set (ls := line_starts_of (content n)) in *.
  set (k := len (line_text (content n) line)) in *.
  set (s := line_offset (split_lines (content n)) (Z.to_nat line)) in *.
  assert (G : forall c, getIndex (mkRope (Some n) ls) line c = (s + clamp 0 k c, None))
    by (intros c; apply getIndex_valid; assumption).
  destruct (line_offset_nonneg (content n) line Hline) as [Hs Hs1]. fold s in Hs, Hs1.
  assert (Ehi : clamp 0 k c_hi = k) by (apply clamp_above; lia).
  assert (Elo : clamp 0 k c_lo = 0) by (apply clamp_below; lia).
  assert (E0 : clamp 0 k 0 = 0) by (apply clamp_below; lia).
  assert (Ghi : (c_hi =? 0) && (line =? 0) = false)
    by (destruct (Z.eqb_spec c_hi 0); [lia | reflexivity]).
  destruct (Delete_valid n line c_hi Hwf Hline Ghi) as [D1 D2].
  { fold s k. lia. }
  fold ls s k in D1, D2. rewrite Ehi in D2.
  split.
  { apply (Delete_same_index n ls line c_hi k (s + k)).
    - rewrite Ghi. destruct (Z.eqb_spec k 0); [lia | reflexivity].
    - rewrite G, Ehi. reflexivity.
    - rewrite G, clamp_above by lia. reflexivity. }
  split; [exact D1 |]. split; [exact D2 |].
  split.
  { apply line_text_in_document. rewrite len_split_lines. exact Hline. }
  split; [rewrite !G, Elo, E0; reflexivity |].
  assert (Hsame : line = 0 \/ Delete (mkRope (Some n) ls) line c_lo
                               = Delete (mkRope (Some n) ls) line 0).
  { destruct (Z.eq_dec line 0) as [-> | Hn]; [left; reflexivity | right].
    apply (Delete_same_index n ls line c_lo 0 s).
    - destruct (Z.eqb_spec line 0); [lia |]. rewrite !andb_false_r. reflexivity.
    - rewrite G, Elo. f_equal. lia.
    - rewrite G, E0. f_equal. lia. }
  assert (Hfail : forall c, c <= 0 ->
            succeeded (Delete (mkRope (Some n) ls) 0 c) = false
            /\ fst (Delete (mkRope (Some n) ls) 0 c) = mkRope (Some n) ls).
  { intros c Hc. destruct (Delete_at_start n c Hwf Hc) as [F1 F2]. fold ls in F1, F2.
    split; [| exact F2]. unfold succeeded.
    destruct (snd (Delete (mkRope (Some n) ls) 0 c)); [reflexivity | congruence]. }
  split.
  { destruct Hsame as [-> | ->]; [| reflexivity].
    rewrite (proj2 (Hfail c_lo ltac:(lia))), (proj2 (Hfail 0 ltac:(lia))). reflexivity. }
  split.
  { destruct Hsame as [-> | ->]; [| reflexivity].
    rewrite (proj1 (Hfail c_lo ltac:(lia))), (proj1 (Hfail 0 ltac:(lia))). reflexivity. }
  split; [exact Hsame |].
  destruct (Z.eqb_spec line 0) as [-> | Hn]; destruct (Z.leb_spec col 0) as [Hc | Hc];
    cbn [andb negb].
  - apply Hfail, Hc.
  - destruct (Delete_valid n 0 col Hwf Hline) as [S1 _].
    + destruct (Z.eqb_spec col 0); [lia | reflexivity].
    + fold s k. pose proof (clamp_pos k col Hk ltac:(lia)). lia.
    + fold ls in S1. unfold succeeded. rewrite S1. reflexivity.
  - destruct (Delete_valid n line col Hwf Hline) as [S1 _].
    + destruct (Z.eqb_spec line 0); [lia |]. apply andb_false_r.
    + fold s k. pose proof (clamp_range k col ltac:(lia)). lia.
    + fold ls in S1. unfold succeeded. rewrite S1. reflexivity.
  - destruct (Delete_valid n line col Hwf Hline) as [S1 _].
    + destruct (Z.eqb_spec line 0); [lia |]. apply andb_false_r.
    + fold s k. pose proof (clamp_range k col ltac:(lia)). lia.
    + fold ls in S1. unfold succeeded. rewrite S1. reflexivity.
Qed.

Lemma C10_delete_clamps_column_witness :
  reachable sample_rope
  /\ 0 <= 0 < LineCount sample_rope
  /\ 1 <= len (line_text (document sample_rope) 0)
  /\ len (line_text (document sample_rope) 0) < 9
  /\ -2 < 0
  /\ Delete sample_rope 0 9
     = Delete sample_rope 0 (len (line_text (document sample_rope) 0))
  /\ snd (Delete sample_rope 0 9) = None
  /\ succeeded (Delete sample_rope 0 5) = negb ((0 =? 0) && (5 <=? 0)).
Proof.
  assert (H : reachable sample_rope) by (apply reach_Insert, reach_NewRope).
  assert (H1 : 0 <= 0 < LineCount sample_rope) by (change (0 <= 0 < 2); lia).
  assert (H2 : 1 <= len (line_text (document sample_rope) 0)) by (change (1 <= 3); lia).
  assert (H3 : len (line_text (document sample_rope) 0) < 9) by (change (3 < 9); lia).
  assert (H4 : -2 < 0) by lia.
  destruct (C10_delete_clamps_column sample_rope 0 9 (-2) 5 H H1 H2 H3 H4)
    as (A & B & _ & _ & _ & _ & _ & _ & C).
  repeat (split; [assumption |]). exact C.
Defined.

End RopeClaims.
(** * The properties of the undo/redo engine *)

Module EditorClaims.
Import Buffer Editor RopeSpec Aux EditorFacts.

(** C1.  "hello" typed with 100 ms between the keys, then one undo: every
    key has made an undo action of its own, with a group number of its
    own, and the undo takes back one action only; it leaves "helo", not
    the empty text.  With a pause of two seconds after "he" the outcome is
    the same "helo", not "he". *)
Theorem C1_typing_is_not_grouped :
  text_after type_hello [] = Some [104; 101; 108; 108; 111]
  /\ map groupID (undoStack (after_keys type_hello [])) = [1; 2; 3; 4; 5]
  /\ map (fun a => len (ops a)) (undoStack (after_keys type_hello [])) = [1; 1; 1; 1; 1]
  /\ text_after (type_hello ++ [(500, ctrl_U)]) [] = Some [104; 101; 108; 111]
  /\ text_after (type_he_llo ++ [(2400, ctrl_U)]) [] = Some [104; 101; 108; 111].
Proof. repeat split; vm_compute; reflexivity. Qed.

(** C2.  Two sessions in which a replayed [Delete] returns an error that
    [undo] does not look at.  After 'a' is typed into an empty document, the
    undo replays [Delete(0, 0)], which fails; the text stays "a" and
    [handleKey] returns no error.  After [duplicate_session] on "a\nb" the
    text is "xaa\nb" and the next action to undo has two operations; the
    replay of the second one, [Delete(2, 0)], fails, the replay goes on
    with the first one, [Delete(1, 1)], which removes the 'b', and
    [handleKey] returns no error. *)
Theorem C2_undo_ignores_errors :
  top (undoStack (after_keys [(0, 97)] [])) = Some (mkAction true [mkOp 0 0 0 0 97] 1 false)
  /\ snd (Delete (buffer (after_keys [(0, 97)] [])) 0 0) = Some ErrStartOfDocument
  /\ text_after [(0, 97); (1000, ctrl_U)] [] = Some [97]
  /\ errors_of [(0, 97); (1000, ctrl_U)] [] = Some [None; None]
  /\ text_after duplicate_session [97; 10; 98] = Some [120; 97; 97; 10; 98]
  /\ top (undoStack (after_keys duplicate_session [97; 10; 98]))
     = Some (mkAction true [mkOp 1 0 1 1 97; mkOp 1 1 2 0 10] 1 false)
  /\ snd (Delete (buffer (after_keys duplicate_session [97; 10; 98])) 2 0)
     = Some (ErrInvalidPosition 2 0 (ErrLineOutOfBounds 2 1))
  /\ option_map (fun res => (document (buffer (fst res)), snd res))
       (handleKey (env_at 5000) ctrl_U (after_keys duplicate_session [97; 10; 98]))
     = Some ([120; 97; 97; 10], None).
Proof. repeat split; vm_compute; reflexivity. Qed.

(** C3.  "ab" is typed; the action recorded for 'b' has the column of the
    insertion, 1, as its delete column too.  Undo then removes the 'a' and
    leaves "b", and redo inserts 'b' again: the text is "bb", not the "ab"
    of before the undo.  With 'a' alone, undo changes nothing and redo
    gives "aa". *)
Theorem C3_redo_after_undo_differs :
  text_after type_ab [] = Some [97; 98]
  /\ top (undoStack (after_keys type_ab [])) = Some (mkAction true [mkOp 0 1 0 1 98] 2 false)
  /\ text_after (type_ab ++ [(2000, ctrl_U)]) [] = Some [98]
  /\ text_after (type_ab ++ [(2000, ctrl_U); (3000, ctrl_Y)]) [] = Some [98; 98]
  /\ text_after [(0, 97); (1000, ctrl_U); (2000, ctrl_Y)] [] = Some [97; 97].
Proof. repeat split; vm_compute; reflexivity. Qed.

(** C9, as the specification states it, fails for cut: after "ab" is typed
    and one undo, Ctrl+X cuts the line, and the redo stack still holds the
    undone action.  The Delete key does not go through [handleKey]; its
    handler removes the 'a' of "axy" and leaves the redo stack as it is. *)
Lemma C9_counterexample :
  len (redoStack (after_keys (type_ab ++ [(2000, ctrl_U)]) [])) = 1
  /\ text_after (type_ab ++ [(2000, ctrl_U)]) [] = Some [98]
  /\ text_after (type_ab ++ [(2000, ctrl_U); (3000, ctrl_X)]) [] = Some []
  /\ redoStack (after_keys (type_ab ++ [(2000, ctrl_U); (3000, ctrl_X)]) [])
     = [mkAction true [mkOp 0 1 0 1 98] 2 false]
  /\ document (buffer (after_keys [(0, 97); (1000, ctrl_U)] [120; 121])) = [97; 120; 121]
  /\ option_map (fun e => (document (buffer e), redoStack e))
       (handleDeleteKey (env_at 2000) (after_keys [(0, 97); (1000, ctrl_U)] [120; 121]))
     = Some ([120; 121], [mkAction true [mkOp 0 0 0 0 97] 1 false]).
Proof. repeat split; vm_compute; reflexivity. Qed.

(** C9, amended.  A key given to [handleKey] that is not undo (Ctrl+U), redo
    (Ctrl+Y), escape, copy (Ctrl+C), cut (Ctrl+X) or select-all (Ctrl+A)
    leaves the redo stack empty: paste, typing, Enter, backspace and every
    other command. *)
Theorem C9_redo_stack_cleared (env : Env) (r : rune) (e e' : Editor)
  (err : option error) :
  keepsRedoStack r = false ->
  handleKey env r e = Some (e', err) ->
  redoStack e' = [].
Proof.
  intros K H. unfold handleKey in H. rewrite K in H.
  apply (redo_dispatch env r _ e' err K) in H. exact H.
Qed.

Lemma C9_redo_stack_cleared_witness :
  keepsRedoStack 99 = false
  /\ handleKey (env_at 3000) 99 (after_keys (type_ab ++ [(2000, ctrl_U)]) [])
     = Some (after_keys (type_ab ++ [(2000, ctrl_U); (3000, 99)]) [], None)
  /\ redoStack (after_keys (type_ab ++ [(2000, ctrl_U); (3000, 99)]) []) = [].
Proof.
  assert (K : keepsRedoStack 99 = false) by reflexivity.
  assert (H : handleKey (env_at 3000) 99 (after_keys (type_ab ++ [(2000, ctrl_U)]) [])
              = Some (after_keys (type_ab ++ [(2000, ctrl_U); (3000, 99)]) [], None))
    by (vm_compute; reflexivity).
  split; [exact K | split; [exact H |]].
  exact (C9_redo_stack_cleared _ _ _ _ _ K H).
Defined.

End EditorClaims.
(** * Further properties of the rope *)

Module RopeExtras.
Import Buffer RopeSpec Aux SliceFacts NodeFacts LineIndexFacts Utf8Facts RopeFacts
       LinesFacts TextFacts TextSpec RopeClaims.

Lemma newlines_from_points (c : list Z) : forall (pos x : Z),
  In x (newlines_from pos c) -> at_ c (x - pos - 1) = newline.
Proof.
  induction c as [| y c IH]; intros pos x H; cbn [newlines_from] in H; [destruct H |].
  destruct (Z.eqb_spec y newline) as [-> | Hn].
  - destruct H as [<- | H].
    + replace (pos + 1 - pos - 1) with 0 by lia. apply at_cons_0.
    + pose proof (newlines_from_bounds c (pos + 1) x H).
      rewrite at_cons_S by lia. replace (x - pos - 1 - 1) with (x - (pos + 1) - 1) by lia.
      apply IH, H.
  - pose proof (newlines_from_bounds c (pos + 1) x H).
    rewrite at_cons_S by lia. replace (x - pos - 1 - 1) with (x - (pos + 1) - 1) by lia.
    apply IH, H.
Qed.



(** X2.  [RuneAt(index)] on a reachable rope returns the rune of the
    document at [index] and no error when [0 <= index < length]; for any
    other index it returns 0 and an error. *)
Theorem RuneAt_document (r : Rope) (index : Z) :
  reachable r ->
  if (0 <=? index) && (index <? len (document r))
  then RuneAt r index = (at_ (document r) index, None)
  else fst (RuneAt r index) = 0 /\ snd (RuneAt r index) <> None.
Proof.
  intros H. apply reachable_ok in H.
  destruct (rope_ok_eta r H) as (n & Hwf & ->). cbn [document root].
  destruct (Z.leb_spec 0 index); destruct (Z.ltb_spec index (len (content n)));
    cbn [andb]; try (apply RuneAt_content; [assumption | lia]);
    unfold RuneAt; cbn [root]; rewrite length_content by assumption.
  - destruct (Z.ltb_spec index 0); [lia |].
    destruct (Z.leb_spec (len (content n)) index); [| lia].
    cbn [orb fst snd]. split; [reflexivity | discriminate].
  - destruct (Z.ltb_spec index 0); [| lia].
    cbn [orb fst snd]. split; [reflexivity | discriminate].
  - destruct (Z.ltb_spec index 0); [| lia].
    cbn [orb fst snd]. split; [reflexivity | discriminate].
Qed.

Lemma RuneAt_document_witness :
  reachable sample_rope
  /\ (if (0 <=? 3) && (3 <? len (document sample_rope))
      then RuneAt sample_rope 3 = (at_ (document sample_rope) 3, None)
      else fst (RuneAt sample_rope 3) = 0 /\ snd (RuneAt sample_rope 3) <> None).
Proof.
  assert (H : reachable sample_rope) by (apply reach_Insert, reach_NewRope).
  exact (conj H (RuneAt_document sample_rope 3 H)).
Defined.

Lemma same_text_count_newlines (c d : list Z) :
  same_text c d -> count_newlines c = count_newlines d.
Proof.
  intros H. pose proof (len_line_starts_of c) as A. pose proof (len_line_starts_of d) as B.
  rewrite (same_text_line_starts c d H) in A. lia.
Qed.

Lemma count_newlines_single (x : Z) :
  count_newlines [x] = if x =? newline then 1 else 0.
Proof. unfold count_newlines. cbn [filter]. destruct (x =? newline); reflexivity. Qed.

Lemma count_newlines_insert_at (i x : Z) (c : list Z) :
  count_newlines (insert_at i x c)
  = count_newlines c + (if x =? newline then 1 else 0).
Proof.
  unfold insert_at. rewrite count_newlines_app.
  change (x :: drop i c) with ([x] ++ drop i c). rewrite count_newlines_app.
  rewrite count_newlines_single.
  pose proof (count_newlines_app (take i c) (drop i c)) as T. rewrite take_drop in T. lia.
Qed.

Lemma count_newlines_remove_at (i : Z) (c : list Z) :
  0 <= i < len c ->
  count_newlines (remove_at i c)
  = count_newlines c - (if at_ c i =? newline then 1 else 0).
Proof.
  intros H. pose proof (f_equal count_newlines (split_at c i H)) as T.
  change (at_ c i :: drop (i + 1) c) with ([at_ c i] ++ drop (i + 1) c) in T.
  rewrite !count_newlines_app, count_newlines_single in T.
  unfold remove_at. rewrite count_newlines_app. lia.
Qed.

Lemma LineCount_rope (n : node) :
  LineCount (mkRope (Some n) (line_starts_of (content n))) = 1 + count_newlines (content n).
Proof. rewrite LineCount_ok. apply len_line_starts_of. Qed.

(** X3.  [Insert(line, col, ru)] on a line that exists succeeds; the rune is
    put at the offset of the line plus the clamped column, the rest of the
    document is unchanged (up to what a rebalance does to runes that are not
    valid code points), and [LineCount()] grows by one exactly when the rune
    is a newline. *)
Theorem Insert_document (r : Rope) (line col ru : Z) :
  reachable r ->
  0 <= line < LineCount r ->
  snd (Insert r line col ru) = None
  /\ same_text (document (fst (Insert r line col ru)))
       (insert_at (line_offset (split_lines (document r)) (Z.to_nat line)
                   + clamp 0 (len (line_text (document r) line)) col)
                  ru (document r))
  /\ LineCount (fst (Insert r line col ru))
     = LineCount r + (if ru =? newline then 1 else 0).
Proof.
  intros H Hline. apply reachable_ok in H.
  destruct (rope_ok_eta r H) as (n & Hwf & ->).
  rewrite LineCount_ok in Hline. cbn [document root].
  destruct (Insert_accepts n line col ru _ Hwf (getIndex_valid n line col Hwf Hline))
    as (n' & E & Hwf' & Hc).
  rewrite E. cbn [fst snd document root].
  assert (S : same_text (content n')
                (insert_at (line_offset (split_lines (content n)) (Z.to_nat line)
                            + clamp 0 (len (line_text (content n) line)) col)
                           ru (content n)))
    by (destruct Hc as [-> | ->]; [apply same_text_refl | apply same_text_sanitize]).
  split; [reflexivity |]. split; [exact S |].
  rewrite !LineCount_rope, (same_text_count_newlines _ _ S), count_newlines_insert_at. lia.
Qed.

Lemma Insert_document_witness :
  reachable sample_rope
  /\ 0 <= 1 < LineCount sample_rope
  /\ snd (Insert sample_rope 1 9 10) = None
  /\ same_text (document (fst (Insert sample_rope 1 9 10)))
       (insert_at (line_offset (split_lines (document sample_rope)) (Z.to_nat 1)
                   + clamp 0 (len (line_text (document sample_rope) 1)) 9)
                  10 (document sample_rope))
  /\ LineCount (fst (Insert sample_rope 1 9 10))
     = LineCount sample_rope + (if 10 =? newline then 1 else 0).
Proof.
  assert (H : reachable sample_rope) by (apply reach_Insert, reach_NewRope).
  assert (H1 : 0 <= 1 < LineCount sample_rope) by (change (0 <= 1 < 2); lia).
  exact (conj H (conj H1 (Insert_document sample_rope 1 9 10 H H1))).
Defined.

(** X4.  [Delete(line, col)] on a line that exists, at a position that is
    not the start of the document, succeeds and removes the rune before the
    clamped position; [LineCount()] drops by one exactly when that rune is a
    newline. *)
Theorem Delete_document (r : Rope) (line col : Z) :
  reachable r ->
  0 <= line < LineCount r ->
  1 <= line \/ 1 <= clamp 0 (len (line_text (document r) line)) col ->
  snd (Delete r line col) = None
  /\ same_text (document (fst (Delete r line col)))
       (remove_at (line_offset (split_lines (document r)) (Z.to_nat line)
                   + clamp 0 (len (line_text (document r) line)) col - 1)
                  (document r))
  /\ LineCount (fst (Delete r line col))
     = LineCount r
       - (if at_ (document r)
                 (line_offset (split_lines (document r)) (Z.to_nat line)
                  + clamp 0 (len (line_text (document r) line)) col - 1) =? newline
          then 1 else 0).
Proof.
  intros H Hline Hpos. apply reachable_ok in H.
  destruct (rope_ok_eta r H) as (n & Hwf & ->).
  rewrite LineCount_ok in Hline. cbn [document root] in *.
  set (s := line_offset (split_lines (content n)) (Z.to_nat line)) in *.
  set (k := len (line_text (content n) line)) in *.
  destruct (line_offset_nonneg (content n) line Hline) as [Hs Hs1]. fold s in Hs, Hs1.
  pose proof (clamp_range k col (len_nonneg _)) as Hc.
  assert (G : (col =? 0) && (line =? 0) = false).
  { destruct (Z.eqb_spec line 0) as [-> | ?]; [| apply andb_false_r].
    destruct (Z.eqb_spec col 0) as [-> | ?]; [| reflexivity].
    exfalso. destruct Hpos as [? | Hp]; [lia |].
    rewrite clamp_below in Hp by (try apply len_nonneg; lia). lia. }
  assert (Hi : s + clamp 0 k col <> 0) by (destruct Hpos; [specialize (Hs1 ltac:(lia)) |]; lia).
  destruct (Delete_accepts n line col _ Hwf G (getIndex_valid n line col Hwf Hline) Hi)
    as (n' & E & Hwf' & Hc').
  fold s k in E, Hc'. rewrite E. cbn [fst snd document root].
  assert (S : same_text (content n') (remove_at (s + clamp 0 k col - 1) (content n)))
    by (destruct Hc' as [-> | ->]; [apply same_text_refl | apply same_text_sanitize]).
  split; [reflexivity |]. split; [exact S |].
  rewrite !LineCount_rope, (same_text_count_newlines _ _ S).
  rewrite count_newlines_remove_at; [lia |].
  pose proof (getIndex_range n line col _ Hwf (getIndex_valid n line col Hwf Hline)) as R.
  fold s k in R. lia.
Qed.

Lemma Delete_document_witness :
  reachable sample_rope
  /\ 0 <= 1 < LineCount sample_rope
  /\ (1 <= 1 \/ 1 <= clamp 0 (len (line_text (document sample_rope) 1)) 0)
  /\ snd (Delete sample_rope 1 0) = None
  /\ same_text (document (fst (Delete sample_rope 1 0)))
       (remove_at (line_offset (split_lines (document sample_rope)) (Z.to_nat 1)
                   + clamp 0 (len (line_text (document sample_rope) 1)) 0 - 1)
                  (document sample_rope))
  /\ LineCount (fst (Delete sample_rope 1 0))
     = LineCount sample_rope
       - (if at_ (document sample_rope)
                 (line_offset (split_lines (document sample_rope)) (Z.to_nat 1)
                  + clamp 0 (len (line_text (document sample_rope) 1)) 0 - 1) =? newline
          then 1 else 0).
Proof.
  assert (H : reachable sample_rope) by (apply reach_Insert, reach_NewRope).
  assert (H1 : 0 <= 1 < LineCount sample_rope) by (change (0 <= 1 < 2); lia).
  assert (H2 : 1 <= 1 \/ 1 <= clamp 0 (len (line_text (document sample_rope) 1)) 0)
    by (left; lia).
  exact (conj H (conj H1 (conj H2 (Delete_document sample_rope 1 0 H H1 H2)))).
Defined.

(** ** [Insert] followed by [Delete] *)

Lemma flat_index_cut (a b : list Z) (line col : Z) :
  flat_index (a ++ b) line col = Some (len a) -> line = count_newlines a.
Proof.
  rewrite flat_index_by_starts.
  destruct (Z.leb_spec 0 line); [| discriminate].
  destruct (Z.ltb_spec line (len (line_starts_of (a ++ b)))); [| discriminate].
  cbn [andb]. intros E. injection E as E.
  pose proof (lineCharLength_nonneg (a ++ b) line ltac:(lia)) as [N _].
  pose proof (clamp_range _ col N) as C.
  rewrite <- (findLine_at None a b).
  symmetry. apply findLine_floor.
  - apply increasing_line_starts_of.
  - lia.
  - lia.
  - intros Hn. unfold lineCharLength in C, E.
    destruct (Z.ltb_spec (line + 1) (len (line_starts_of (a ++ b)))); lia.
Qed.

Lemma line_starts_cut (a b : list Z) :
  line_starts_of (a ++ b) = line_starts_of a ++ newlines_from (len a) b
  /\ len (line_starts_of a) = count_newlines a + 1.
Proof. split; [apply line_starts_of_app | rewrite len_line_starts_of; lia]. Qed.

Lemma newlines_from_cons_other (pos x : Z) (b : list Z) :
  (x =? newline) = false ->
  newlines_from pos (x :: b) = map (fun y => y + 1) (newlines_from pos b).
Proof.
  intros H. cbn [newlines_from]. rewrite H. symmetry. apply newlines_from_shift.
Qed.

Lemma newlines_from_cons_newline (pos : Z) (b : list Z) :
  newlines_from pos (newline :: b)
  = (pos + 1) :: map (fun y => y + 1) (newlines_from pos b).
Proof.
  cbn [newlines_from]. rewrite Z.eqb_refl. f_equal. symmetry. apply newlines_from_shift.
Qed.

(** The position just after a rune inserted at [(line, col)]: the next column
    of the line, or the start of the next line after a newline. *)
Lemma flat_index_after_insert (c : list Z) (line col ru i : Z) :
  0 <= col ->
  flat_index c line col = Some i ->
  flat_index (insert_at i ru c)
    (if ru =? newline then line + 1 else line)
    (if ru =? newline then 0 else col + 1)
  = Some (i + 1).
Proof.
  intros Hcol F.
  assert (Hi : 0 <= i <= len c).
  { rewrite flat_index_by_starts in F.
    destruct (Z.leb_spec 0 line); [| discriminate].
    destruct (Z.ltb_spec line (len (line_starts_of c))); [| discriminate].
    cbn [andb] in F. injection F as F.
    pose proof (lineCharLength_nonneg c line ltac:(lia)) as [N M].
    pose proof (clamp_range _ col N).
    pose proof (at_line_starts_bounds c line ltac:(lia)). lia. }
  unfold insert_at.
  remember (take i c) as a eqn:Ha. remember (drop i c) as b eqn:Hb.
  assert (Hc : c = a ++ b) by (subst a b; symmetry; apply take_drop).
  assert (Hlen : i = len a) by (subst a; symmetry; apply len_take; lia).
  clear Ha Hb. subst c i.
  pose proof (flat_index_cut a b line col F) as HL.
  rewrite flat_index_by_starts in F.
  destruct (Z.leb_spec 0 line) as [H0 |]; [| discriminate].
  destruct (Z.ltb_spec line (len (line_starts_of (a ++ b)))) as [H1 |]; [| discriminate].
  cbn [andb] in F. injection F as F.
  destruct (line_starts_cut a b) as [S1 S2].
  destruct (line_starts_cut a (ru :: b)) as [T1 _].
  set (A := line_starts_of a) in *. set (B := newlines_from (len a) b) in *.
  pose proof (lineCharLength_nonneg (a ++ b) line ltac:(lia)) as [N _].
  rewrite S1 in F, N, H1. rewrite len_app in H1.
  assert (EA : at_ (A ++ B) line = at_ A line) by (apply at_app_l; lia).
  rewrite flat_index_by_starts, T1.
  destruct (Z.eqb_spec ru newline) as [-> | Hru].
  - rewrite newlines_from_cons_newline. fold B.
    rewrite len_app, len_cons, len_map.
    destruct (Z.leb_spec 0 (line + 1)); [| lia].
    destruct (Z.ltb_spec (line + 1) (len A + (len B + 1))); [| pose proof (len_nonneg B); lia].
    cbn [andb]. f_equal.
    rewrite at_app_r by lia. replace (line + 1 - len A) with 0 by lia. rewrite at_cons_0.
    pose proof (lineCharLength_nonneg (a ++ newline :: b) (line + 1)) as Q.
    rewrite T1, newlines_from_cons_newline in Q. fold B in Q.
    rewrite len_app, len_cons, len_map in Q.
    assert (HB : 0 <= line + 1 < len A + (len B + 1)) by lia.
    apply Q in HB. destruct HB as [HB _].
    rewrite (clamp_below _ 0 HB) by lia. lia.
  - apply Z.eqb_neq in Hru. rewrite (newlines_from_cons_other _ _ _ Hru). fold B.
    rewrite len_app, len_map.
    destruct (Z.leb_spec 0 line); [| lia].
    destruct (Z.ltb_spec line (len A + len B)); [| lia].
    cbn [andb]. f_equal.
    rewrite at_app_l by lia. rewrite EA in F.
    assert (K : lineCharLength (A ++ map (fun y => y + 1) B) (len (a ++ ru :: b)) line
                = lineCharLength (A ++ B) (len (a ++ b)) line + 1).
    { unfold lineCharLength. rewrite !len_app, len_map, len_cons.
      destruct (Z.ltb_spec (line + 1) (len A + len B)).
      - rewrite (at_app_r A (map (fun y => y + 1) B) (line + 1)) by lia.
        rewrite (at_app_r A B (line + 1)) by lia.
        rewrite (at_app_l A (map (fun y => y + 1) B) line) by lia.
        rewrite (at_app_l A B line) by lia.
        rewrite at_map by lia. lia.
      - rewrite (at_app_l A (map (fun y => y + 1) B) line) by lia.
        rewrite (at_app_l A B line) by lia. lia. }
    rewrite K.
    set (k := lineCharLength (A ++ B) (len (a ++ b)) line) in *.
    assert (clamp 0 (k + 1) (col + 1) = clamp 0 k col + 1).
    { unfold clamp.
      destruct (Z.ltb_spec (col + 1) 0); [lia |]. destruct (Z.ltb_spec col 0); [lia |].
      destruct (Z.ltb_spec (k + 1) (col + 1)); destruct (Z.ltb_spec k col); lia. }
    lia.
Qed.

Lemma remove_insert_at (i x : Z) (c : list Z) :
  0 <= i <= len c -> remove_at i (insert_at i x c) = c.
Proof.
  intros H. unfold remove_at, insert_at.
  rewrite take_app_l, take_all by (rewrite len_take; lia).
  rewrite drop_app_r by (rewrite len_take; lia).
  rewrite len_take by lia. replace (i + 1 - i) with 1 by lia.
  change (drop 1 (x :: drop i c)) with (drop i c). apply take_drop.
Qed.

(** X5.  [Insert(line, col, ru)] followed by [Delete] at the position just
    after the inserted rune ([(line, col + 1)], or [(line + 1, 0)] after a
    newline) succeeds and gives back the document of before the
    insertion. *)
Theorem Insert_Delete_round_trip (r : Rope) (line col ru : Z) :
  reachable r ->
  0 <= line < LineCount r ->
  0 <= col ->
  snd (Delete (fst (Insert r line col ru))
         (if ru =? newline then line + 1 else line)
         (if ru =? newline then 0 else col + 1)) = None
  /\ same_text
       (document (fst (Delete (fst (Insert r line col ru))
                         (if ru =? newline then line + 1 else line)
                         (if ru =? newline then 0 else col + 1))))
       (document r).
Proof.
  intros H Hline Hcol. apply reachable_ok in H.
  destruct (rope_ok_eta r H) as (n & Hwf & ->).
  rewrite LineCount_ok in Hline. cbn [document root].
  pose proof (getIndex_flat_index n line col Hwf) as G.
  destruct (flat_index (content n) line col) as [i |] eqn:F.
  2:{ exfalso. unfold flat_index in F. rewrite len_split_lines in F.
      destruct (Z.leb_spec 0 line); [| lia].
      destruct (Z.ltb_spec line (len (line_starts_of (content n)))); [| lia].
      discriminate. }
  pose proof (getIndex_range n line col i Hwf G) as [_ Hi].
  destruct (Insert_accepts n line col ru i Hwf G) as (n' & E & Hwf' & Hc).
  rewrite E. cbn [fst].
  assert (S : same_text (content n') (insert_at i ru (content n)))
    by (destruct Hc as [-> | ->]; [apply same_text_refl | apply same_text_sanitize]).
  set (line' := if ru =? newline then line + 1 else line).
  set (col' := if ru =? newline then 0 else col + 1).
  pose proof (getIndex_flat_index n' line' col' Hwf') as G'.
  rewrite (same_text_flat_index _ _ line' col' S) in G'.
  unfold line', col' in G'. rewrite (flat_index_after_insert _ _ _ _ _ Hcol F) in G'.
  fold line' col' in G'.
  assert (Hg : (col' =? 0) && (line' =? 0) = false).
  { unfold line', col'. destruct (ru =? newline).
    - destruct (Z.eqb_spec (line + 1) 0); [lia | reflexivity].
    - destruct (Z.eqb_spec (col + 1) 0); [lia | reflexivity]. }
  destruct (Delete_accepts n' line' col' (i + 1) Hwf' Hg G' ltac:(lia))
    as (n'' & E' & _ & Hc').
  rewrite E'. cbn [fst snd document root]. split; [reflexivity |].
  replace (i + 1 - 1) with i in Hc' by lia.
  apply same_text_trans with (remove_at i (content n')).
  - destruct Hc' as [-> | ->]; [apply same_text_refl | apply same_text_sanitize].
  - pose proof (same_text_remove_at i _ _ S) as T.
    rewrite (remove_insert_at i ru (content n) Hi) in T. exact T.
Qed.

Lemma Insert_Delete_round_trip_witness :
  reachable sample_rope
  /\ 0 <= 0 < LineCount sample_rope
  /\ 0 <= 1
  /\ snd (Delete (fst (Insert sample_rope 0 1 10))
            (if 10 =? newline then 0 + 1 else 0)
            (if 10 =? newline then 0 else 1 + 1)) = None
  /\ same_text
       (document (fst (Delete (fst (Insert sample_rope 0 1 10))
                         (if 10 =? newline then 0 + 1 else 0)
                         (if 10 =? newline then 0 else 1 + 1))))
       (document sample_rope).
Proof.
  assert (H : reachable sample_rope) by (apply reach_Insert, reach_NewRope).
  assert (H1 : 0 <= 0 < LineCount sample_rope) by (change (0 <= 0 < 2); lia).
  assert (H2 : 0 <= 1) by lia.
  exact (conj H (conj H1 (conj H2 (Insert_Delete_round_trip sample_rope 0 1 10 H H1 H2)))).
Defined.

Lemma take_app_any {A : Type} (k : Z) (a b : list A) :
  take k (a ++ b) = take k a ++ take (k - len a) b.
Proof.
  destruct (Z.le_ge_cases k (len a)).
  - rewrite take_app_l by assumption. rewrite (take_nonpos (k - len a)) by lia.
    symmetry. apply app_nil_r.
  - rewrite take_app_r by assumption. rewrite (take_all k a) by assumption. reflexivity.
Qed.

Lemma drop_app_any {A : Type} (k : Z) (a b : list A) :
  drop k (a ++ b) = drop k a ++ drop (k - len a) b.
Proof.
  destruct (Z.le_ge_cases k (len a)).
  - rewrite drop_app_l by assumption. rewrite (drop_nonpos (k - len a)) by lia. reflexivity.
  - rewrite drop_app_r by assumption. rewrite (drop_all k a) by assumption. reflexivity.
Qed.

Lemma len_take_any {A : Type} (k : Z) (l : list A) :
  len (take k l) = Z.max 0 (Z.min k (len l)).
Proof.
  pose proof (len_nonneg l).
  destruct (Z.le_ge_cases k 0).
  - rewrite take_nonpos by assumption. rewrite len_nil. lia.
  - destruct (Z.le_ge_cases k (len l)).
    + rewrite len_take by lia. lia.
    + rewrite take_all by lia. lia.
Qed.

Lemma drop_nil {A : Type} (j : Z) : drop j (@nil A) = [].
Proof. unfold drop. apply skipn_nil. Qed.

Lemma drop_take_app {A : Type} (j k : Z) (a b : list A) :
  drop j (take k (a ++ b))
  = drop j (take k a) ++ drop (j - len a) (take (k - len a) b).
Proof.
  rewrite take_app_any, drop_app_any. f_equal.
  destruct (Z.le_ge_cases (len a) k).
  - rewrite take_all by lia. reflexivity.
  - rewrite (take_nonpos (k - len a)) by lia.
    rewrite !drop_nil. reflexivity.
Qed.

Lemma drop_take_empty {A : Type} (j k : Z) (l : list A) :
  Z.min (len l) k <= Z.max 0 j -> drop j (take k l) = [].
Proof.
  intros H. pose proof (len_nonneg l). pose proof (len_take_any k l).
  destruct (Z.le_ge_cases j 0).
  - rewrite drop_nonpos by assumption. apply len_zero_nil. lia.
  - apply drop_all. lia.
Qed.

Lemma sliceHelper_content (n : node) : forall (startIndex endIndex offset : Z) (result : list Z),
  wf_node n ->
  sliceHelper n startIndex endIndex offset result
  = result ++ string_of_runes (drop (startIndex - offset)
                                 (take (endIndex - offset) (content n))).
Proof.
  induction n as [data | nl IHl nr IHr weight]; intros s e off result Hwf.
  - cbn [sliceHelper content].
    destruct (Z.ltb_spec (Z.max 0 (s - off)) (Z.min (len data) (e - off))).
    + f_equal. f_equal.
      assert (drop (Z.max 0 (s - off)) (take (Z.min (len data) (e - off)) data)
              = drop (s - off) (take (e - off) data)) as ->; [| reflexivity].
      assert (take (Z.min (len data) (e - off)) data = take (e - off) data) as ->.
      { destruct (Z.le_ge_cases (len data) (e - off)).
        - rewrite Z.min_l by lia. rewrite !take_all by lia. reflexivity.
        - rewrite Z.min_r by lia. reflexivity. }
      destruct (Z.le_ge_cases 0 (s - off)).
      * rewrite Z.max_r by lia. reflexivity.
      * rewrite Z.max_l by lia. rewrite drop_nonpos by lia.
        rewrite drop_nonpos by lia. reflexivity.
    + rewrite drop_take_empty by lia. cbn [string_of_runes]. symmetry. apply app_nil_r.
  - cbn [wf_node] in Hwf. destruct Hwf as (Hw & Hl & Hr). subst weight.
    cbn [sliceHelper content]. rewrite drop_take_app, string_of_runes_app.
    set (cl := content nl) in *. set (cr := content nr) in *.
    assert (L : (if (s <? off + len cl) && (off <? e)
                 then sliceHelper nl s e off result else result)
                = result ++ string_of_runes (drop (s - off) (take (e - off) cl))).
    { destruct (Z.ltb_spec s (off + len cl)); destruct (Z.ltb_spec off e); cbn [andb];
        try apply IHl; try assumption;
        rewrite drop_take_empty by (pose proof (len_nonneg cl); lia);
        cbn [string_of_runes]; symmetry; apply app_nil_r. }
    rewrite L.
    destruct (Z.ltb_spec (off + len cl) e); cbn [andb].
    + rewrite IHr by assumption. rewrite <- app_assoc. f_equal. f_equal. f_equal.
      f_equal; [lia |]. f_equal. lia.
    + rewrite (take_nonpos (e - off - len cl)) by lia.
      rewrite drop_nil. cbn [string_of_runes].
      rewrite app_nil_r. reflexivity.
Qed.

Lemma slice_content (n : node) (ls : list Z) (startIndex endIndex : Z) :
  wf_node n ->
  slice (mkRope (Some n) ls) startIndex endIndex
  = string_of_runes (drop startIndex (take endIndex (content n))).
Proof.
  intros Hwf. unfold slice. cbn [root].
  destruct (Z.leb_spec endIndex startIndex).
  - rewrite drop_take_empty; [reflexivity |].
    pose proof (len_nonneg (content n)). lia.
  - rewrite sliceHelper_content by assumption. cbn [app].
    rewrite !Z.sub_0_r. reflexivity.
Qed.



(** ** [GetLine] *)

Lemma split_lines_no_newline (c : list Z) : forall (l : list Z),
  In l (split_lines c) -> ~ In newline l.
Proof.
  induction c as [| x c IH]; intros l H; cbn [split_lines] in H.
  - destruct H as [<- | []]. intros [].
  - destruct (Z.eqb_spec x newline) as [-> | Hx].
    + destruct H as [<- | H]; [intros [] | apply IH, H].
    + pose proof (split_lines_nonempty c) as Hne.
      destruct (split_lines c) as [| l0 ls]; [congruence |].
      destruct H as [<- | H].
      * intros [E | E]; [congruence |]. apply (IH l0); [left; reflexivity | exact E].
      * apply IH. right. exact H.
Qed.

Lemma line_text_no_newline (c : list Z) (line : Z) : ~ In newline (line_text c line).
Proof.
  unfold line_text.
  destruct (Nat.lt_ge_cases (Z.to_nat line) (List.length (split_lines c))).
  - apply split_lines_no_newline with c. apply nth_In. assumption.
  - rewrite nth_overflow by assumption. intros [].
Qed.

Lemma at_drop (l : list Z) (s j : Z) : 0 <= s -> 0 <= j -> at_ (drop s l) j = at_ l (s + j).
Proof.
  intros Hs Hj. unfold at_, drop. rewrite nth_skipn. f_equal. lia.
Qed.

Lemma at_take (l : list Z) (k j : Z) : 0 <= j < k -> at_ (take k l) j = at_ l j.
Proof.
  intros H. rewrite <- (take_drop k l) at 2.
  destruct (Z.le_ge_cases k (len l)).
  - rewrite at_app_l; [reflexivity |]. rewrite len_take by lia. lia.
  - rewrite !take_all by lia. rewrite drop_all by lia. rewrite app_nil_r. reflexivity.
Qed.

Lemma drop_take_shift {A : Type} (l : list A) (s j : Z) :
  0 <= s -> 0 <= j -> drop s (take (s + j) l) = take j (drop s l).
Proof.
  intros Hs Hj. unfold drop, take.
  rewrite skipn_firstn_comm. f_equal. lia.
Qed.

Lemma sliceRuneAt_content (n : node) (ls : list Z) (index : Z) :
  wf_node n -> 0 <= index < len (content n) ->
  sliceRuneAt (mkRope (Some n) ls) index = (at_ (content n) index, None).
Proof.
  intros Hwf H. unfold sliceRuneAt. cbn [root]. rewrite length_content by assumption.
  destruct (Z.ltb_spec index 0); [lia |].
  destruct (Z.leb_spec (len (content n)) index); [lia |].
  cbn [orb]. apply runeAt_content; assumption.
Qed.

Lemma GetLine_content (n : node) (line : Z) :
  wf_node n ->
  0 <= line < len (line_starts_of (content n)) ->
  GetLine (mkRope (Some n) (line_starts_of (content n))) line
  = string_of_runes (line_shown (content n) line).
Proof.
  intros Hwf Hline.
  set (c := content n) in *. set (ls := line_starts_of c) in *.
  assert (Hsl : 0 <= line < len (split_lines c)) by (rewrite len_split_lines; exact Hline).
  pose proof (at_line_starts_offset c line Hsl) as Es.
  pose proof (lineCharLength_line_text c line Hsl) as Ek.
  pose proof (line_text_in_document c line Hsl) as Et.
  pose proof (lineCharLength_nonneg c line Hline) as [Hk0 Hk1].
  pose proof (at_line_starts_bounds c line Hline) as Hs.
  fold ls in Es, Ek, Hk0, Hk1, Hs.
  set (s := at_ ls line) in *. rewrite <- Es in Et.
  set (k := len (line_text c line)) in *. rewrite Ek in Hk0, Hk1.
  unfold GetLine. cbn [root lineStarts]. fold c ls.
  destruct (Z.ltb_spec line 0); [lia |].
  destruct (Z.leb_spec (len ls) line); [lia |]. cbn [orb].
  rewrite length_content by assumption. fold c s.
  unfold line_shown. rewrite len_split_lines. fold c ls.
  unfold lineCharLength in Ek.
  destruct (Z.ltb_spec (line + 1) (len ls)) as [Hn | Hn].
  - (* a line that a newline ends *)
    pose proof (at_line_starts_next c line ltac:(lia) Hn) as Hnext. fold ls s in Hnext.
    assert (En : at_ ls (line + 1) = s + k + 1) by lia.
    assert (Hnl : at_ c (s + k) = newline).
    { assert (In (at_ ls (line + 1)) (newlines_from 0 c)) as Hin.
      { unfold ls, line_starts_of. rewrite at_cons_S by lia. apply at_In.
        unfold ls, line_starts_of in Hn. rewrite len_cons in Hn. lia. }
      apply newlines_from_points in Hin. rewrite En in Hin.
      replace (s + k + 1 - 0 - 1) with (s + k) in Hin by lia. exact Hin. }
    rewrite En.
    destruct (Z.ltb_spec s (s + k + 1)); [| lia].
    replace (s + k + 1 - 1) with (s + k) by lia.
    rewrite (sliceRuneAt_content n ls (s + k) Hwf) by (fold c; lia).
    fold c. rewrite Hnl. rewrite Z.eqb_refl.
    unfold trim_cr. fold k.
    destruct (Z.ltb_spec s (s + k)) as [Hpos | Hpos].
    + rewrite (sliceRuneAt_content n ls (s + k - 1) Hwf) by (fold c; lia). fold c.
      destruct (Z.ltb_spec 0 k); [| lia]. cbn [andb].
      assert (Elast : at_ (line_text c line) (k - 1) = at_ c (s + k - 1)).
      { rewrite <- Et. rewrite at_take by lia. rewrite at_drop by lia. f_equal. lia. }
      rewrite Elast.
      destruct (at_ c (s + k - 1) =? carriage_return).
      * rewrite slice_content by assumption. fold c. f_equal.
        replace (s + k - 1) with (s + (k - 1)) by lia.
        rewrite drop_take_shift by lia.
        rewrite <- Et. unfold take. rewrite firstn_firstn. f_equal. lia.
      * rewrite slice_content by assumption. fold c. f_equal.
        rewrite drop_take_shift by lia. exact Et.
    + destruct (Z.ltb_spec 0 k); [lia |]. cbn [andb].
      rewrite slice_content by assumption. fold c. f_equal.
      rewrite drop_take_shift by lia. exact Et.
  - (* the last line *)
    assert (Ek' : k = len c - s) by lia.
    assert (Elt : line_text c line = drop s c).
    { rewrite <- Et. apply take_all. rewrite len_drop by lia. lia. }
    assert (Hend : (if s <? len c
                    then match sliceRuneAt (mkRope (Some n) ls) (len c - 1) with
                         | (lastRune, None) =>
                           if lastRune =? newline
                           then (if s <? len c - 1
                                 then match sliceRuneAt (mkRope (Some n) ls) (len c - 1 - 1) with
                                      | (prevRune, None) =>
                                        if prevRune =? carriage_return
                                        then len c - 1 - 1 else len c - 1
                                      | (_, Some _) => len c - 1
                                      end
                                 else len c - 1)
                           else len c
                         | (_, Some _) => len c
                         end
                    else len c) = len c).
    { destruct (Z.ltb_spec s (len c)); [| reflexivity].
      rewrite (sliceRuneAt_content n ls (len c - 1) Hwf) by (fold c; lia). fold c.
      destruct (Z.eqb_spec (at_ c (len c - 1)) newline) as [E | E]; [| reflexivity].
      exfalso. apply (line_text_no_newline c line). rewrite Elt, <- E.
      replace (len c - 1) with (s + (len c - 1 - s)) by lia.
      rewrite <- at_drop by lia. apply at_In. rewrite len_drop by lia. lia. }
    cbv zeta. rewrite Hend.
    rewrite slice_content by assumption. fold c. rewrite take_all by lia.
    rewrite Elt. reflexivity.
Qed.

(** X7.  [GetLine(line)] is the UTF-8 text of the line without the newline
    that ends it, and without a carriage return just before that newline; a
    carriage return at the end of the last line is kept.  A line number out
    of range gives the empty string. *)
Theorem GetLine_document (r : Rope) (line : Z) :
  reachable r ->
  GetLine r line
  = if (0 <=? line) && (line <? LineCount r)
    then string_of_runes (line_shown (document r) line)
    else [].
Proof.
  intros H. apply reachable_ok in H.
  destruct (rope_ok_eta r H) as (n & Hwf & ->).
  rewrite LineCount_ok. cbn [document root].
  destruct (Z.leb_spec 0 line); destruct (Z.ltb_spec line (len (line_starts_of (content n))));
    cbn [andb]; try (apply GetLine_content; [assumption | lia]);
    unfold GetLine; cbn [root lineStarts].
  - destruct (Z.ltb_spec line 0); [lia |].
    destruct (Z.leb_spec (len (line_starts_of (content n))) line); [reflexivity | lia].
  - destruct (Z.ltb_spec line 0); [reflexivity | lia].
  - destruct (Z.ltb_spec line 0); [reflexivity | lia].
Qed.

Lemma GetLine_document_witness :
  reachable crlf_rope
  /\ GetLine crlf_rope 0
     = (if (0 <=? 0) && (0 <? LineCount crlf_rope)
        then string_of_runes (line_shown (document crlf_rope) 0)
        else []).
Proof.
  assert (H : reachable crlf_rope) by apply reach_NewRope.
  exact (conj H (GetLine_document crlf_rope 0 H)).
Defined.

(** ** [writeTo] into a sink that fills up *)

Lemma take_take_le {A : Type} (i j : Z) (l : list A) :
  i <= j -> take i (take j l) = take i l.
Proof.
  intros H. unfold take. rewrite firstn_firstn. f_equal. lia.
Qed.

Lemma writeTo_disk (n : node) : forall (d : disk),
  0 <= room d ->
  stored (fst (writeTo disk_Write n d))
  = stored d ++ take (room d) (string_of_runes (content n))
  /\ room (fst (writeTo disk_Write n d))
     = Z.max 0 (room d - len (string_of_runes (content n)))
  /\ 0 <= fst (snd (writeTo disk_Write n d))
       <= len (take (room d) (string_of_runes (content n)))
  /\ succeeded (snd (writeTo disk_Write n d))
     = (len (string_of_runes (content n)) <=? room d)
  /\ (succeeded (snd (writeTo disk_Write n d)) = false
      \/ fst (snd (writeTo disk_Write n d)) = len (string_of_runes (content n))).
Proof.
  induction n as [data | nl IHl nr IHr weight]; intros d Hroom.
  - cbn [writeTo content]. unfold disk_Write.
    set (p := string_of_runes data). pose proof (len_nonneg p).
    destruct (Z.leb_spec (len p) (room d)); cbn [fst snd stored room succeeded].
    + rewrite take_all by lia. repeat split; try lia; try (right; reflexivity).
    + rewrite len_take by lia. repeat split; try lia; try (left; reflexivity).
  - cbn [writeTo content]. rewrite string_of_runes_app.
    set (tl := string_of_runes (content nl)) in *.
    set (tr := string_of_runes (content nr)) in *.
    pose proof (len_nonneg tl). pose proof (len_nonneg tr).
    specialize (IHl d Hroom).
    destruct (writeTo disk_Write nl d) as [d1 [w1 e1]] eqn:E1.
    cbn [fst snd] in IHl. destruct IHl as (S1 & R1 & C1 & O1 & F1).
    unfold succeeded in O1, F1. cbn [snd] in O1, F1.
    rewrite len_app, take_app_any.
    destruct e1 as [err1 |].
    + cbn [fst snd succeeded].
      destruct (Z.leb_spec (len tl) (room d)); [discriminate |].
      rewrite (take_nonpos (room d - len tl)) by lia. rewrite app_nil_r.
      destruct (Z.leb_spec (len tl + len tr) (room d)); [lia |].
      repeat split; try lia; try assumption; try (left; reflexivity).
    + destruct (Z.leb_spec (len tl) (room d)); [| discriminate].
      destruct F1 as [F1 | F1]; [discriminate |].
      rewrite take_all in S1, C1 by lia. rewrite take_all by lia.
      assert (Hr1 : 0 <= room d1) by lia.
      specialize (IHr d1 Hr1).
      destruct (writeTo disk_Write nr d1) as [d2 [w2 e2]] eqn:E2.
      cbn [fst snd] in IHr. destruct IHr as (S2 & R2 & C2 & O2 & F2).
      unfold succeeded in O2, F2. cbn [snd] in O2, F2.
      replace (room d1) with (room d - len tl) in * by lia.
      rewrite len_app.
      destruct e2 as [err2 |]; cbn [fst snd succeeded].
      * destruct (Z.leb_spec (len tr) (room d - len tl)); [discriminate |].
        destruct (Z.leb_spec (len tl + len tr) (room d)); [lia |].
        rewrite S2, S1, app_assoc.
        repeat split; try lia; try (left; reflexivity).
      * destruct (Z.leb_spec (len tr) (room d - len tl)); [| discriminate].
        destruct (Z.leb_spec (len tl + len tr) (room d)); [| lia].
        destruct F2 as [F2 | F2]; [discriminate |].
        rewrite S2, S1, app_assoc.
        repeat split; try lia; try (right; lia).
Qed.

(** X8.  [WriteTo] into a sink with room for [room] bytes: the sink receives
    the first [room] bytes of the UTF-8 text of the document, in order;
    [WriteTo] succeeds exactly when the whole text fits, and then returns its
    length; the count it returns is never more than what the sink took. *)
Theorem WriteTo_full_disk (r : Rope) (d : disk) :
  0 <= room d ->
  stored (fst (WriteTo disk_Write r d))
  = stored d ++ take (room d) (string_of_runes (document r))
  /\ 0 <= fst (snd (WriteTo disk_Write r d))
       <= len (take (room d) (string_of_runes (document r)))
  /\ succeeded (snd (WriteTo disk_Write r d))
     = (len (string_of_runes (document r)) <=? room d)
  /\ (succeeded (snd (WriteTo disk_Write r d)) = false
      \/ fst (snd (WriteTo disk_Write r d)) = len (string_of_runes (document r))).
Proof.
  intros H. unfold WriteTo, document. destruct (root r) as [n |].
  - destruct (writeTo_disk n d H) as (A & _ & B & C & D). auto.
  - change (string_of_runes []) with (@nil Z). cbn [fst snd succeeded].
    assert (T : take (room d) (@nil Z) = []) by (unfold take; apply firstn_nil).
    rewrite T. rewrite app_nil_r. change (len (@nil Z)) with 0.
    destruct (Z.leb_spec 0 (room d)); [| lia].
    repeat split; try lia; try (right; reflexivity).
Qed.

Lemma WriteTo_full_disk_witness :
  0 <= room (mkDisk 600 [])
  /\ stored (fst (WriteTo disk_Write two_leaves (mkDisk 600 [])))
     = stored (mkDisk 600 [])
       ++ take (room (mkDisk 600 [])) (string_of_runes (document two_leaves))
  /\ 0 <= fst (snd (WriteTo disk_Write two_leaves (mkDisk 600 [])))
       <= len (take (room (mkDisk 600 [])) (string_of_runes (document two_leaves)))
  /\ succeeded (snd (WriteTo disk_Write two_leaves (mkDisk 600 [])))
     = (len (string_of_runes (document two_leaves)) <=? room (mkDisk 600 []))
  /\ (succeeded (snd (WriteTo disk_Write two_leaves (mkDisk 600 []))) = false
      \/ fst (snd (WriteTo disk_Write two_leaves (mkDisk 600 [])))
         = len (string_of_runes (document two_leaves))).
Proof.
  assert (H : 0 <= room (mkDisk 600 [])) by (cbn [room]; lia).
  exact (conj H (WriteTo_full_disk two_leaves (mkDisk 600 []) H)).
Defined.

(** ** [rebalance] and the balance of reachable ropes *)

(** X9.  [rebalance] keeps the text, but for runes that are not valid code
    points, which become U+FFFD; the line index and [LineCount()] are
    unchanged, and the rope that results needs no further rebalancing. *)
Theorem rebalance_keeps_text (r : Rope) :
  reachable r ->
  document (rebalance r) = map sanitize (document r)
  /\ lineStarts (rebalance r) = lineStarts r
  /\ LineCount (rebalance r) = LineCount r
  /\ shouldRebalance (rebalance r) = false.
Proof.
  intros H. apply reachable_ok in H.
  destruct (rope_ok_eta r H) as (n & Hwf & ->).
  rewrite rebalance_correct. cbn [document root content lineStarts].
  assert (E : line_starts_of (map sanitize (content n)) = line_starts_of (content n))
    by apply same_text_line_starts, same_text_sanitize.
  split; [reflexivity |]. split; [exact E |].
  split; [unfold LineCount; cbn [lineStarts]; rewrite E; reflexivity | reflexivity].
Qed.

Lemma rebalance_keeps_text_witness :
  reachable two_leaves
  /\ document (rebalance two_leaves) = map sanitize (document two_leaves)
  /\ lineStarts (rebalance two_leaves) = lineStarts two_leaves
  /\ LineCount (rebalance two_leaves) = LineCount two_leaves
  /\ shouldRebalance (rebalance two_leaves) = false.
Proof.
  assert (H : reachable two_leaves) by (apply reach_Insert, reach_NewRope).
  exact (conj H (rebalance_keeps_text two_leaves H)).
Defined.

Lemma shouldRebalance_after (r : Rope) :
  shouldRebalance (if shouldRebalance r then rebalance r else r) = false.
Proof.
  destruct (shouldRebalance r) eqn:E; [| exact E].
  unfold rebalance. destruct (root r) as [n |] eqn:Hr.
  - reflexivity.
  - unfold shouldRebalance in E. rewrite Hr in E. discriminate.
Qed.

Lemma shouldRebalance_reachable (r : Rope) : reachable r -> shouldRebalance r = false.
Proof.
  induction 1 as [initialText | r line col ru H IH | r line col H IH].
  - reflexivity.
  - pose proof (reachable_root r H) as Hr.
    destruct (root r) as [n |] eqn:En; [| congruence].
    unfold Insert. rewrite En.
    assert (Er : mkRope (Some n) (lineStarts r) = r) by (destruct r; cbn in *; congruence).
    rewrite Er.
    destruct (getIndex r line col) as [index [err |]]; cbn [fst]; [exact IH |].
    apply shouldRebalance_after.
  - unfold Delete.
    destruct (root r) as [n |] eqn:En; [| exact IH].
    destruct ((col =? 0) && (line =? 0)); [exact IH |].
    destruct (getIndex r line col) as [index [err |]]; cbn [fst]; [exact IH |].
    destruct (index =? 0); [exact IH |].
    destruct (RuneAt r (index - 1)) as [ru [err |]]; cbn [fst]; [exact IH |].
    apply shouldRebalance_after.
Qed.

(** X10.  No reachable rope is left unbalanced: when the root is an internal
    node, its weight is the size of its left side, and one side is empty or
    neither side is more than three times the other. *)
Theorem reachable_balanced (r : Rope) (nl nr : node) (weight : Z) :
  reachable r ->
  root r = Some (Internal nl nr weight) ->
  weight = len (content nl)
  /\ (len (content nl) = 0 \/ len (content nr) = 0
      \/ (len (content nl) <= 3 * len (content nr)
          /\ len (content nr) <= 3 * len (content nl))).
Proof.
  intros H Hr. pose proof (shouldRebalance_reachable r H) as Hb.
  apply reachable_ok in H. destruct H as (n & Hn & Hwf & _).
  rewrite Hr in Hn. injection Hn as <-.
  cbn [wf_node] in Hwf. destruct Hwf as (Hw & Hl & Hrr).
  split; [exact Hw |].
  unfold shouldRebalance in Hb. rewrite Hr in Hb.
  cbn [length] in Hb. rewrite (length_content nr Hrr) in Hb. subst weight.
  replace (len (content nl) + len (content nr) - len (content nl))
    with (len (content nr)) in Hb by lia.
  unfold rebalanceThreshold in Hb.
  destruct (Z.eqb_spec (len (content nl)) 0); [left; assumption |].
  destruct (Z.eqb_spec (len (content nr)) 0); [right; left; assumption |].
  cbn [orb] in Hb. apply Z.ltb_ge in Hb. right. right. lia.
Qed.

Lemma reachable_balanced_witness :
  reachable two_leaves
  /\ root two_leaves = Some (Internal (Leaf (repeat 97 512)) (Leaf (repeat 97 513)) 512)
  /\ 512 = len (content (Leaf (repeat 97 512)))
  /\ (len (content (Leaf (repeat 97 512))) = 0
      \/ len (content (Leaf (repeat 97 513))) = 0
      \/ (len (content (Leaf (repeat 97 512))) <= 3 * len (content (Leaf (repeat 97 513)))
          /\ len (content (Leaf (repeat 97 513)))
             <= 3 * len (content (Leaf (repeat 97 512))))).
Proof.
  assert (H : reachable two_leaves) by (apply reach_Insert, reach_NewRope).
  assert (H1 : root two_leaves
               = Some (Internal (Leaf (repeat 97 512)) (Leaf (repeat 97 513)) 512))
    by (vm_compute; reflexivity).
  exact (conj H (conj H1 (reachable_balanced two_leaves _ _ _ H H1))).
Defined.

(** ** [NewRope] *)

Lemma sanitize_valid (rs : list Z) : forallb ValidRune rs = true -> map sanitize rs = rs.
Proof.
  induction rs as [| x rs IH]; cbn [forallb map]; [reflexivity |].
  intros H. apply andb_true_iff in H. destruct H as [Hx Hrs].
  unfold sanitize at 1. rewrite Hx. f_equal. apply IH, Hrs.
Qed.

(** X11.  [NewRope] on the UTF-8 text of valid code points holds exactly
    these code points, [WriteTo] gives the text back with its length in
    bytes, and [LineCount()] is one more than the number of newlines. *)
Theorem NewRope_round_trip (rs : list rune) :
  forallb ValidRune rs = true ->
  document (NewRope (string_of_runes rs)) = rs
  /\ WriteTo builder_Write (NewRope (string_of_runes rs)) []
     = (string_of_runes rs, (len (string_of_runes rs), None))
  /\ LineCount (NewRope (string_of_runes rs)) = 1 + count_newlines rs.
Proof.
  intros H.
  assert (D : document (NewRope (string_of_runes rs)) = rs)
    by (rewrite document_NewRope, runes_of_string_of_runes; apply sanitize_valid, H).
  split; [exact D |]. split.
  - rewrite WriteTo_builder, D. reflexivity.
  - rewrite <- D at 2.
    destruct (rope_ok_eta _ (NewRope_ok (string_of_runes rs))) as (n & _ & ->).
    cbn [document root]. apply LineCount_rope.
Qed.

Lemma NewRope_round_trip_witness :
  forallb ValidRune [104; 233; 8364; 128512] = true
  /\ document (NewRope (string_of_runes [104; 233; 8364; 128512]))
     = [104; 233; 8364; 128512]
  /\ WriteTo builder_Write (NewRope (string_of_runes [104; 233; 8364; 128512])) []
     = (string_of_runes [104; 233; 8364; 128512],
        (len (string_of_runes [104; 233; 8364; 128512]), None))
  /\ LineCount (NewRope (string_of_runes [104; 233; 8364; 128512]))
     = 1 + count_newlines [104; 233; 8364; 128512].
Proof.
  assert (H : forallb ValidRune [104; 233; 8364; 128512] = true) by reflexivity.
  exact (conj H (NewRope_round_trip [104; 233; 8364; 128512] H)).
Defined.

(** ** [findLine] *)

(** X12.  On a line that exists, [getIndex(line, col)] returns no error and
    an offset between the start of the line and the end of the document, and
    [findLine] maps that offset back to [line]. *)
Theorem findLine_getIndex (r : Rope) (line col : Z) :
  reachable r ->
  0 <= line < LineCount r ->
  snd (getIndex r line col) = None
  /\ findLine r (fst (getIndex r line col)) = line
  /\ at_ (lineStarts r) line <= fst (getIndex r line col) <= len (document r).
Proof.
  intros H Hline. apply reachable_ok in H.
  destruct (rope_ok_eta r H) as (n & Hwf & ->).
  rewrite LineCount_ok in Hline. cbn [document root lineStarts].
  rewrite getIndex_unfold by assumption. cbn [fst snd].
  rewrite length_content by assumption.
  pose proof (lineCharLength_nonneg (content n) line Hline) as [N M].
  pose proof (clamp_range _ col N) as C.
  pose proof (at_line_starts_bounds (content n) line Hline) as B.
  split; [reflexivity |]. split; [| lia].
  apply findLine_floor.
  - apply increasing_line_starts_of.
  - exact Hline.
  - lia.
  - intros Hn.
    assert (K : lineCharLength (line_starts_of (content n)) (len (content n)) line
                = at_ (line_starts_of (content n)) (line + 1)
                  - at_ (line_starts_of (content n)) line - 1).
    { unfold lineCharLength.
      destruct (Z.ltb_spec (line + 1) (len (line_starts_of (content n)))); [reflexivity | lia]. }
    lia.
Qed.

Lemma findLine_getIndex_witness :
  reachable sample_rope
  /\ 0 <= 1 < LineCount sample_rope
  /\ snd (getIndex sample_rope 1 7) = None
  /\ findLine sample_rope (fst (getIndex sample_rope 1 7)) = 1
  /\ at_ (lineStarts sample_rope) 1 <= fst (getIndex sample_rope 1 7)
     <= len (document sample_rope).
Proof.
  assert (H : reachable sample_rope) by (apply reach_Insert, reach_NewRope).
  assert (H1 : 0 <= 1 < LineCount sample_rope) by (change (0 <= 1 < 2); lia).
  exact (conj H (conj H1 (findLine_getIndex sample_rope 1 7 H H1))).
Defined.

End RopeExtras.
(** * Further properties of the editor *)

Module EditorExtras.
Import Buffer Editor EditorMore Prompt RopeSpec Aux TextSpec EditorSpec PromptSpec
       EditorFacts SliceFacts NodeFacts LineIndexFacts Utf8Facts RopeFacts LinesFacts
       TextFacts RopeClaims RopeExtras.

(** ** The two stacks *)

Ltac through_fields :=
  cbn [undoStack redoStack buffer cursorX cursorY
       set_buffer set_cursorX set_cursorY set_extraCursorHeight
       set_undoStack set_redoStack set_selectionActive set_selectionAnchorX
       set_selectionAnchorY set_undoGrouping set_currentGroupID set_lastGroupID
       set_typingEntries set_typingActive set_lastTypeTime set_typeGroupThreshold
       set_backspaceEntries set_backspaceActive set_lastBackspaceTime
       set_backspaceThreshold set_deleteEntries set_deleteActive set_lastDeleteTime
       set_deleteThreshold].

Lemma top_removelast (s : list undoAction) (a : undoAction) :
  top s = Some a -> s = removelast s ++ [a].
Proof.
  unfold top. intros H. destruct (rev s) as [| b t] eqn:E; [discriminate |].
  injection H as ->.
  assert (Hs : s = rev t ++ [a]) by (rewrite <- (rev_involutive s), E; reflexivity).
  rewrite Hs at 1. rewrite Hs, removelast_last. reflexivity.
Qed.

Lemma stacks_fold_left {A : Type} (f : Editor -> A -> Editor) (l : list A) :
  (forall e x, undoStack (f e x) = undoStack e /\ redoStack (f e x) = redoStack e) ->
  forall e, undoStack (fold_left f l e) = undoStack e
            /\ redoStack (fold_left f l e) = redoStack e.
Proof.
  intros Hf. induction l as [| x l IH]; intros e; cbn [fold_left]; [split; reflexivity |].
  destruct (IH (f e x)) as [A1 A2]. destruct (Hf e x) as [B1 B2].
  split; congruence.
Qed.

Lemma stacks_cursorAfter (op : opEntry) (e : Editor) :
  undoStack (cursorAfter op e) = undoStack e /\ redoStack (cursorAfter op e) = redoStack e.
Proof. unfold cursorAfter. destruct (op_r op =? newline); split; reflexivity. Qed.

Lemma stacks_performUndo (a : undoAction) (e : Editor) :
  undoStack (performUndo a e) = undoStack e /\ redoStack (performUndo a e) = redoStack e.
Proof.
  unfold performUndo. destruct (isInsert a).
  - destruct (ops a) as [| first rest] eqn:E; through_fields;
      apply stacks_fold_left; intros; split; reflexivity.
  - destruct (ops a) as [| first rest] eqn:E.
    + apply stacks_fold_left; intros; split; reflexivity.
    + destruct (isBackspace a).
      * destruct (stacks_cursorAfter (last (first :: rest) first)
                    (fold_left (fun e op => bufferInsert (insertLine op) (insertCol op) (op_r op) e)
                               (first :: rest) e)) as [-> ->].
        apply stacks_fold_left; intros; split; reflexivity.
      * through_fields. apply stacks_fold_left; intros; split; reflexivity.
Qed.

Lemma stacks_performRedo (a : undoAction) (e : Editor) :
  undoStack (performRedo a e) = undoStack e /\ redoStack (performRedo a e) = redoStack e.
Proof.
  unfold performRedo. destruct (isInsert a).
  - destruct (ops a) as [| first rest] eqn:E.
    + apply stacks_fold_left; intros; split; reflexivity.
    + destruct (stacks_cursorAfter (last (first :: rest) first)
                  (fold_left (fun e op => bufferInsert (insertLine op) (insertCol op) (op_r op) e)
                             (first :: rest) e)) as [-> ->].
      apply stacks_fold_left; intros; split; reflexivity.
  - destruct (ops a) as [| first rest] eqn:E; through_fields;
      apply stacks_fold_left; intros; split; reflexivity.
Qed.

Lemma history_move_undo (us rs : list undoAction) (a : undoAction) :
  top us = Some a ->
  removelast us ++ rev (rs ++ [a]) = us ++ rev rs.
Proof.
  intros H. rewrite (top_removelast us a H) at 2.
  rewrite rev_app_distr, <- app_assoc. reflexivity.
Qed.

Lemma history_move_redo (us rs : list undoAction) (a : undoAction) :
  top rs = Some a ->
  (us ++ [a]) ++ rev (removelast rs) = us ++ rev rs.
Proof.
  intros H. rewrite (top_removelast rs a H) at 2.
  rewrite rev_app_distr, <- app_assoc. reflexivity.
Qed.

Lemma history_undoGroup (fuel : nat) (group : Z) : forall e,
  history (undoGroup fuel group e) = history e.
Proof.
  induction fuel as [| fuel IH]; intros e; cbn [undoGroup]; [reflexivity |].
  destruct (top (undoStack e)) as [next |] eqn:T; [| reflexivity].
  destruct (negb (groupID next =? group)); [reflexivity |].
  rewrite IH. unfold history.
  destruct (stacks_performUndo next
              (set_redoStack (redoStack (set_undoStack (removelast (undoStack e)) e) ++ [next])
                 (set_undoStack (removelast (undoStack e)) e))) as [-> ->].
  through_fields. apply history_move_undo, T.
Qed.

Lemma history_redoGroup (fuel : nat) (group : Z) : forall e,
  history (redoGroup fuel group e) = history e.
Proof.
  induction fuel as [| fuel IH]; intros e; cbn [redoGroup]; [reflexivity |].
  destruct (top (redoStack e)) as [next |] eqn:T; [| reflexivity].
  destruct (negb (groupID next =? group)); [reflexivity |].
  rewrite IH. unfold history.
  destruct (stacks_performRedo next
              (set_undoStack (undoStack (set_redoStack (removelast (redoStack e)) e) ++ [next])
                 (set_redoStack (removelast (redoStack e)) e))) as [-> ->].
  through_fields. apply history_move_redo, T.
Qed.

(** X13.  [undo] neither loses nor duplicates an action: the actions of the
    undo stack followed by those of the redo stack, the latter in reverse,
    are the same list before and after (pending groups flushed first). *)
Theorem undo_keeps_history (e : Editor) :
  history (undo e) = history (flushEditGroups e).
Proof.
  unfold undo. set (e0 := flushEditGroups e).
  destruct (top (undoStack e0)) as [action |] eqn:T; [| reflexivity].
  assert (H : history (performUndo action
                (set_redoStack (redoStack (set_undoStack (removelast (undoStack e0)) e0)
                                ++ [action])
                   (set_undoStack (removelast (undoStack e0)) e0))) = history e0).
  { unfold history.
    destruct (stacks_performUndo action
                (set_redoStack (redoStack (set_undoStack (removelast (undoStack e0)) e0)
                                ++ [action])
                   (set_undoStack (removelast (undoStack e0)) e0))) as [-> ->].
    through_fields. apply history_move_undo, T. }
  destruct (0 <? groupID action); [rewrite history_undoGroup |]; exact H.
Qed.

(** X14.  [redo] neither loses nor duplicates an action either: it moves
    actions from the redo stack back to the undo stack and leaves the
    combined list of actions as it is. *)
Theorem redo_keeps_history (e : Editor) :
  history (redo e) = history (flushEditGroups e).
Proof.
  unfold redo. set (e0 := flushEditGroups e).
  destruct (top (redoStack e0)) as [action |] eqn:T; [| reflexivity].
  assert (H : history (performRedo action
                (set_undoStack (undoStack (set_redoStack (removelast (redoStack e0)) e0)
                                ++ [action])
                   (set_redoStack (removelast (redoStack e0)) e0))) = history e0).
  { unfold history.
    destruct (stacks_performRedo action
                (set_undoStack (undoStack (set_redoStack (removelast (redoStack e0)) e0)
                                ++ [action])
                   (set_redoStack (removelast (redoStack e0)) e0))) as [-> ->].
    through_fields. apply history_move_redo, T. }
  destruct (0 <? groupID action); [rewrite history_redoGroup |]; exact H.
Qed.

Lemma undoGroup_moves (fuel : nat) (group : Z) : forall e,
  (List.length (undoStack e) <= fuel)%nat ->
  exists moved,
    redoStack (undoGroup fuel group e) = redoStack e ++ moved
    /\ undoStack e = undoStack (undoGroup fuel group e) ++ rev moved
    /\ Forall (fun b => groupID b = group) moved
    /\ match top (undoStack (undoGroup fuel group e)) with
       | Some b => groupID b <> group
       | None => True
       end.
Proof.
  induction fuel as [| fuel IH]; intros e Hlen; cbn [undoGroup].
  - exists []. rewrite !app_nil_r. repeat split; [constructor |].
    destruct (undoStack e); [exact I | cbn in Hlen; lia].
  - destruct (top (undoStack e)) as [next |] eqn:T.
    2:{ exists []. rewrite !app_nil_r, T. repeat split; constructor. }
    destruct (Z.eqb_spec (groupID next) group) as [Hg | Hg]; cbn [negb].
    2:{ exists []. rewrite !app_nil_r, T. repeat split; [constructor | exact Hg]. }
    set (e1 := performUndo next
                 (set_redoStack (redoStack (set_undoStack (removelast (undoStack e)) e)
                                 ++ [next])
                    (set_undoStack (removelast (undoStack e)) e))).
    destruct (stacks_performUndo next
                (set_redoStack (redoStack (set_undoStack (removelast (undoStack e)) e)
                                ++ [next])
                   (set_undoStack (removelast (undoStack e)) e))) as [U R].
    fold e1 in U, R. cbn in U, R.
    pose proof (top_removelast _ _ T) as Hs.
    assert (Hlen1 : (List.length (undoStack e1) <= fuel)%nat).
    { rewrite U. rewrite Hs, length_app in Hlen. cbn in Hlen. lia. }
    destruct (IH e1 Hlen1) as (moved & M1 & M2 & M3 & M4).
    exists (next :: moved). repeat split.
    + rewrite M1, R, <- app_assoc. reflexivity.
    + rewrite Hs, <- U, M2. cbn [rev]. rewrite app_assoc. reflexivity.
    + constructor; assumption.
    + exact M4.
Qed.

(** X15.  [undo] moves the action on top of the undo stack to the redo
    stack and, when that action belongs to a group (its [groupID] is above
    0), every action below it with the same [groupID], and nothing else:
    the action left on top of the undo stack, if any, is of another group.
    An action with [groupID] 0 is moved alone. *)
Theorem undo_takes_whole_group (e : Editor) (a : undoAction) :
  top (undoStack (flushEditGroups e)) = Some a ->
  exists moved,
    redoStack (undo e) = redoStack e ++ a :: moved
    /\ undoStack (flushEditGroups e) = undoStack (undo e) ++ rev (a :: moved)
    /\ Forall (fun b => groupID b = groupID a) moved
    /\ (0 < groupID a \/ moved = [])
    /\ match top (undoStack (undo e)) with
       | Some b => groupID a <= 0 \/ groupID b <> groupID a
       | None => True
       end.
Proof.
  intros T. unfold undo. rewrite T.
  set (e0 := flushEditGroups e) in *.
  set (e1 := performUndo a
               (set_redoStack (redoStack (set_undoStack (removelast (undoStack e0)) e0) ++ [a])
                  (set_undoStack (removelast (undoStack e0)) e0))).
  destruct (stacks_performUndo a
              (set_redoStack (redoStack (set_undoStack (removelast (undoStack e0)) e0) ++ [a])
                 (set_undoStack (removelast (undoStack e0)) e0))) as [U R].
  fold e1 in U, R. cbn in U, R.
  assert (R0 : redoStack e0 = redoStack e) by apply redo_flushEditGroups.
  pose proof (top_removelast _ _ T) as Hs.
  destruct (Z.ltb_spec 0 (groupID a)) as [Hg | Hg].
  - destruct (undoGroup_moves (List.length (undoStack e1)) (groupID a) e1 (le_n _))
      as (moved & M1 & M2 & M3 & M4).
    exists moved. repeat split.
    + rewrite M1, R, R0, <- app_assoc. reflexivity.
    + cbn [rev]. rewrite app_assoc, <- M2, U. exact Hs.
    + exact M3.
    + left. exact Hg.
    + destruct (top (undoStack (undoGroup (List.length (undoStack e1)) (groupID a) e1)));
        [right; exact M4 | exact I].
  - exists []. repeat split.
    + rewrite R, R0. reflexivity.
    + rewrite U. exact Hs.
    + constructor.
    + right. reflexivity.
    + destruct (top (undoStack e1)); [left; exact Hg | exact I].
Qed.

Lemma undo_takes_whole_group_witness :
  top (undoStack (flushEditGroups (after_keys type_ab [])))
  = Some (mkAction true [mkOp 0 1 0 1 98] 2 false)
  /\ exists moved,
       redoStack (undo (after_keys type_ab []))
       = redoStack (after_keys type_ab []) ++ mkAction true [mkOp 0 1 0 1 98] 2 false :: moved
       /\ undoStack (flushEditGroups (after_keys type_ab []))
          = undoStack (undo (after_keys type_ab []))
            ++ rev (mkAction true [mkOp 0 1 0 1 98] 2 false :: moved)
       /\ Forall (fun b => groupID b = groupID (mkAction true [mkOp 0 1 0 1 98] 2 false)) moved
       /\ (0 < groupID (mkAction true [mkOp 0 1 0 1 98] 2 false) \/ moved = [])
       /\ match top (undoStack (undo (after_keys type_ab []))) with
          | Some b => groupID (mkAction true [mkOp 0 1 0 1 98] 2 false) <= 0
                      \/ groupID b <> groupID (mkAction true [mkOp 0 1 0 1 98] 2 false)
          | None => True
          end.
Proof.
  assert (H : top (undoStack (flushEditGroups (after_keys type_ab [])))
              = Some (mkAction true [mkOp 0 1 0 1 98] 2 false)) by (vm_compute; reflexivity).
  exact (conj H (undo_takes_whole_group (after_keys type_ab []) _ H)).
Defined.

(** ** Flushing the pending groups *)

Lemma flushTypingGroup_flag (e : Editor) : typingActive (flushTypingGroup e) = false.
Proof.
  unfold flushTypingGroup. destruct (typingActive e) eqn:E; cbn [negb]; [reflexivity | exact E].
Qed.

Lemma flushBackspaceGroup_flag (e : Editor) : backspaceActive (flushBackspaceGroup e) = false.
Proof.
  unfold flushBackspaceGroup.
  destruct (backspaceActive e) eqn:E; cbn [negb]; [reflexivity | exact E].
Qed.

Lemma flushDeleteGroup_flag (e : Editor) : deleteActive (flushDeleteGroup e) = false.
Proof.
  unfold flushDeleteGroup.
  destruct (deleteActive e) eqn:E; cbn [negb]; [reflexivity | exact E].
Qed.

Lemma flushTypingGroup_idle (e : Editor) : typingActive e = false -> flushTypingGroup e = e.
Proof. intros H. unfold flushTypingGroup. rewrite H. reflexivity. Qed.

Lemma flushBackspaceGroup_idle (e : Editor) :
  backspaceActive e = false -> flushBackspaceGroup e = e.
Proof. intros H. unfold flushBackspaceGroup. rewrite H. reflexivity. Qed.

Lemma flushDeleteGroup_idle (e : Editor) : deleteActive e = false -> flushDeleteGroup e = e.
Proof. intros H. unfold flushDeleteGroup. rewrite H. reflexivity. Qed.

Lemma pushUndoDeleteBlock_frame (entries : list opEntry) (b : bool) (e : Editor) :
  typingActive (pushUndoDeleteBlock entries b e) = typingActive e
  /\ backspaceActive (pushUndoDeleteBlock entries b e) = backspaceActive e
  /\ buffer (pushUndoDeleteBlock entries b e) = buffer e
  /\ cursorX (pushUndoDeleteBlock entries b e) = cursorX e
  /\ cursorY (pushUndoDeleteBlock entries b e) = cursorY e.
Proof.
  unfold pushUndoDeleteBlock. destruct (len entries =? 0); repeat split; reflexivity.
Qed.

Lemma pushUndoInsertBlock_frame (entries : list opEntry) (e : Editor) :
  buffer (pushUndoInsertBlock entries e) = buffer e
  /\ cursorX (pushUndoInsertBlock entries e) = cursorX e
  /\ cursorY (pushUndoInsertBlock entries e) = cursorY e.
Proof.
  unfold pushUndoInsertBlock. destruct (len entries =? 0); repeat split; reflexivity.
Qed.

Lemma flushTypingGroup_frame (e : Editor) :
  buffer (flushTypingGroup e) = buffer e
  /\ cursorX (flushTypingGroup e) = cursorX e
  /\ cursorY (flushTypingGroup e) = cursorY e.
Proof.
  unfold flushTypingGroup. destruct (negb (typingActive e)); [repeat split; reflexivity |].
  destruct (0 <? len (typingEntries e)); [| repeat split; reflexivity].
  apply (pushUndoInsertBlock_frame (typingEntries e) e).
Qed.

Lemma flushBackspaceGroup_frame (e : Editor) :
  typingActive (flushBackspaceGroup e) = typingActive e
  /\ buffer (flushBackspaceGroup e) = buffer e
  /\ cursorX (flushBackspaceGroup e) = cursorX e
  /\ cursorY (flushBackspaceGroup e) = cursorY e.
Proof.
  unfold flushBackspaceGroup.
  destruct (negb (backspaceActive e)); [repeat split; reflexivity |].
  destruct (0 <? len (backspaceEntries e)); [| repeat split; reflexivity].
  destruct (pushUndoDeleteBlock_frame (backspaceEntries e) true e) as (A & _ & B & C & D).
  auto.
Qed.

Lemma flushDeleteGroup_frame (e : Editor) :
  typingActive (flushDeleteGroup e) = typingActive e
  /\ backspaceActive (flushDeleteGroup e) = backspaceActive e
  /\ buffer (flushDeleteGroup e) = buffer e
  /\ cursorX (flushDeleteGroup e) = cursorX e
  /\ cursorY (flushDeleteGroup e) = cursorY e.
Proof.
  unfold flushDeleteGroup.
  destruct (negb (deleteActive e)); [repeat split; reflexivity |].
  destruct (0 <? len (deleteEntries e)); [| repeat split; reflexivity].
  apply (pushUndoDeleteBlock_frame (deleteEntries e) false e).
Qed.

(** X16.  After [flushEditGroups] no typing, backspace or delete group is
    pending, a second flush changes nothing, and the flush leaves the
    buffer, the cursor and the redo stack alone. *)
Theorem flushEditGroups_settles (e : Editor) :
  typingActive (flushEditGroups e) = false
  /\ backspaceActive (flushEditGroups e) = false
  /\ deleteActive (flushEditGroups e) = false
  /\ flushEditGroups (flushEditGroups e) = flushEditGroups e
  /\ buffer (flushEditGroups e) = buffer e
  /\ cursorX (flushEditGroups e) = cursorX e
  /\ cursorY (flushEditGroups e) = cursorY e
  /\ redoStack (flushEditGroups e) = redoStack e.
Proof.
  assert (T : typingActive (flushEditGroups e) = false).
  { unfold flushEditGroups.
    destruct (flushDeleteGroup_frame (flushBackspaceGroup (flushTypingGroup e))) as (-> & _).
    destruct (flushBackspaceGroup_frame (flushTypingGroup e)) as (-> & _).
    apply flushTypingGroup_flag. }
  assert (B : backspaceActive (flushEditGroups e) = false).
  { unfold flushEditGroups.
    destruct (flushDeleteGroup_frame (flushBackspaceGroup (flushTypingGroup e)))
      as (_ & -> & _).
    apply flushBackspaceGroup_flag. }
  assert (D : deleteActive (flushEditGroups e) = false)
    by (unfold flushEditGroups; apply flushDeleteGroup_flag).
  split; [exact T |]. split; [exact B |]. split; [exact D |].
  split.
  { unfold flushEditGroups at 1.
    rewrite (flushTypingGroup_idle _ T), (flushBackspaceGroup_idle _ B).
    apply flushDeleteGroup_idle, D. }
  unfold flushEditGroups.
  destruct (flushDeleteGroup_frame (flushBackspaceGroup (flushTypingGroup e)))
    as (_ & _ & -> & -> & ->).
  destruct (flushBackspaceGroup_frame (flushTypingGroup e)) as (_ & -> & -> & ->).
  destruct (flushTypingGroup_frame e) as (-> & -> & ->).
  repeat split.
  rewrite redo_flushDeleteGroup, redo_flushBackspaceGroup. apply redo_flushTypingGroup.
Qed.

(** ** Cursor movement *)







(** ** The selection *)

(** X19.  With a selection active, [getSelectionCoords] returns its two ends
    in reading order, and [isRuneSelected] holds of exactly the positions
    from the first end on and before the second end. *)
Theorem selection_is_an_interval (e : Editor) (line idx : Z) :
  selectionActive e = true ->
  match getSelectionCoords e with
  | (startY, startX, endY, endX) =>
    pos_leb startY startX endY endX = true
    /\ isRuneSelected e line idx startY startX endY endX
       = pos_leb startY startX line idx && pos_ltb line idx endY endX
  end.
Proof.
  intros Ha. unfold getSelectionCoords, isRuneSelected, pos_leb, pos_ltb. rewrite Ha.
  cbn [negb].
  destruct ((selectionAnchorY e <? cursorY e)
            || ((selectionAnchorY e =? cursorY e) && (selectionAnchorX e <? cursorX e)))
    eqn:E.
  - apply orb_true_iff in E.
    assert (O : selectionAnchorY e < cursorY e
                \/ (selectionAnchorY e = cursorY e /\ selectionAnchorX e < cursorX e)).
    { destruct E as [E | E]; [left; apply Z.ltb_lt, E |].
      apply andb_true_iff in E. destruct E as [E1 E2].
      right. split; [apply Z.eqb_eq, E1 | apply Z.ltb_lt, E2]. }
    clear E.
    split.
    + destruct (Z.ltb_spec (selectionAnchorY e) (cursorY e)); [reflexivity |].
      destruct (Z.eqb_spec (selectionAnchorY e) (cursorY e)); [| lia].
      destruct (Z.leb_spec (selectionAnchorX e) (cursorX e)); [reflexivity | lia].
    + destruct (Z.ltb_spec (selectionAnchorY e) line); destruct (Z.ltb_spec line (cursorY e));
        destruct (Z.eqb_spec line (selectionAnchorY e)); destruct (Z.eqb_spec line (cursorY e));
        destruct (Z.eqb_spec (selectionAnchorY e) line);
        destruct (Z.leb_spec (selectionAnchorX e) idx); destruct (Z.ltb_spec idx (cursorX e));
        cbn [andb orb]; try reflexivity; lia.
  - apply orb_false_iff in E. destruct E as [E1 E2]. apply Z.ltb_ge in E1.
    assert (O : cursorY e < selectionAnchorY e
                \/ (cursorY e = selectionAnchorY e /\ cursorX e <= selectionAnchorX e)).
    { destruct (Z.eqb_spec (selectionAnchorY e) (cursorY e)) as [Q | Q]; [| left; lia].
      cbn [andb] in E2. apply Z.ltb_ge in E2. right. split; [congruence | exact E2]. }
    clear E1 E2.
    split.
    + destruct (Z.ltb_spec (cursorY e) (selectionAnchorY e)); [reflexivity |].
      destruct (Z.eqb_spec (cursorY e) (selectionAnchorY e)); [| lia].
      destruct (Z.leb_spec (cursorX e) (selectionAnchorX e)); [reflexivity | lia].
    + destruct (Z.ltb_spec (cursorY e) line); destruct (Z.ltb_spec line (selectionAnchorY e));
        destruct (Z.eqb_spec line (cursorY e)); destruct (Z.eqb_spec line (selectionAnchorY e));
        destruct (Z.eqb_spec (cursorY e) line);
        destruct (Z.leb_spec (cursorX e) idx); destruct (Z.ltb_spec idx (selectionAnchorX e));
        cbn [andb orb]; try reflexivity; lia.
Qed.

Lemma selection_is_an_interval_witness :
  selectionActive selecting_editor = true
  /\ match getSelectionCoords selecting_editor with
     | (startY, startX, endY, endX) =>
       pos_leb startY startX endY endX = true
       /\ isRuneSelected selecting_editor 0 1 startY startX endY endX
          = pos_leb startY startX 0 1 && pos_ltb 0 1 endY endX
     end.
Proof.
  assert (H : selectionActive selecting_editor = true) by reflexivity.
  exact (conj H (selection_is_an_interval selecting_editor 0 1 H)).
Defined.

(** ** The indentation that Enter repeats *)

(** X20.  The indentation that Enter repeats on the new line ([takeIndent],
    the loop over the current line in [handleKey]) is the longest prefix of
    the line made of spaces and tabs. *)
Theorem takeIndent_longest_prefix (runes : list Z) :
  exists rest,
    runes = takeIndent runes ++ rest
    /\ Forall (fun c => c = 32 \/ c = 9) (takeIndent runes)
    /\ match rest with
       | c :: _ => c <> 32 /\ c <> 9
       | [] => True
       end.
Proof.
  induction runes as [| c runes IH]; cbn [takeIndent].
  - exists []. repeat split. constructor.
  - destruct (Z.eqb_spec c 32) as [-> | H32]; cbn [orb].
    + destruct IH as (rest & E & F & R). exists rest.
      split; [cbn [app]; f_equal; exact E |]. split; [constructor; [left; reflexivity | exact F] | exact R].
    + destruct (Z.eqb_spec c 9) as [-> | H9].
      * destruct IH as (rest & E & F & R). exists rest.
        split; [cbn [app]; f_equal; exact E |].
        split; [constructor; [right; reflexivity | exact F] | exact R].
      * exists (c :: runes). repeat split; [constructor | exact H32 | exact H9].
Qed.

(** ** The prompt *)

Lemma subslice_prefix (l : list Z) (x : Z) :
  0 <= x <= len l -> subslice l 0 x = Some (take x l).
Proof.
  intros H. unfold subslice.
  destruct (Z.ltb_spec 0 0); [lia |]. destruct (Z.ltb_spec x 0); [lia |].
  destruct (Z.ltb_spec (len l) x); [lia |]. cbn [orb]. rewrite drop_nonpos by lia.
  reflexivity.
Qed.

Lemma subslice_suffix (l : list Z) (x : Z) :
  0 <= x <= len l -> subslice l x (len l) = Some (drop x l).
Proof.
  intros H. unfold subslice.
  destruct (Z.ltb_spec x 0); [lia |]. destruct (Z.ltb_spec (len l) x); [lia |].
  destruct (Z.ltb_spec (len l) (len l)); [lia |]. cbn [orb]. rewrite take_all by lia.
  reflexivity.
Qed.

Lemma insertRuneAt_ok (s : list Z) (x r : Z) :
  0 <= x <= len (runes_of_string s) ->
  insertRuneAt s x r
  = Some (string_of_runes (take x (runes_of_string s) ++ r :: drop x (runes_of_string s))).
Proof.
  intros H. unfold insertRuneAt.
  rewrite subslice_prefix, subslice_suffix by assumption. cbn [bind].
  rewrite <- !string_of_runes_app. reflexivity.
Qed.

Lemma removeRuneBefore_ok (s : list Z) (x : Z) :
  1 <= x <= len (runes_of_string s) ->
  removeRuneBefore s x
  = Some (string_of_runes (take (x - 1) (runes_of_string s) ++ drop x (runes_of_string s))).
Proof.
  intros H. unfold removeRuneBefore.
  rewrite subslice_prefix, subslice_suffix by lia. cbn [bind].
  rewrite <- string_of_runes_app. reflexivity.
Qed.






Lemma runes_after_insert (rs : list Z) (x r : Z) :
  forallb ValidRune rs = true ->
  runes_of_string (string_of_runes (take x rs ++ r :: drop x rs))
  = take x rs ++ sanitize r :: drop x rs.
Proof.
  intros H. rewrite runes_of_string_of_runes, map_app. cbn [map].
  rewrite <- (take_drop x rs) in H. rewrite forallb_app in H.
  apply andb_true_iff in H. destruct H as [H1 H2].
  rewrite (sanitize_valid _ H1), (sanitize_valid _ H2). reflexivity.
Qed.

Lemma insert_then_remove (s : list Z) (rs : list Z) (x r : Z) :
  forallb ValidRune rs = true ->
  s = string_of_runes rs ->
  0 <= x <= len rs ->
  exists s1,
    insertRuneAt s x r = Some s1
    /\ runes_of_string s1 = take x rs ++ sanitize r :: drop x rs
    /\ removeRuneBefore s1 (x + 1) = Some s.
Proof.
  intros Hv Hs Hx.
  assert (Hr : runes_of_string s = rs)
    by (rewrite Hs, runes_of_string_of_runes; apply sanitize_valid, Hv).
  rewrite insertRuneAt_ok by (rewrite Hr; exact Hx). rewrite Hr.
  eexists. split; [reflexivity |].
  pose proof (runes_after_insert rs x r Hv) as R.
  split; [exact R |].
  assert (L : len (take x rs ++ sanitize r :: drop x rs) = len rs + 1).
  { rewrite len_app, len_cons. pose proof (len_take_drop x rs). lia. }
  rewrite removeRuneBefore_ok by (rewrite R, L; lia).
  rewrite R. f_equal. rewrite Hs. f_equal.
  replace (x + 1 - 1) with x by lia.
  rewrite take_app_l by (rewrite len_take; lia).
  rewrite (take_all x (take x rs)) by (rewrite len_take; lia).
  rewrite drop_app_r by (rewrite len_take; lia).
  rewrite len_take by lia. replace (x + 1 - x) with 1 by lia.
  change (drop 1 (sanitize r :: drop x rs)) with (drop x rs).
  apply take_drop.
Qed.

(** X22.  In a prompt string of valid code points, [insertPromptRune] puts
    the rune at the cursor, and [backspacePromptRune] right after it gives
    the prompt back as it was, text and cursor. *)
Theorem prompt_insert_backspace (r : rune) (p : Prompt) (rs : list rune) :
  forallb ValidRune rs = true ->
  focusedBuffer p = string_of_runes rs ->
  0 <= focusedCursor p <= len rs ->
  exists p1,
    insertPromptRune r p = Some p1
    /\ runes_of_string (focusedBuffer p1)
       = take (focusedCursor p) rs ++ sanitize r :: drop (focusedCursor p) rs
    /\ backspacePromptRune p1 = Some p.
Proof.
  unfold focusedBuffer, focusedCursor. intros Hv Hs Hx.
  unfold insertPromptRune. destruct p as [focus pb px rb rx].
  cbn [promptFocus promptBuffer promptCursorX replaceBuffer replaceCursorX] in *.
  destruct (focus =? 0) eqn:F.
  - destruct (insert_then_remove pb rs px r Hv Hs Hx) as (s1 & I & R & B).
    rewrite I. cbn [bind]. eexists. split; [reflexivity |].
    cbn [promptFocus promptBuffer]. rewrite F. split; [exact R |].
    unfold backspacePromptRune.
    cbn [promptFocus promptBuffer promptCursorX replaceBuffer replaceCursorX]. rewrite F.
    destruct (Z.ltb_spec 0 (px + 1)); [| lia].
    rewrite B. cbn [bind]. do 2 f_equal. lia.
  - destruct (insert_then_remove rb rs rx r Hv Hs Hx) as (s1 & I & R & B).
    rewrite I. cbn [bind]. eexists. split; [reflexivity |].
    cbn [promptFocus replaceBuffer]. rewrite F. split; [exact R |].
    unfold backspacePromptRune.
    cbn [promptFocus promptBuffer promptCursorX replaceBuffer replaceCursorX]. rewrite F.
    destruct (Z.ltb_spec 0 (rx + 1)); [| lia].
    rewrite B. cbn [bind]. do 2 f_equal. lia.
Qed.

Lemma prompt_insert_backspace_witness :
  forallb ValidRune [102; 111; 111] = true
  /\ focusedBuffer (mkPrompt 0 [102; 111; 111] 1 [] 0) = string_of_runes [102; 111; 111]
  /\ 0 <= focusedCursor (mkPrompt 0 [102; 111; 111] 1 [] 0) <= len [102; 111; 111]
  /\ exists p1,
       insertPromptRune 120 (mkPrompt 0 [102; 111; 111] 1 [] 0) = Some p1
       /\ runes_of_string (focusedBuffer p1)
          = take (focusedCursor (mkPrompt 0 [102; 111; 111] 1 [] 0)) [102; 111; 111]
            ++ sanitize 120
               :: drop (focusedCursor (mkPrompt 0 [102; 111; 111] 1 [] 0)) [102; 111; 111]
       /\ backspacePromptRune p1 = Some (mkPrompt 0 [102; 111; 111] 1 [] 0).
Proof.
  assert (H1 : forallb ValidRune [102; 111; 111] = true) by reflexivity.
  assert (H2 : focusedBuffer (mkPrompt 0 [102; 111; 111] 1 [] 0)
               = string_of_runes [102; 111; 111]) by reflexivity.
  assert (H3 : 0 <= focusedCursor (mkPrompt 0 [102; 111; 111] 1 [] 0) <= len [102; 111; 111])
    by (change (0 <= 1 <= 3); lia).
  exact (conj H1 (conj H2 (conj H3 (prompt_insert_backspace 120 _ _ H1 H2 H3)))).
Defined.

Lemma rope_ok_LineCount (r : Rope) :
  rope_ok r -> LineCount r = len (split_lines (document r)).
Proof.
  intros H. destruct (rope_ok_eta r H) as (n & Hwf & ->).
  rewrite LineCount_ok, len_split_lines. reflexivity.
Qed.

Lemma Insert_flat (r : Rope) (line col ru : Z) :
  rope_ok r ->
  rope_ok (fst (Insert r line col ru))
  /\ same_text (document (fst (Insert r line col ru)))
       (flat_Insert (document r) line col ru).
Proof.
  intros H. split; [apply Insert_ok, H |].
  destruct (rope_ok_eta r H) as (n & Hwf & ->). cbn [document root].
  unfold flat_Insert.
  pose proof (getIndex_flat_index n line col Hwf) as G.
  destruct (flat_index (content n) line col) as [i |].
  - destruct (Insert_accepts n line col ru i Hwf G) as (n' & E & _ & Hc).
    rewrite E. cbn [fst document root].
    destruct Hc as [-> | ->]; [apply same_text_refl | apply same_text_sanitize].
  - destruct (getIndex (mkRope (Some n) (line_starts_of (content n))) line col)
      as [i [e |]] eqn:E.
    + rewrite (Insert_rejects n _ line col ru i e E). apply same_text_refl.
    + exfalso. apply G. reflexivity.
Qed.

Lemma Delete_flat (r : Rope) (line col : Z) :
  rope_ok r ->
  rope_ok (fst (Delete r line col))
  /\ same_text (document (fst (Delete r line col))) (flat_Delete (document r) line col).
Proof.
  intros H. split; [apply Delete_ok, H |].
  destruct (rope_ok_eta r H) as (n & Hwf & ->). cbn [document root].
  unfold flat_Delete.
  destruct ((col =? 0) && (line =? 0)) eqn:Hg.
  - unfold Delete. cbn [root]. rewrite Hg. apply same_text_refl.
  - pose proof (getIndex_flat_index n line col Hwf) as G.
    destruct (flat_index (content n) line col) as [i |].
    + destruct (Z.eqb_spec i 0) as [-> | Hi].
      * unfold Delete. cbn [root]. rewrite Hg, G. cbn [Z.eqb]. apply same_text_refl.
      * destruct (Delete_accepts n line col i Hwf Hg G Hi) as (n' & E & _ & Hc).
        rewrite E. cbn [fst document root].
        destruct Hc as [-> | ->]; [apply same_text_refl | apply same_text_sanitize].
    + destruct (getIndex (mkRope (Some n) (line_starts_of (content n))) line col)
        as [i [e |]] eqn:E.
      * unfold Delete. cbn [root]. rewrite Hg, E. apply same_text_refl.
      * exfalso. apply G. reflexivity.
Qed.

Lemma flat_Insert_same_text (c d : list Z) (line col ru : Z) :
  same_text c d -> same_text (flat_Insert c line col ru) (flat_Insert d line col ru).
Proof.
  intros H. unfold flat_Insert. rewrite (same_text_flat_index c d line col H).
  destruct (flat_index d line col); [apply same_text_insert_at, H | exact H].
Qed.

Lemma flat_Delete_same_text (c d : list Z) (line col : Z) :
  same_text c d -> same_text (flat_Delete c line col) (flat_Delete d line col).
Proof.
  intros H. unfold flat_Delete. rewrite (same_text_flat_index c d line col H).
  destruct ((col =? 0) && (line =? 0)); [exact H |].
  destruct (flat_index d line col) as [i |]; [| exact H].
  destruct (i =? 0); [exact H | apply same_text_remove_at, H].
Qed.

Lemma flat_index_some (c : list Z) (line col : Z) :
  0 <= line < len (split_lines c) ->
  exists i, flat_index c line col = Some i /\ 0 <= i <= len c.
Proof.
  intros H. rewrite flat_index_by_starts. rewrite len_split_lines in H.
  destruct (Z.leb_spec 0 line); [| lia].
  destruct (Z.ltb_spec line (len (line_starts_of c))); [| lia].
  cbn [andb]. eexists. split; [reflexivity |].
  pose proof (lineCharLength_nonneg c line H) as [N M].
  pose proof (clamp_range _ col N).
  pose proof (at_line_starts_bounds c line H). lia.
Qed.

(** On the flat document, deleting just after an inserted rune gives the
    document back. *)
Lemma flat_Delete_Insert (c : list Z) (line col ru : Z) :
  0 <= line < len (split_lines c) -> 0 <= col ->
  flat_Delete (flat_Insert c line col ru)
    (if ru =? newline then line + 1 else line)
    (if ru =? newline then 0 else col + 1) = c
  /\ len (split_lines (flat_Insert c line col ru))
     = len (split_lines c) + (if ru =? newline then 1 else 0).
Proof.
  intros Hline Hcol.
  destruct (flat_index_some c line col Hline) as (i & F & Hi).
  unfold flat_Insert. rewrite F. split.
  - unfold flat_Delete. rewrite (flat_index_after_insert c line col ru i Hcol F).
    assert (G : ((if ru =? newline then 0 else col + 1) =? 0)
                && ((if ru =? newline then line + 1 else line) =? 0) = false).
    { destruct (ru =? newline).
      - destruct (Z.eqb_spec (line + 1) 0); [lia | reflexivity].
      - destruct (Z.eqb_spec (col + 1) 0); [lia | reflexivity]. }
    rewrite G. destruct (Z.eqb_spec (i + 1) 0); [lia |].
    replace (i + 1 - 1) with i by lia. apply remove_insert_at, Hi.
  - rewrite !len_split_lines, !len_line_starts_of, count_newlines_insert_at. lia.
Qed.

(** ** Undo and redo of what [insertString] records *)

Lemma same_text_sym (c d : list Z) : same_text c d -> same_text d c.
Proof. unfold same_text. intros H. symmetry. exact H. Qed.

Lemma insertRunes_acc (runes : list Z) : forall (acc : list opEntry) (e : Editor),
  insertRunes runes acc e
  = (fst (insertRunes runes [] e), acc ++ snd (insertRunes runes [] e)).
Proof.
  induction runes as [| r rest IH]; intros acc e; cbn [insertRunes].
  - cbn [fst snd]. rewrite app_nil_r. reflexivity.
  - rewrite IH. rewrite (IH ([] ++ _)). cbn [fst snd app].
    rewrite <- app_assoc. reflexivity.
Qed.

Lemma insertRunes_cons (r : rune) (rest : list Z) (e : Editor) :
  insertRunes (r :: rest) [] e
  = (fst (insertRunes rest [] (after_rune r e)),
     mkOp (cursorY e) (cursorX e) (cursorY (after_rune r e)) (cursorX (after_rune r e)) r
     :: snd (insertRunes rest [] (after_rune r e))).
Proof.
  cbn [insertRunes]. rewrite insertRunes_acc. reflexivity.
Qed.

Lemma after_rune_facts (r : rune) (e : Editor) :
  buffer (after_rune r e) = fst (Insert (buffer e) (cursorY e) (cursorX e) r)
  /\ cursorY (after_rune r e) = (if r =? newline then cursorY e + 1 else cursorY e)
  /\ cursorX (after_rune r e) = (if r =? newline then 0 else cursorX e + 1).
Proof.
  unfold after_rune, bufferInsert. destruct (r =? newline); repeat split; reflexivity.
Qed.

Lemma buffer_performUndo_insert (ops : list opEntry) (g : Z) (b : bool) (e : Editor) :
  buffer (performUndo (mkAction true ops g b) e) = buffer (undo_ops ops e).
Proof.
  unfold performUndo, undo_ops. cbn [isInsert Editor.ops].
  destruct ops; reflexivity.
Qed.

Lemma buffer_cursorAfter (op : opEntry) (e : Editor) : buffer (cursorAfter op e) = buffer e.
Proof. unfold cursorAfter. destruct (op_r op =? newline); reflexivity. Qed.

Lemma buffer_performRedo_insert (ops : list opEntry) (g : Z) (b : bool) (e : Editor) :
  buffer (performRedo (mkAction true ops g b) e) = buffer (redo_ops ops e).
Proof.
  unfold performRedo, redo_ops. cbn [isInsert Editor.ops].
  destruct ops; [reflexivity | apply buffer_cursorAfter].
Qed.

Lemma undo_of_insertRunes (runes : list Z) : forall (e e2 : Editor),
  rope_ok (buffer e) ->
  0 <= cursorY e < LineCount (buffer e) -> 0 <= cursorX e ->
  rope_ok (buffer e2) ->
  same_text (document (buffer e2)) (document (buffer (fst (insertRunes runes [] e)))) ->
  rope_ok (buffer (undo_ops (snd (insertRunes runes [] e)) e2))
  /\ same_text (document (buffer (undo_ops (snd (insertRunes runes [] e)) e2)))
       (document (buffer e)).
Proof.
  induction runes as [| r rest IH]; intros e e2 Hok Hy Hx Hok2 Hst.
  - cbn [insertRunes fst snd] in *. unfold undo_ops. cbn [rev fold_left]. auto.
  - rewrite insertRunes_cons in *. cbn [fst snd] in *.
    destruct (after_rune_facts r e) as (Fb & Fy & Fx).
    rewrite (rope_ok_LineCount _ Hok) in Hy.
    destruct (Insert_flat (buffer e) (cursorY e) (cursorX e) r Hok) as [Hok1 Hst1].
    destruct (flat_Delete_Insert (document (buffer e)) (cursorY e) (cursorX e) r Hy Hx)
      as [RT LC].
    rewrite <- Fb in Hok1, Hst1.
    assert (Hy1 : 0 <= cursorY (after_rune r e) < LineCount (buffer (after_rune r e))).
    { rewrite (rope_ok_LineCount _ Hok1).
      assert (E : len (split_lines (document (buffer (after_rune r e))))
                  = len (split_lines (flat_Insert (document (buffer e)) (cursorY e)
                                        (cursorX e) r))).
      { rewrite !len_split_lines. f_equal. apply same_text_line_starts, Hst1. }
      rewrite E, LC, Fy. destruct (r =? newline); lia. }
    assert (Hx1 : 0 <= cursorX (after_rune r e))
      by (rewrite Fx; destruct (r =? newline); lia).
    destruct (IH (after_rune r e) e2 Hok1 Hy1 Hx1 Hok2 Hst) as [Hok3 Hst3].
    unfold undo_ops. cbn [rev]. rewrite fold_left_app. cbn [fold_left delLine delCol].
    fold (undo_ops (snd (insertRunes rest [] (after_rune r e))) e2).
    set (e3 := undo_ops (snd (insertRunes rest [] (after_rune r e))) e2) in *.
    unfold bufferDelete. cbn [buffer set_buffer].
    destruct (Delete_flat (buffer e3) (cursorY (after_rune r e)) (cursorX (after_rune r e)) Hok3)
      as [Hok4 Hst4].
    split; [exact Hok4 |].
    eapply same_text_trans; [exact Hst4 |].
    eapply same_text_trans;
      [apply flat_Delete_same_text; eapply same_text_trans; [exact Hst3 | exact Hst1] |].
    rewrite Fy, Fx, RT. apply same_text_refl.
Qed.

Lemma redo_of_insertRunes (runes : list Z) : forall (e e2 : Editor),
  rope_ok (buffer e) ->
  0 <= cursorY e < LineCount (buffer e) -> 0 <= cursorX e ->
  rope_ok (buffer e2) ->
  same_text (document (buffer e2)) (document (buffer e)) ->
  rope_ok (buffer (redo_ops (snd (insertRunes runes [] e)) e2))
  /\ same_text (document (buffer (redo_ops (snd (insertRunes runes [] e)) e2)))
       (document (buffer (fst (insertRunes runes [] e)))).
Proof.
  induction runes as [| r rest IH]; intros e e2 Hok Hy Hx Hok2 Hst.
  - cbn [insertRunes fst snd] in *. unfold redo_ops. cbn [fold_left]. auto.
  - rewrite insertRunes_cons. cbn [fst snd].
    destruct (after_rune_facts r e) as (Fb & Fy & Fx).
    rewrite (rope_ok_LineCount _ Hok) in Hy.
    destruct (Insert_flat (buffer e) (cursorY e) (cursorX e) r Hok) as [Hok1 Hst1].
    destruct (flat_Delete_Insert (document (buffer e)) (cursorY e) (cursorX e) r Hy Hx)
      as [_ LC].
    rewrite <- Fb in Hok1, Hst1.
    assert (Hy1 : 0 <= cursorY (after_rune r e) < LineCount (buffer (after_rune r e))).
    { rewrite (rope_ok_LineCount _ Hok1).
      assert (E : len (split_lines (document (buffer (after_rune r e))))
                  = len (split_lines (flat_Insert (document (buffer e)) (cursorY e)
                                        (cursorX e) r))).
      { rewrite !len_split_lines. f_equal. apply same_text_line_starts, Hst1. }
      rewrite E, LC, Fy. destruct (r =? newline); lia. }
    assert (Hx1 : 0 <= cursorX (after_rune r e))
      by (rewrite Fx; destruct (r =? newline); lia).
    unfold redo_ops. cbn [fold_left insertLine insertCol op_r].
    set (e2' := bufferInsert (cursorY e) (cursorX e) r e2).
    destruct (Insert_flat (buffer e2) (cursorY e) (cursorX e) r Hok2) as [Hok2' Hst2'].
    apply (IH (after_rune r e) e2' Hok1 Hy1 Hx1).
    + exact Hok2'.
    + eapply same_text_trans; [exact Hst2' |].
      eapply same_text_trans; [apply flat_Insert_same_text, Hst |].
      apply same_text_sym, Hst1.
Qed.

Lemma top_snoc (s : list undoAction) (a : undoAction) : top (s ++ [a]) = Some a.
Proof. unfold top. rewrite rev_app_distr. reflexivity. Qed.

Lemma insertRunes_nonempty (runes : list Z) (e : Editor) :
  runes <> [] -> (len (snd (insertRunes runes [] e)) =? 0) = false.
Proof.
  destruct runes as [| r rest]; [congruence |]. intros _.
  rewrite insertRunes_cons. cbn [snd]. rewrite len_cons.
  pose proof (len_nonneg (snd (insertRunes rest [] (after_rune r e)))).
  apply Z.eqb_neq. lia.
Qed.

(** X23.  [insertString] with a cursor in the text records one insert action
    that holds the runes of the string; [performUndo] of this action gives
    the document of before the insertion, and [performRedo] after that the
    document of after the insertion (up to what a rebalance does to runes
    that are not valid code points). *)
Theorem insertString_undo_redo (s : list Z) (e : Editor) :
  reachable (buffer e) ->
  0 <= cursorY e < LineCount (buffer e) ->
  0 <= cursorX e ->
  runes_of_string s <> [] ->
  exists a,
    top (undoStack (insertString s e)) = Some a
    /\ isInsert a = true
    /\ map op_r (ops a) = runes_of_string s
    /\ same_text (document (buffer (performUndo a (insertString s e))))
         (document (buffer e))
    /\ same_text (document (buffer (performRedo a (performUndo a (insertString s e)))))
         (document (buffer (insertString s e))).
Proof.
  intros Hr Hy Hx Hne. apply reachable_ok in Hr.
  unfold insertString.
  destruct (Z.eqb_spec (len (runes_of_string s)) 0) as [E0 | _].
  { apply len_zero_nil in E0. congruence. }
  set (e0 := if negb (undoGrouping e) then beginUndoGroup e else e).
  assert (F0 : buffer e0 = buffer e /\ cursorX e0 = cursorX e /\ cursorY e0 = cursorY e)
    by (unfold e0; destruct (negb (undoGrouping e)); repeat split; reflexivity).
  destruct F0 as (Fb & Fx & Fy).
  destruct (insertRunes (runes_of_string s) [] e0) as [e1 entries] eqn:E.
  assert (E1 : e1 = fst (insertRunes (runes_of_string s) [] e0)) by (rewrite E; reflexivity).
  assert (E2 : entries = snd (insertRunes (runes_of_string s) [] e0))
    by (rewrite E; reflexivity).
  pose proof (insertRunes_nonempty _ e0 Hne) as Hlen. rewrite <- E2 in Hlen.
  set (a := mkAction true entries (if undoGrouping e1 then currentGroupID e1 else 0) false).
  set (e2 := if negb (undoGrouping e)
             then endUndoGroup (pushUndoInsertBlock entries e1)
             else pushUndoInsertBlock entries e1).
  assert (P : pushUndoInsertBlock entries e1 = set_undoStack (undoStack e1 ++ [a]) e1)
    by (unfold pushUndoInsertBlock; rewrite Hlen; reflexivity).
  assert (F2 : buffer e2 = buffer e1 /\ undoStack e2 = undoStack e1 ++ [a])
    by (unfold e2; rewrite P; destruct (negb (undoGrouping e)); split; reflexivity).
  destruct F2 as (F2b & F2u).
  exists a. split; [rewrite F2u; apply top_snoc |].
  split; [reflexivity |].
  assert (Hok0 : rope_ok (buffer e0)) by (rewrite Fb; exact Hr).
  assert (Hy0 : 0 <= cursorY e0 < LineCount (buffer e0)) by (rewrite Fb, Fy; exact Hy).
  assert (Hx0 : 0 <= cursorX e0) by (rewrite Fx; exact Hx).
  split.
  { clear - E2. subst entries. cbn [ops a]. generalize e0.
    induction (runes_of_string s) as [| r rest IH]; intros e'; [reflexivity |].
    rewrite insertRunes_cons. cbn [snd map op_r]. f_equal. apply IH. }
  assert (Hok2 : rope_ok (buffer e2)).
  { rewrite F2b, E1.
    destruct (redo_of_insertRunes (runes_of_string s) e0 e0 Hok0 Hy0 Hx0 Hok0
                (same_text_refl _)) as [_ _].
    clear - Hok0. generalize dependent e0.
    induction (runes_of_string s) as [| r rest IH]; intros e' Hok'; [exact Hok' |].
    rewrite insertRunes_cons. cbn [fst]. apply IH.
    destruct (after_rune_facts r e') as (-> & _). apply Insert_ok, Hok'. }
  assert (Hst2 : same_text (document (buffer e2))
                   (document (buffer (fst (insertRunes (runes_of_string s) [] e0)))))
    by (rewrite F2b, E1; apply same_text_refl).
  destruct (undo_of_insertRunes (runes_of_string s) e0 e2 Hok0 Hy0 Hx0 Hok2 Hst2)
    as [Hok3 Hst3].
  rewrite <- E2 in Hok3, Hst3.
  unfold a at 1 2. rewrite !buffer_performUndo_insert.
  split; [rewrite <- Fb; exact Hst3 |].
  unfold a at 1. rewrite buffer_performRedo_insert.
  assert (Hb : buffer (performUndo a e2) = buffer (undo_ops entries e2))
    by apply buffer_performUndo_insert.
  destruct (redo_of_insertRunes (runes_of_string s) e0 (performUndo a e2) Hok0 Hy0 Hx0)
    as [_ Hst5].
  - rewrite Hb. exact Hok3.
  - rewrite Hb. exact Hst3.
  - rewrite <- E2 in Hst5. rewrite F2b, E1. exact Hst5.
Qed.

Lemma insertString_undo_redo_witness :
  reachable (buffer (NewEditor [104; 105]))
  /\ 0 <= cursorY (NewEditor [104; 105]) < LineCount (buffer (NewEditor [104; 105]))
  /\ 0 <= cursorX (NewEditor [104; 105])
  /\ runes_of_string [120; 10; 121] <> []
  /\ exists a,
       top (undoStack (insertString [120; 10; 121] (NewEditor [104; 105]))) = Some a
       /\ isInsert a = true
       /\ map op_r (ops a) = runes_of_string [120; 10; 121]
       /\ same_text
            (document (buffer (performUndo a (insertString [120; 10; 121]
                                                (NewEditor [104; 105])))))
            (document (buffer (NewEditor [104; 105])))
       /\ same_text
            (document (buffer (performRedo a
                                 (performUndo a (insertString [120; 10; 121]
                                                   (NewEditor [104; 105]))))))
            (document (buffer (insertString [120; 10; 121] (NewEditor [104; 105])))).
Proof.
  assert (H1 : reachable (buffer (NewEditor [104; 105]))) by apply reach_NewRope.
  assert (H2 : 0 <= cursorY (NewEditor [104; 105]) < LineCount (buffer (NewEditor [104; 105])))
    by (change (0 <= 0 < 1); lia).
  assert (H3 : 0 <= cursorX (NewEditor [104; 105])) by (change (0 <= 0); lia).
  assert (H4 : runes_of_string [120; 10; 121] <> []) by (vm_compute; discriminate).
  exact (conj H1 (conj H2 (conj H3 (conj H4
           (insertString_undo_redo [120; 10; 121] _ H1 H2 H3 H4))))).
Defined.

(** ** Keys that edit the text *)

Lemma after_rune_valid (r : rune) (e : Editor) :
  rope_ok (buffer e) ->
  0 <= cursorY e < LineCount (buffer e) -> 0 <= cursorX e ->
  rope_ok (buffer (after_rune r e))
  /\ 0 <= cursorY (after_rune r e) < LineCount (buffer (after_rune r e))
  /\ 0 <= cursorX (after_rune r e)
  /\ LineCount (buffer (after_rune r e))
     = LineCount (buffer e) + (if r =? newline then 1 else 0)
  /\ snd (Insert (buffer e) (cursorY e) (cursorX e) r) = None.
Proof.
  intros Hok Hy Hx.
  destruct (after_rune_facts r e) as (Fb & Fy & Fx).
  pose proof Hy as Hy'. rewrite (rope_ok_LineCount _ Hok) in Hy'.
  destruct (Insert_flat (buffer e) (cursorY e) (cursorX e) r Hok) as [Hok1 Hst1].
  destruct (flat_Delete_Insert (document (buffer e)) (cursorY e) (cursorX e) r Hy' Hx)
    as [_ LC].
  rewrite <- Fb in Hok1, Hst1.
  assert (E : LineCount (buffer (after_rune r e))
              = LineCount (buffer e) + (if r =? newline then 1 else 0)).
  { rewrite (rope_ok_LineCount _ Hok1), (rope_ok_LineCount _ Hok), <- LC.
    rewrite !len_split_lines. f_equal. apply same_text_line_starts, Hst1. }
  split; [exact Hok1 |]. rewrite E, Fy, Fx.
  split; [destruct (r =? newline); lia |].
  split; [destruct (r =? newline); lia |].
  split; [reflexivity |].
  destruct (rope_ok_eta _ Hok) as (n & Hwf & En). rewrite En in *.
  rewrite LineCount_ok in Hy.
  destruct (Insert_accepts n (cursorY e) (cursorX e) r _ Hwf
              (getIndex_valid n (cursorY e) (cursorX e) Hwf Hy)) as (n' & E' & _).
  rewrite E'. reflexivity.
Qed.

Lemma insertRunesChecked_ok (runes : list Z) : forall (acc : list opEntry) (e : Editor),
  rope_ok (buffer e) ->
  0 <= cursorY e < LineCount (buffer e) -> 0 <= cursorX e ->
  insertRunesChecked runes acc e
  = (fst (insertRunes runes acc e), inl (snd (insertRunes runes acc e))).
Proof.
  induction runes as [| r rest IH]; intros acc e Hok Hy Hx;
    cbn [insertRunesChecked insertRunes]; [reflexivity |].
  destruct (after_rune_valid r e Hok Hy Hx) as (Hok1 & Hy1 & Hx1 & _ & Hs).
  destruct (Insert (buffer e) (cursorY e) (cursorX e) r) as [b err] eqn:E.
  cbn [snd] in Hs. subst err.
  assert (A : (if r =? newline
               then set_cursorX 0 (set_cursorY (cursorY (set_buffer b e) + 1) (set_buffer b e))
               else set_cursorX (cursorX (set_buffer b e) + 1) (set_buffer b e))
              = after_rune r e).
  { unfold after_rune, bufferInsert. rewrite E. reflexivity. }
  cbv zeta. rewrite A.
  assert (B : (if r =? newline
               then set_cursorX 0
                      (set_cursorY (cursorY (bufferInsert (cursorY e) (cursorX e) r e) + 1)
                         (bufferInsert (cursorY e) (cursorX e) r e))
               else set_cursorX (cursorX (bufferInsert (cursorY e) (cursorX e) r e) + 1)
                      (bufferInsert (cursorY e) (cursorX e) r e))
              = after_rune r e) by reflexivity.
  rewrite B. apply IH; assumption.
Qed.

Lemma insertRunes_state (runes : list Z) : forall (e : Editor),
  rope_ok (buffer e) ->
  0 <= cursorY e < LineCount (buffer e) -> 0 <= cursorX e ->
  rope_ok (buffer (fst (insertRunes runes [] e)))
  /\ LineCount (buffer (fst (insertRunes runes [] e)))
     = LineCount (buffer e) + count_newlines runes
  /\ cursorY (fst (insertRunes runes [] e)) = cursorY e + count_newlines runes
  /\ (count_newlines runes = 0 ->
      cursorX (fst (insertRunes runes [] e)) = cursorX e + len runes)
  /\ map op_r (snd (insertRunes runes [] e)) = runes.
Proof.
  induction runes as [| r rest IH]; intros e Hok Hy Hx.
  - cbn [insertRunes fst snd map]. change (count_newlines []) with 0. change (len (@nil Z)) with 0.
    repeat split; try lia; assumption.
  - rewrite insertRunes_cons. cbn [fst snd map op_r].
    destruct (after_rune_valid r e Hok Hy Hx) as (Hok1 & Hy1 & Hx1 & LC & _).
    destruct (after_rune_facts r e) as (Fb & Fy & Fx).
    destruct (IH (after_rune r e) Hok1 Hy1 Hx1) as (I1 & I2 & I3 & I4 & I5).
    change (r :: rest) with ([r] ++ rest).
    rewrite count_newlines_app, count_newlines_single, len_app.
    change (len [r]) with 1.
    split; [exact I1 |]. split; [lia |]. split; [destruct (r =? newline); lia |].
    split; [| cbn [app]; f_equal; exact I5].
    intros Hz. pose proof (count_newlines_nonneg rest).
    destruct (r =? newline); [lia |]. rewrite I4 by lia. lia.
Qed.

Lemma flush_typing_view (e : Editor) :
  buffer (flushTypingGroup (flushDeleteGroup (flushBackspaceGroup e))) = buffer e
  /\ cursorX (flushTypingGroup (flushDeleteGroup (flushBackspaceGroup e))) = cursorX e
  /\ cursorY (flushTypingGroup (flushDeleteGroup (flushBackspaceGroup e))) = cursorY e
  /\ extraCursorHeight (flushTypingGroup (flushDeleteGroup (flushBackspaceGroup e)))
     = extraCursorHeight e
  /\ lastGroupID (flushTypingGroup (flushDeleteGroup (flushBackspaceGroup e)))
     = lastGroupID e
  /\ redoStack (flushTypingGroup (flushDeleteGroup (flushBackspaceGroup e)))
     = redoStack e.
Proof.
  unfold flushTypingGroup, flushDeleteGroup, flushBackspaceGroup,
    pushUndoInsertBlock, pushUndoDeleteBlock.
  destruct (negb (backspaceActive e)); destruct (0 <? len (backspaceEntries e));
    destruct (len (backspaceEntries e) =? 0); cbn;
    destruct (negb (deleteActive e)); destruct (0 <? len (deleteEntries e));
    destruct (len (deleteEntries e) =? 0); cbn;
    destruct (negb (typingActive e)); destruct (0 <? len (typingEntries e));
    destruct (len (typingEntries e) =? 0); cbn; repeat split; reflexivity.
Qed.

Lemma range_single (y : Z) : range y (y + 1) = [y].
Proof.
  unfold range. replace (y + 1 - y) with 1 by lia.
  change (Z.to_nat 1) with 1%nat. cbn [seq map]. f_equal. change (Z.of_nat 0) with 0. lia.
Qed.

Lemma dispatch_plain (env : Env) (r : rune) (e : Editor) :
  32 <= r -> r <> 127 -> dispatch env r e = Some (handleTyping env r e, None).
Proof.
  intros H1 H2. unfold dispatch.
  repeat match goal with
  | |- context [r =? ?k] => destruct (Z.eqb_spec r k); [lia |]
  end.
  reflexivity.
Qed.

(** X24.  A printable key (code 32 or more, but 127) given to [handleKey] with
    a single cursor in the text: the rune is inserted at the cursor (at the
    end of the line if the column is beyond it), the cursor moves one column
    to the right, the redo stack is emptied, and one insert action with a
    fresh group number is pushed.  The action records the column of the
    insertion as its delete column. *)
Theorem handleKey_types_a_rune (env : Env) (r : rune) (e : Editor) :
  reachable (buffer e) ->
  0 <= cursorY e < LineCount (buffer e) ->
  0 <= cursorX e ->
  extraCursorHeight e = 0 ->
  32 <= r -> r <> 127 ->
  exists e',
    handleKey env r e = Some (e', None)
    /\ same_text (document (buffer e'))
         (flat_Insert (document (buffer e)) (cursorY e)
            (Z.min (cursorX e) (len (lineRunes e (cursorY e)))) r)
    /\ cursorY e' = cursorY e
    /\ cursorX e' = cursorX e + 1
    /\ redoStack e' = []
    /\ top (undoStack e')
       = Some (mkAction true
                 [mkOp (cursorY e) (Z.min (cursorX e) (len (lineRunes e (cursorY e))))
                       (cursorY e) (Z.min (cursorX e) (len (lineRunes e (cursorY e)))) r]
                 (lastGroupID e) false).
Proof.
  intros Hr Hy Hx Hh H32 H127. apply reachable_ok in Hr.
  unfold handleKey.
  assert (K1 : keepsSelection r = false).
  { unfold keepsSelection.
    repeat match goal with
    | |- context [r =? ?k] => destruct (Z.eqb_spec r k); [lia |]
    end. reflexivity. }
  assert (K2 : keepsRedoStack r = false).
  { unfold keepsRedoStack.
    repeat match goal with
    | |- context [r =? ?k] => destruct (Z.eqb_spec r k); [lia |]
    end. reflexivity. }
  rewrite K1, K2. cbv zeta. rewrite dispatch_plain by assumption.
  eexists. split; [reflexivity |].
  set (e0 := set_redoStack [] (set_selectionActive false e)).
  unfold handleTyping.
  destruct (flush_typing_view e0) as (Vb & Vx & Vy & Vh & Vg & Vr).
  set (e1 := flushTypingGroup (flushDeleteGroup (flushBackspaceGroup e0))) in *.
  change (buffer e0) with (buffer e) in Vb. change (cursorX e0) with (cursorX e) in Vx.
  change (cursorY e0) with (cursorY e) in Vy.
  change (extraCursorHeight e0) with (extraCursorHeight e) in Vh.
  change (lastGroupID e0) with (lastGroupID e) in Vg.
  change (redoStack e0) with (@nil undoAction) in Vr.
  set (e2 := beginUndoGroup e1).
  assert (R : getMultiCursorRange e2 = (cursorY e, cursorY e)).
  { unfold getMultiCursorRange.
    change (extraCursorHeight e2) with (extraCursorHeight e1).
    change (cursorY e2) with (cursorY e1). rewrite Vh, Hh, Vy. reflexivity. }
  rewrite R, range_single. cbn [fold_left].
  unfold typeOnLine.
  change (buffer e2) with (buffer e1). change (cursorX e2) with (cursorX e1).
  change (lineRunes e2 (cursorY e)) with (runes_of_string (GetLine (buffer e1) (cursorY e))).
  rewrite Vb, Vx.
  change (runes_of_string (GetLine (buffer e) (cursorY e))) with (lineRunes e (cursorY e)).
  destruct (Z.leb_spec (LineCount (buffer e)) (cursorY e)); [lia |].
  set (tx := if len (lineRunes e (cursorY e)) <? cursorX e
             then len (lineRunes e (cursorY e)) else cursorX e).
  assert (Etx : tx = Z.min (cursorX e) (len (lineRunes e (cursorY e)))).
  { unfold tx. destruct (Z.ltb_spec (len (lineRunes e (cursorY e))) (cursorX e)); lia. }
  destruct (Insert_flat (buffer e) (cursorY e) tx r Hr) as [_ Hst].
  assert (Hs : snd (Insert (buffer e) (cursorY e) tx r) = None).
  { destruct (rope_ok_eta _ Hr) as (n & Hwf & En). rewrite En in *.
    rewrite LineCount_ok in Hy.
    destruct (Insert_accepts n (cursorY e) tx r _ Hwf
                (getIndex_valid n (cursorY e) tx Hwf Hy)) as (n' & E' & _).
    rewrite E'. reflexivity. }
  destruct (Insert (buffer e) (cursorY e) tx r) as [b err] eqn:E.
  cbn [fst snd] in Hst, Hs. subst err.
  unfold pushUndoInsertBlock. change (len [_] =? 0) with false.
  cbn [fst snd]. rewrite <- Etx.
  repeat split.
  - exact Hst.
  - cbn. exact Vy.
  - cbn. rewrite Vx. reflexivity.
  - cbn. exact Vr.
  - cbn [undoStack endUndoGroup set_undoGrouping set_lastTypeTime set_cursorX
         set_undoStack set_buffer].
    cbn [undoGrouping currentGroupID e2 beginUndoGroup set_undoGrouping set_currentGroupID
         set_lastGroupID].
    rewrite top_snoc. unfold e2, beginUndoGroup. cbn. rewrite Vg. reflexivity.
Qed.

Lemma handleKey_types_a_rune_witness :
  reachable (buffer (NewEditor [104; 105]))
  /\ 0 <= cursorY (NewEditor [104; 105]) < LineCount (buffer (NewEditor [104; 105]))
  /\ 0 <= cursorX (NewEditor [104; 105])
  /\ extraCursorHeight (NewEditor [104; 105]) = 0
  /\ 32 <= 120 /\ 120 <> 127
  /\ exists e',
       handleKey (env_at 0) 120 (NewEditor [104; 105]) = Some (e', None)
       /\ cursorX e' = cursorX (NewEditor [104; 105]) + 1
       /\ redoStack e' = [].
Proof.
  assert (H1 : reachable (buffer (NewEditor [104; 105]))) by apply reach_NewRope.
  assert (H2 : 0 <= cursorY (NewEditor [104; 105]) < LineCount (buffer (NewEditor [104; 105])))
    by (change (0 <= 0 < 1); lia).
  assert (H3 : 0 <= cursorX (NewEditor [104; 105])) by (change (0 <= 0); lia).
  assert (H4 : extraCursorHeight (NewEditor [104; 105]) = 0) by reflexivity.
  assert (H5 : 32 <= 120) by lia.
  assert (H6 : 120 <> 127) by lia.
  destruct (handleKey_types_a_rune (env_at 0) 120 _ H1 H2 H3 H4 H5 H6)
    as (e' & A & _ & _ & B & C & _).
  exact (conj H1 (conj H2 (conj H3 (conj H4 (conj H5 (conj H6
           (ex_intro _ e' (conj A (conj B C))))))))).
Defined.

Lemma takeIndent_plain (runes : list Z) :
  count_newlines (takeIndent runes) = 0
  /\ map sanitize (takeIndent runes) = takeIndent runes.
Proof.
  induction runes as [| c runes [IH1 IH2]]; cbn [takeIndent]; [split; reflexivity |].
  destruct (Z.eqb_spec c 32) as [-> | H32]; cbn [orb].
  - change (32 :: takeIndent runes) with ([32] ++ takeIndent runes).
    rewrite count_newlines_app, map_app, IH1, IH2. split; reflexivity.
  - destruct (Z.eqb_spec c 9) as [-> | H9]; [| split; reflexivity].
    change (9 :: takeIndent runes) with ([9] ++ takeIndent runes).
    rewrite count_newlines_app, map_app, IH1, IH2. split; reflexivity.
Qed.

(** X25.  The Enter key given to [handleKey] with a cursor in the text: a
    newline and the indentation of the current line are inserted, the buffer
    has one line more, the cursor is on the next line after the
    indentation, the redo stack is empty, and [performUndo] of the action
    pushed gives the document of before the key. *)
Theorem handleKey_enter (env : Env) (e : Editor) :
  reachable (buffer e) ->
  0 <= cursorY e < LineCount (buffer e) ->
  0 <= cursorX e ->
  exists e' a,
    handleKey env 13 e = Some (e', None)
    /\ top (undoStack e') = Some a
    /\ map op_r (ops a) = newline :: takeIndent (lineRunes e (cursorY e))
    /\ LineCount (buffer e') = LineCount (buffer e) + 1
    /\ cursorY e' = cursorY e + 1
    /\ cursorX e' = len (takeIndent (lineRunes e (cursorY e)))
    /\ redoStack e' = []
    /\ same_text (document (buffer (performUndo a e'))) (document (buffer e)).
Proof.
  intros Hr Hy Hx. apply reachable_ok in Hr.
  set (e0 := set_redoStack [] (set_selectionActive false e)).
  change (handleKey env 13 e) with (Some (handleEnter env e0, @None error)).
  unfold handleEnter.
  destruct (flush_typing_view e0) as (Vb & Vx & Vy & _ & _ & Vr).
  set (e1 := flushTypingGroup (flushDeleteGroup (flushBackspaceGroup e0))) in *.
  change (buffer e0) with (buffer e) in Vb. change (cursorX e0) with (cursorX e) in Vx.
  change (cursorY e0) with (cursorY e) in Vy.
  change (redoStack e0) with (@nil undoAction) in Vr.
  set (e2 := set_extraCursorHeight 0 e1).
  assert (V2 : buffer e2 = buffer e /\ cursorX e2 = cursorX e /\ cursorY e2 = cursorY e
               /\ redoStack e2 = []) by (unfold e2; cbn; auto).
  destruct V2 as (Wb & Wx & Wy & Wr).
  cbv zeta.
  set (ind := takeIndent (lineRunes e (cursorY e))).
  assert (Et : runes_of_string
                 ([newline] ++ string_of_runes
                    (takeIndent (runes_of_string (GetLine (buffer e2) (cursorY e2)))))
               = newline :: ind).
  { rewrite Wb, Wy. change (runes_of_string (GetLine (buffer e) (cursorY e)))
      with (lineRunes e (cursorY e)). fold ind.
    cbn [app]. rewrite decode1 by (unfold newline; lia).
    rewrite runes_of_string_of_runes. f_equal. apply takeIndent_plain. }
  rewrite Et.
  assert (Hok2 : rope_ok (buffer e2)) by (rewrite Wb; exact Hr).
  assert (Hy2 : 0 <= cursorY e2 < LineCount (buffer e2)) by (rewrite Wb, Wy; exact Hy).
  assert (Hx2 : 0 <= cursorX e2) by (rewrite Wx; exact Hx).
  rewrite (insertRunesChecked_ok (newline :: ind) [] e2 Hok2 Hy2 Hx2).
  destruct (insertRunes_state (newline :: ind) e2 Hok2 Hy2 Hx2) as (S1 & S2 & S3 & _ & S5).
  assert (Cn : count_newlines (newline :: ind) = 1).
  { change (newline :: ind) with ([newline] ++ ind).
    rewrite count_newlines_app, count_newlines_single.
    unfold ind. rewrite (proj1 (takeIndent_plain _)). reflexivity. }
  assert (Sx : cursorX (fst (insertRunes (newline :: ind) [] e2)) = len ind).
  { rewrite insertRunes_cons. cbn [fst].
    destruct (after_rune_valid newline e2 Hok2 Hy2 Hx2) as (A1 & A2 & A3 & _).
    destruct (after_rune_facts newline e2) as (_ & _ & Fx).
    destruct (insertRunes_state ind (after_rune newline e2) A1 A2 A3) as (_ & _ & _ & I4 & _).
    rewrite I4 by (unfold ind; apply takeIndent_plain).
    rewrite Fx. reflexivity. }
  set (e3 := fst (insertRunes (newline :: ind) [] e2)) in *.
  set (entries := snd (insertRunes (newline :: ind) [] e2)) in *.
  assert (Hlen : (len entries =? 0) = false).
  { unfold entries. apply insertRunes_nonempty. discriminate. }
  set (a := mkAction true entries (if undoGrouping e3 then currentGroupID e3 else 0) false).
  assert (P : pushUndoInsertBlock entries e3 = set_undoStack (undoStack e3 ++ [a]) e3)
    by (unfold pushUndoInsertBlock; rewrite Hlen; reflexivity).
  assert (R3 : redoStack e3 = []).
  { unfold e3. rewrite <- Wr. apply redo_insertRunes. }
  eexists. exists a. split; [reflexivity |].
  rewrite P. cbn [undoStack redoStack buffer cursorX cursorY set_undoStack set_lastTypeTime].
  split; [apply top_snoc |]. split; [exact S5 |].
  split; [rewrite S2, Cn, Wb; reflexivity |].
  split; [rewrite S3, Cn, Wy; reflexivity |].
  split; [exact Sx |]. split; [exact R3 |].
  unfold a. rewrite buffer_performUndo_insert.
  destruct (undo_of_insertRunes (newline :: ind) e2
              (set_lastTypeTime (now env) (set_undoStack (undoStack e3 ++ [a]) e3))
              Hok2 Hy2 Hx2) as [_ U].
  - exact S1.
  - apply same_text_refl.
  - fold entries in U. rewrite Wb in U. exact U.
Qed.

Lemma handleKey_enter_witness :
  reachable (buffer (NewEditor [32; 104]))
  /\ 0 <= cursorY (NewEditor [32; 104]) < LineCount (buffer (NewEditor [32; 104]))
  /\ 0 <= cursorX (NewEditor [32; 104])
  /\ exists e' a,
       handleKey (env_at 0) 13 (NewEditor [32; 104]) = Some (e', None)
       /\ top (undoStack e') = Some a
       /\ LineCount (buffer e') = LineCount (buffer (NewEditor [32; 104])) + 1
       /\ same_text (document (buffer (performUndo a e')))
            (document (buffer (NewEditor [32; 104]))).
Proof.
  assert (H1 : reachable (buffer (NewEditor [32; 104]))) by apply reach_NewRope.
  assert (H2 : 0 <= cursorY (NewEditor [32; 104]) < LineCount (buffer (NewEditor [32; 104])))
    by (change (0 <= 0 < 1); lia).
  assert (H3 : 0 <= cursorX (NewEditor [32; 104])) by (change (0 <= 0); lia).
  destruct (handleKey_enter (env_at 0) _ H1 H2 H3)
    as (e' & a & A & B & _ & C & _ & _ & _ & D).
  exact (conj H1 (conj H2 (conj H3
           (ex_intro _ e' (ex_intro _ a (conj A (conj B (conj C D)))))))).
Defined.

(** ** Backspace *)

(** What [GetLine] shows of a line is a prefix of the line. *)
Lemma line_shown_prefix (c : list Z) (line : Z) :
  line_shown c line = take (len (line_shown c line)) (line_text c line)
  /\ len (line_shown c line) <= len (line_text c line).
Proof.
  unfold line_shown, trim_cr. pose proof (len_nonneg (line_text c line)).
  destruct (line + 1 <? len (split_lines c)).
  - destruct ((0 <? len (line_text c line))
              && (at_ (line_text c line) (len (line_text c line) - 1) =? carriage_return))
      eqn:E.
    + apply andb_true_iff in E. destruct E as [E _]. apply Z.ltb_lt in E.
      rewrite len_take by lia. split; [reflexivity | lia].
    + rewrite take_all by lia. split; [reflexivity | lia].
  - rewrite take_all by lia. split; [reflexivity | lia].
Qed.

Lemma lineRunes_shown (e : Editor) (y : Z) :
  rope_ok (buffer e) -> 0 <= y < LineCount (buffer e) ->
  lineRunes e y = map sanitize (line_shown (document (buffer e)) y).
Proof.
  intros Hok Hy. unfold lineRunes.
  destruct (rope_ok_eta _ Hok) as (n & Hwf & En). rewrite En in *.
  rewrite LineCount_ok in Hy. cbn [document root].
  rewrite GetLine_content by assumption. apply runes_of_string_of_runes.
Qed.

(** The position just before a rune of a line, once the rune is removed. *)
Lemma flat_index_after_remove (c : list Z) (line col : Z) :
  0 <= line < len (split_lines c) ->
  1 <= col <= len (line_text c line) ->
  exists j,
    flat_index c line col = Some (j + 1)
    /\ 0 <= j < len c
    /\ (at_ c j =? newline) = false
    /\ j = line_offset (split_lines c) (Z.to_nat line) + col - 1
    /\ flat_index (remove_at j c) line (col - 1) = Some j.
Proof.
  intros Hline Hcol.
  pose proof (line_text_in_document c line Hline) as Et.
  pose proof (lineCharLength_line_text c line Hline) as Ek.
  pose proof (at_line_starts_offset c line Hline) as Es.
  rewrite len_split_lines in Hline.
  pose proof (lineCharLength_nonneg c line Hline) as [_ Hk1].
  pose proof (at_line_starts_bounds c line Hline) as Hs.
  set (s := line_offset (split_lines c) (Z.to_nat line)) in *.
  set (k := len (line_text c line)) in *.
  rewrite Es, Ek in Hk1. rewrite Es in Hs.
  exists (s + col - 1).
  assert (F : flat_index c line col = Some (s + col)).
  { unfold flat_index. rewrite len_split_lines.
    destruct (Z.leb_spec 0 line); [| lia].
    destruct (Z.ltb_spec line (len (line_starts_of c))); [| lia].
    cbn [andb]. fold s k. f_equal. unfold clamp.
    destruct (Z.ltb_spec col 0); [lia |]. destruct (Z.ltb_spec k col); lia. }
  assert (F0 : flat_index c line (col - 1) = Some (s + col - 1)).
  { unfold flat_index. rewrite len_split_lines.
    destruct (Z.leb_spec 0 line); [| lia].
    destruct (Z.ltb_spec line (len (line_starts_of c))); [| lia].
    cbn [andb]. fold s k. f_equal. unfold clamp.
    destruct (Z.ltb_spec (col - 1) 0); [lia |]. destruct (Z.ltb_spec k (col - 1)); lia. }
  split; [rewrite F; f_equal; lia |]. split; [lia |].
  assert (Hx : (at_ c (s + col - 1) =? newline) = false).
  { apply Z.eqb_neq. intros E. apply (line_text_no_newline c line).
    rewrite <- E, <- Et. fold s k.
    replace (s + col - 1) with (s + (col - 1)) by lia.
    rewrite <- at_drop by lia. rewrite <- (at_take _ k) by lia.
    apply at_In. rewrite len_take_any, len_drop by lia. lia. }
  split; [exact Hx |]. split; [reflexivity |].
  (* the line index of the text without the rune *)
  set (j := s + col - 1) in *.
  assert (Hj : 0 <= j < len c) by lia.
  pose proof (split_at c j Hj) as Hc.
  set (a := take j c) in *. set (b := drop (j + 1) c) in *. set (x := at_ c j) in *.
  assert (La : len a = j) by (unfold a; apply len_take; lia).
  assert (Er : remove_at j c = a ++ b) by reflexivity.
  assert (F1 : flat_index (a ++ x :: b) line (col - 1) = Some (len a))
    by (rewrite <- Hc, La; exact F0).
  pose proof (flat_index_cut a (x :: b) line (col - 1) F1) as HL.
  destruct (line_starts_cut a (x :: b)) as [S1 S2].
  destruct (line_starts_cut a b) as [T1 _].
  rewrite (newlines_from_cons_other _ _ _ Hx) in S1.
  set (A := line_starts_of a) in *. set (B := newlines_from (len a) b) in *.
  rewrite <- Hc in S1.
  assert (Hlen : len (line_starts_of c) = len A + len B)
    by (rewrite S1, len_app, len_map; reflexivity).
  assert (EA : at_ (line_starts_of c) line = at_ A line)
    by (rewrite S1; apply at_app_l; lia).
  assert (Ek' : lineCharLength (line_starts_of c) (len c) line = k) by exact Ek.
  rewrite Er, flat_index_by_starts, T1. fold A B.
  rewrite len_app.
  destruct (Z.leb_spec 0 line); [| lia].
  destruct (Z.ltb_spec line (len A + len B)); [| lia].
  cbn [andb]. f_equal. rewrite at_app_l by lia. rewrite <- EA, Es.
  assert (K : lineCharLength (A ++ B) (len (a ++ b)) line = k - 1).
  { rewrite <- Ek'. unfold lineCharLength. rewrite Hlen, !len_app.
    assert (Lc : len c = len a + 1 + len b)
      by (rewrite Hc at 1; rewrite len_app, len_cons; lia).
    destruct (Z.ltb_spec (line + 1) (len A + len B)).
    - rewrite S1. rewrite (at_app_r A (map (fun y => y + 1) B) (line + 1)) by lia.
      rewrite (at_app_r A B (line + 1)) by lia.
      rewrite (at_app_l A (map (fun y => y + 1) B) line) by lia.
      rewrite (at_app_l A B line) by lia.
      rewrite at_map by lia. lia.
    - rewrite S1. rewrite (at_app_l A (map (fun y => y + 1) B) line) by lia.
      rewrite (at_app_l A B line) by lia. lia. }
  rewrite K. unfold clamp.
  destruct (Z.ltb_spec (col - 1) 0); [lia |].
  destruct (Z.ltb_spec (k - 1) (col - 1)); lia.
Qed.

Lemma insert_remove_same_text (c : list Z) (j x : Z) :
  0 <= j < len c -> sanitize x = sanitize (at_ c j) ->
  same_text (insert_at j x (remove_at j c)) c.
Proof.
  intros Hj Hx. unfold same_text, insert_at, remove_at.
  rewrite take_app_l by (rewrite len_take; lia).
  rewrite (take_all j (take j c)) by (rewrite len_take; lia).
  rewrite drop_app_r by (rewrite len_take; lia).
  rewrite len_take by lia. replace (j - j) with 0 by lia.
  rewrite (drop_nonpos 0) by lia.
  rewrite (split_at c j Hj) at 3.
  rewrite !map_app. cbn [map]. rewrite Hx. reflexivity.
Qed.

Lemma flush_backspace_view (e : Editor) :
  buffer (flushDeleteGroup (flushTypingGroup e)) = buffer e
  /\ cursorX (flushDeleteGroup (flushTypingGroup e)) = cursorX e
  /\ cursorY (flushDeleteGroup (flushTypingGroup e)) = cursorY e
  /\ extraCursorHeight (flushDeleteGroup (flushTypingGroup e)) = extraCursorHeight e
  /\ lastGroupID (flushDeleteGroup (flushTypingGroup e)) = lastGroupID e
  /\ redoStack (flushDeleteGroup (flushTypingGroup e)) = redoStack e.
Proof.
  unfold flushTypingGroup, flushDeleteGroup, pushUndoInsertBlock, pushUndoDeleteBlock.
  destruct (negb (typingActive e)); destruct (0 <? len (typingEntries e));
    destruct (len (typingEntries e) =? 0); cbn;
    destruct (negb (deleteActive e)); destruct (0 <? len (deleteEntries e));
    destruct (len (deleteEntries e) =? 0); cbn; repeat split; reflexivity.
Qed.

(** X26.  The Backspace key given to [handleKey] with a single cursor after
    a rune of its line and no selection: the rune before the cursor is
    removed from the text, the cursor moves one column to the left on the
    same line, the redo stack is emptied, one delete action holding the
    removed rune and its position is pushed, and [performUndo] of that action
    gives the text back (up to the replacement of invalid runes). *)
Theorem handleKey_backspace (env : Env) (e : Editor) :
  reachable (buffer e) ->
  0 <= cursorY e < LineCount (buffer e) ->
  1 <= cursorX e <= len (lineRunes e (cursorY e)) ->
  extraCursorHeight e = 0 ->
  selectionActive e = false ->
  exists e',
    handleKey env 127 e = Some (e', None)
    /\ same_text (document (buffer e'))
         (flat_Delete (document (buffer e)) (cursorY e) (cursorX e))
    /\ cursorY e' = cursorY e
    /\ cursorX e' = cursorX e - 1
    /\ redoStack e' = []
    /\ top (undoStack e')
       = Some (mkAction false
                 [mkOp (cursorY e) (cursorX e - 1) 0 0
                       (at_ (lineRunes e (cursorY e)) (cursorX e - 1))]
                 (lastGroupID e) false)
    /\ same_text
         (document (buffer (performUndo
            (mkAction false
               [mkOp (cursorY e) (cursorX e - 1) 0 0
                     (at_ (lineRunes e (cursorY e)) (cursorX e - 1))]
               (lastGroupID e) false) e')))
         (document (buffer e)).
Proof.
  intros Hr Hy Hx Hh Hsel. apply reachable_ok in Hr.
  set (y := cursorY e) in *. set (x := cursorX e) in *.
  set (e0 := set_redoStack [] e).
  change (handleKey env 127 e)
    with (e1 <- handleBackspace e0 ;; Some (e1, @None error)).
  unfold handleBackspace. change (selectionActive e0) with (selectionActive e).
  rewrite Hsel.
  destruct (flush_backspace_view e0) as (Vb & Vx & Vy & Vh & Vg & Vr).
  set (e1 := flushDeleteGroup (flushTypingGroup e0)) in *.
  change (buffer e0) with (buffer e) in Vb. change (cursorX e0) with x in Vx.
  change (cursorY e0) with y in Vy.
  change (extraCursorHeight e0) with (extraCursorHeight e) in Vh.
  change (lastGroupID e0) with (lastGroupID e) in Vg.
  change (redoStack e0) with (@nil undoAction) in Vr.
  set (e2 := beginUndoGroup e1).
  assert (W : buffer e2 = buffer e /\ cursorX e2 = x /\ cursorY e2 = y
              /\ extraCursorHeight e2 = 0 /\ redoStack e2 = []
              /\ undoGrouping e2 = true /\ currentGroupID e2 = lastGroupID e).
  { unfold e2, beginUndoGroup. cbn. rewrite Vb, Vx, Vy, Vh, Vg, Vr, Hh. repeat split. }
  destruct W as (Wb & Wx & Wy & Wh & Wr & Wg & Wc).
  assert (R : getMultiCursorRange e2 = (y, y))
    by (unfold getMultiCursorRange; rewrite Wh, Wy; reflexivity).
  cbv zeta. rewrite R, range_single. cbn [rev app foldM].
  (* the line and the rune before the cursor *)
  pose proof (lineRunes_shown e y Hr Hy) as Els.
  assert (El2 : lineRunes e2 y = lineRunes e y) by (unfold lineRunes; rewrite Wb; reflexivity).
  destruct (line_shown_prefix (document (buffer e)) y) as [Ep Hp].
  assert (Hlen : len (lineRunes e y) = len (line_shown (document (buffer e)) y))
    by (rewrite Els; apply len_map).
  pose proof Hy as Hy'. rewrite (rope_ok_LineCount _ Hr) in Hy'.
  destruct (flat_index_after_remove (document (buffer e)) y x Hy' ltac:(lia))
    as (j & F1 & Hj & Hnl & Ej & F2).
  assert (Ech : sanitize (at_ (lineRunes e y) (x - 1))
                = sanitize (at_ (document (buffer e)) j)).
  { rewrite Els, at_map by lia. rewrite sanitize_idem. f_equal.
    rewrite Ep, at_take by lia.
    rewrite <- (line_text_in_document _ y Hy'). rewrite at_take by lia.
    rewrite at_drop by (try lia; apply line_offset_nonneg;
                        rewrite <- len_split_lines; exact Hy').
    f_equal. lia. }
  assert (FD : flat_Delete (document (buffer e)) y x = remove_at j (document (buffer e))).
  { unfold flat_Delete. destruct (Z.eqb_spec x 0); [lia |]. cbn [andb].
    rewrite F1. destruct (Z.eqb_spec (j + 1) 0); [lia |]. f_equal. lia. }
  unfold backspaceOnLine. rewrite Wb, Wx, Wh, El2. fold y.
  destruct (Z.leb_spec (LineCount (buffer e)) y); [lia |].
  destruct (Z.ltb_spec (len (lineRunes e y)) x); [lia |].
  destruct (Z.eqb_spec x 0); [lia |]. cbn [andb].
  destruct (Z.ltb_spec 0 x); [| lia].
  unfold getRuneAt. rewrite Wb, El2.
  destruct (Z.leb_spec (LineCount (buffer e)) y); [lia |].
  destruct (Z.leb_spec (len (lineRunes e y)) (x - 1)); [lia |].
  unfold index.
  destruct (Z.ltb_spec (x - 1) 0); [lia |].
  destruct (Z.leb_spec (len (lineRunes e y)) (x - 1)); [lia |].
  cbn [orb bind].
  set (ch := at_ (lineRunes e y) (x - 1)) in *.
  set (a := mkAction false [mkOp y (x - 1) 0 0 ch] (lastGroupID e) false).
  assert (P : pushUndoDeleteIfExternalGrouping y (x - 1) ch e2
              = set_undoStack (undoStack e2 ++ [a]) e2).
  { unfold pushUndoDeleteIfExternalGrouping, a. rewrite Wg, Wc. reflexivity. }
  rewrite P. unfold bufferDelete. cbn [buffer set_undoStack set_buffer cursorX].
  rewrite Wb, Wx. destruct (Z.ltb_spec 0 x); [| lia].
  destruct (Delete_flat (buffer e) y x Hr) as [Hok1 Hst1].
  eexists. split; [reflexivity |].
  cbn [buffer cursorX cursorY undoStack redoStack endUndoGroup set_undoGrouping
       set_cursorX set_buffer set_undoStack].
  split; [exact Hst1 |]. split; [exact Wy |]. split; [reflexivity |].
  split; [exact Wr |]. split; [apply top_snoc |].
  unfold performUndo. cbn [isInsert ops a fold_left isBackspace insertLine insertCol op_r].
  unfold bufferInsert. cbn [buffer set_cursorX set_cursorY set_buffer endUndoGroup
                            set_undoGrouping set_undoStack].
  destruct (Insert_flat (fst (Delete (buffer e) y x)) y (x - 1) ch Hok1) as [_ Hst2].
  eapply same_text_trans; [exact Hst2 |].
  eapply same_text_trans; [apply flat_Insert_same_text, Hst1 |].
  rewrite FD. unfold flat_Insert. rewrite F2.
  apply insert_remove_same_text; [exact Hj | exact Ech].
Qed.

Lemma handleKey_backspace_witness :
  reachable (buffer (set_cursorX 1 (NewEditor [104; 105])))
  /\ 0 <= cursorY (set_cursorX 1 (NewEditor [104; 105]))
       < LineCount (buffer (set_cursorX 1 (NewEditor [104; 105])))
  /\ 1 <= cursorX (set_cursorX 1 (NewEditor [104; 105]))
       <= len (lineRunes (set_cursorX 1 (NewEditor [104; 105]))
                 (cursorY (set_cursorX 1 (NewEditor [104; 105]))))
  /\ extraCursorHeight (set_cursorX 1 (NewEditor [104; 105])) = 0
  /\ selectionActive (set_cursorX 1 (NewEditor [104; 105])) = false
  /\ exists e',
       handleKey (env_at 0) 127 (set_cursorX 1 (NewEditor [104; 105])) = Some (e', None)
       /\ cursorX e' = cursorX (set_cursorX 1 (NewEditor [104; 105])) - 1
       /\ redoStack e' = [].
Proof.
  assert (H1 : reachable (buffer (set_cursorX 1 (NewEditor [104; 105]))))
    by apply reach_NewRope.
  assert (H2 : 0 <= cursorY (set_cursorX 1 (NewEditor [104; 105]))
               < LineCount (buffer (set_cursorX 1 (NewEditor [104; 105]))))
    by (change (0 <= 0 < 1); lia).
  assert (H3 : 1 <= cursorX (set_cursorX 1 (NewEditor [104; 105]))
               <= len (lineRunes (set_cursorX 1 (NewEditor [104; 105]))
                         (cursorY (set_cursorX 1 (NewEditor [104; 105])))))
    by (change (1 <= 1 <= 2); lia).
  assert (H4 : extraCursorHeight (set_cursorX 1 (NewEditor [104; 105])) = 0)
    by reflexivity.
  assert (H5 : selectionActive (set_cursorX 1 (NewEditor [104; 105])) = false)
    by reflexivity.
  destruct (handleKey_backspace (env_at 0) _ H1 H2 H3 H4 H5)
    as (e' & A & _ & _ & B & C & _).
  exact (conj H1 (conj H2 (conj H3 (conj H4 (conj H5
           (ex_intro _ e' (conj A (conj B C)))))))).
Defined.

End EditorExtras.
